(** * Confluence Gen AI agent: connector, record formatters and query orchestration

    A shallow embedding of [confluence_connector.py], [genai_agent.py],
    [verify_setup.py] and [main.py].

    - Python [str] is [string], one [ascii] per character: texts are taken
      over the 8-bit alphabet.  The bullets of the fixed messages lie
      outside it and are spelled as their three UTF-8 bytes.
    - Python values that reach the code from JSON are [pyval]; floating
      point numbers are left out.
    - The remote wiki client, the chat-completion client and [json.loads]
      are library code: they are the fields of a [world], and every call
      made to them is recorded in a chronological [trace] with the
      [logging] output.
    - Exceptions are values [exn]; code that can raise returns a [result]. *)

From Stdlib Require Import String Ascii List ZArith Bool Lia DecimalString.
From Equations Require Import Equations.
Import ListNotations.
Open Scope string_scope.

Set Implicit Arguments.

(** ** Strings as Python uses them *)

Module PyStr.

Definition dq : string := String (ascii_of_nat 34) EmptyString.
Definition nl : string := String (ascii_of_nat 10) EmptyString.
Definition bullet : string :=
  String (ascii_of_nat 226) (String (ascii_of_nat 128) (String (ascii_of_nat 162) EmptyString)).

(** [s[:n]] *)
Fixpoint take (n : nat) (s : string) : string :=
  match n, s with
  | S n', String c r => String c (take n' r)
  | _, _ => EmptyString
  end.

(** [sub in s] *)
Fixpoint contains (sub s : string) : bool :=
  prefix sub s ||
  match s with
  | EmptyString => false
  | String _ r => contains sub r
  end.

Definition lower_ascii (c : ascii) : ascii :=
  let n := nat_of_ascii c in
  if (65 <=? n)%nat && (n <=? 90)%nat then ascii_of_nat (n + 32) else c.

(** [s.lower()], on the letters A to Z.  Lowering another character of the
    alphabet never yields an ASCII character, and the code only searches
    the lower-cased text for ASCII words, so the searches are unaffected. *)
Fixpoint lower (s : string) : string :=
  match s with
  | EmptyString => EmptyString
  | String c r => String (lower_ascii c) (lower r)
  end.

(** [s.rstrip(c)] for a one-character argument: every trailing [c] goes. *)
Fixpoint rstrip (c : ascii) (s : string) : string :=
  match s with
  | EmptyString => EmptyString
  | String a r =>
      let r' := rstrip c r in
      if Ascii.eqb a c && String.eqb r' EmptyString then EmptyString
      else String a r'
  end.

(** [sep.join(l)] *)
Fixpoint join (sep : string) (l : list string) : string :=
  match l with
  | [] => EmptyString
  | [x] => x
  | x :: rest => x ++ sep ++ join sep rest
  end.

(** [c in s] for one character *)
Fixpoint mem (c : ascii) (s : string) : bool :=
  match s with
  | EmptyString => false
  | String a r => Ascii.eqb a c || mem c r
  end.

Definition of_Z (z : Z) : string := NilZero.string_of_int (Z.to_int z).
Definition of_nat (n : nat) : string := of_Z (Z.of_nat n).

Definition hex_digit (n : nat) : ascii :=
  ascii_of_nat (if (n <? 10)%nat then 48 + n else 87 + n).

(** [repr] of a [str]: single quotes unless the text has a single quote
    and no double quote; backslash, the quote, tab, newline and carriage
    return are escaped, and the other characters that do not print (below
    32, from 127 to 160, and 173) become [\xhh]. *)
Definition repr_char (q c : ascii) : string :=
  let n := nat_of_ascii c in
  if Ascii.eqb c q || Ascii.eqb c "\"%char then String "\"%char (String c EmptyString)
  else if (n =? 9)%nat then "\t"
  else if (n =? 10)%nat then "\n"
  else if (n =? 13)%nat then "\r"
  else if (n <? 32)%nat || ((127 <=? n)%nat && (n <=? 160)%nat) || (n =? 173)%nat then
    "\x" ++ String (hex_digit (n / 16)) (String (hex_digit (n mod 16)) EmptyString)
  else String c EmptyString.

Fixpoint repr_chars (q : ascii) (s : string) : string :=
  match s with
  | EmptyString => EmptyString
  | String c r => repr_char q c ++ repr_chars q r
  end.

Definition repr (s : string) : string :=
  let q := if mem "'"%char s && negb (mem (ascii_of_nat 34) s)
           then ascii_of_nat 34 else "'"%char in
  String q (repr_chars q s ++ String q EmptyString).

End PyStr.

Import PyStr.

(** ** Exceptions and results *)

Record exn : Type := Exn { exn_class : string; exn_str : string }.

Inductive result (A : Type) : Type :=
| Ok (a : A)
| Raise (e : exn).
Arguments Ok {A} a.
Arguments Raise {A} e.

Definition rbind {A B} (r : result A) (k : A -> result B) : result B :=
  match r with
  | Ok a => k a
  | Raise e => Raise e
  end.

(** ** Python values *)

Unset Elimination Schemes.
Inductive pyval : Type :=
| PNone
| PBool (b : bool)
| PInt (z : Z)
| PStr (s : string)
| PList (l : list pyval)
| PDict (d : list (string * pyval)).
Set Elimination Schemes.

(** A [dict] with [str] keys, in insertion order. *)
Definition dict := list (string * pyval).

Fixpoint py_repr (v : pyval) : string :=
  match v with
  | PNone => "None"
  | PBool true => "True"
  | PBool false => "False"
  | PInt z => of_Z z
  | PStr s => repr s
  | PList l => "[" ++ join ", " (map py_repr l) ++ "]"
  | PDict d =>
      "{" ++ join ", " (map (fun kv => match kv with
                                       | (k, x) => repr k ++ ": " ++ py_repr x
                                       end) d) ++ "}"
  end.

(** [str(v)], which is what an f-string placeholder inserts. *)
Definition py_str (v : pyval) : string :=
  match v with
  | PStr s => s
  | _ => py_repr v
  end.

(** Truth value, as tested by [if v:] and [not v]. *)
Definition truthy (v : pyval) : bool :=
  match v with
  | PNone => false
  | PBool b => b
  | PInt z => negb (z =? 0)%Z
  | PStr s => negb (String.eqb s EmptyString)
  | PList l => match l with [] => false | _ => true end
  | PDict d => match d with [] => false | _ => true end
  end.

Definition type_name (v : pyval) : string :=
  match v with
  | PNone => "NoneType"
  | PBool _ => "bool"
  | PInt _ => "int"
  | PStr _ => "str"
  | PList _ => "list"
  | PDict _ => "dict"
  end.

Fixpoint lookup (k : string) (d : dict) : option pyval :=
  match d with
  | [] => None
  | (k', v) :: rest => if String.eqb k k' then Some v else lookup k rest
  end.

(** [d.get(k, default)] on a dict: the default is used only when the key is
    absent; a key present with the value [None] yields [None]. *)
Definition dict_get (d : dict) (k : string) (default : pyval) : pyval :=
  match lookup k d with
  | Some v => v
  | None => default
  end.

(** [v.get(k, default)] on an arbitrary value. *)
Definition py_get (v : pyval) (k : string) (default : pyval) : result pyval :=
  match v with
  | PDict d => Ok (dict_get d k default)
  | _ => Raise (Exn "AttributeError"
                  ("'" ++ type_name v ++ "' object has no attribute 'get'"))
  end.

(** [d[k]] on a dict. *)
Definition dict_item (d : dict) (k : string) : result pyval :=
  match lookup k d with
  | Some v => Ok v
  | None => Raise (Exn "KeyError" (repr k))
  end.

(** [v[:n]] *)
Definition py_slice (v : pyval) (n : nat) : result pyval :=
  match v with
  | PStr s => Ok (PStr (take n s))
  | PList l => Ok (PList (firstn n l))
  | PDict _ => Raise (Exn "TypeError" "unhashable type: 'slice'")
  | _ => Raise (Exn "TypeError" ("'" ++ type_name v ++ "' object is not subscriptable"))
  end.

(** [s + v] for a [str] on the left. *)
Definition str_add (s : string) (v : pyval) : result pyval :=
  match v with
  | PStr t => Ok (PStr (s ++ t))
  | _ => Raise (Exn "TypeError"
                  ("can only concatenate str (not " ++ dq ++ type_name v ++ dq ++ ") to str"))
  end.

Fixpoint chars (s : string) : list pyval :=
  match s with
  | EmptyString => []
  | String c r => PStr (String c EmptyString) :: chars r
  end.

(** The items a [for x in v] loop visits. *)
Definition py_iter (v : pyval) : result (list pyval) :=
  match v with
  | PList l => Ok l
  | PDict d => Ok (map (fun kv => PStr (fst kv)) d)
  | PStr s => Ok (chars s)
  | _ => Raise (Exn "TypeError" ("'" ++ type_name v ++ "' object is not iterable"))
  end.

(** ** Tag stripping: [re.sub('<[^<]+?>', '', s)] *)

Module Re.

(** After [<] and one character other than [<] have been read, the lazy
    [[^<]+?] grows one character at a time until the next one is [>];
    meeting another [<], or the end of the text, fails the attempt.
    The result is what follows the closing [>]. *)
Fixpoint tag_close (s : string) : option string :=
  match s with
  | EmptyString => None
  | String c r =>
      if Ascii.eqb c ">"%char then Some r
      else if Ascii.eqb c "<"%char then None
      else tag_close r
  end.

(** A match of [<[^<]+?>] starting at the head of [s], if there is one:
    the text after the match. *)
Definition tag_at (s : string) : option string :=
  match s with
  | String c0 (String c1 r) =>
      if Ascii.eqb c0 "<"%char && negb (Ascii.eqb c1 "<"%char)
      then tag_close r else None
  | _ => None
  end.

Definition inspect {A} (a : A) : {b : A | a = b} := exist _ a eq_refl.

(** The scan of [re.sub] with an empty replacement: at each position the
    leftmost match is dropped and the scan resumes after it; a character
    that starts no match is copied. *)
Equations? sub_tags (s : string) : string by wf (String.length s) lt :=
  sub_tags EmptyString := EmptyString;
  sub_tags (String c r) with inspect (tag_at (String c r)) => {
    | exist _ (Some rest) H := sub_tags rest;
    | exist _ None _ := String c (sub_tags r) }.
Proof.
  assert (close : forall t rest', tag_close t = Some rest' ->
                                   String.length rest' < String.length t).
  { induction t as [|a t IH]; simpl; intros rest' Ht; [discriminate|].
    destruct (Ascii.eqb a ">"%char).
    - injection Ht as <-. lia.
    - destruct (Ascii.eqb a "<"%char); [discriminate|].
      apply IH in Ht. lia. }
  destruct r as [|c1 r]; [discriminate|].
  destruct (Ascii.eqb c "<"%char && negb (Ascii.eqb c1 "<"%char)); [|discriminate].
  apply close in H. simpl. lia.
Qed.

(** Some match of [<[^<]+?>] starts somewhere in [s]. *)
Fixpoint has_tag (s : string) : bool :=
  match tag_at s with
  | Some _ => true
  | None => match s with
            | EmptyString => false
            | String _ r => has_tag r
            end
  end.

(** Every [<] of [s] starts a match. *)
Fixpoint tags_closed (s : string) : bool :=
  match s with
  | EmptyString => true
  | String c r =>
      (if Ascii.eqb c "<"%char
       then match tag_at s with Some _ => true | None => false end
       else true) && tags_closed r
  end.

End Re.

(** ** The outside world, the trace and the monad of the program *)

Inductive level : Type := INFO | WARNING | ERROR.

(** The calls made on the [atlassian.Confluence] client. *)
Inductive api_call : Type :=
| api_get_all_spaces (start limit : pyval) (expand : option string)
| api_get_all_pages_from_space (space start limit : pyval) (expand : string)
| api_cql (cql_query : string) (limit : pyval) (expand : string)
| api_get_page_by_id (page_id : pyval) (expand : string)
| api_get_page_by_title (space title : pyval).

(** One [client.chat.completions.create] call. *)
Record chat_request : Type := Chat {
  chat_model : string;
  chat_system : string;
  chat_user : string;
  chat_temperature : string
}.

Inductive event : Type :=
| EvNew (url username password : string)
| EvApi (c : api_call)
| EvChat (r : chat_request)
| EvLog (lvl : level) (msg : string).

Definition trace := list event.
Bind Scope list_scope with trace.

(** What the libraries answer.  Each answer may depend on everything that
    happened before.  [chat_content] stands for the whole expression
    [create(...).choices[0].message.content], a [str] as [query]'s return
    annotation has it. *)
Record world : Type := World {
  confluence_new : trace -> result unit;
  confluence_api : trace -> api_call -> result pyval;
  chat_content : trace -> chat_request -> result string;
  json_loads : string -> result pyval
}.

(** [handle] tells whether [self.confluence] holds a client. *)
Record state : Type := State {
  handle : bool;
  events : trace
}.

Definition M (A : Type) : Type := state -> result A * state.

Definition ret {A} (a : A) : M A := fun st => (Ok a, st).

Definition raise {A} (e : exn) : M A := fun st => (Raise e, st).

Definition bind {A B} (m : M A) (k : A -> M B) : M B :=
  fun st =>
    match m st with
    | (Ok a, st') => k a st'
    | (Raise e, st') => (Raise e, st')
    end.

(** [try: m  except Exception as e: h e] *)
Definition try_except {A} (m : M A) (h : exn -> M A) : M A :=
  fun st =>
    match m st with
    | (Ok a, st') => (Ok a, st')
    | (Raise e, st') => h e st'
    end.

Definition lift {A} (r : result A) : M A := fun st => (r, st).

Definition emit (ev : event) : M unit :=
  fun st => (Ok tt, State (handle st) (events st ++ [ev])%list).

Definition log (lvl : level) (msg : string) : M unit := emit (EvLog lvl msg).

Definition get_handle : M bool := fun st => (Ok (handle st), st).

Definition set_handle (b : bool) : M unit :=
  fun st => (Ok tt, State b (events st)).

Declare Scope prog_scope.
Delimit Scope prog_scope with prog.
Notation "x <- m ;; k" := (bind m (fun x => k))
  (at level 61, m at next level, right associativity) : prog_scope.
Notation "m ;; k" := (bind m (fun _ => k))
  (at level 61, right associativity) : prog_scope.
Open Scope prog_scope.

(** [for x in l: body] where the body may raise and builds a list. *)
Fixpoint map_result {A B} (f : A -> result B) (l : list A) : result (list B) :=
  match l with
  | [] => Ok []
  | x :: rest =>
      rbind (f x) (fun y => rbind (map_result f rest) (fun ys => Ok (y :: ys)))
  end.

Section Program.

Variable w : world.

Definition api (c : api_call) : M pyval :=
  fun st =>
    (confluence_api w (events st) c, State (handle st) (events st ++ [EvApi c])%list).

Definition chat (r : chat_request) : M string :=
  fun st =>
    (chat_content w (events st) r, State (handle st) (events st ++ [EvChat r])%list).

Definition new_client (url username password : string) : M unit :=
  fun st =>
    (confluence_new w (events st),
     State (handle st) (events st ++ [EvNew url username password])%list).

(** *** confluence_connector.py *)

Record connector : Type := Connector {
  url : string;
  username : string;
  api_token : string;
  default_space : option string
}.

Variable self : connector.

Definition connect : M unit :=
  try_except
    (new_client (url self) (username self) (api_token self) ;;
     set_handle true ;;
     try_except
       (_ <- api (api_get_all_spaces (PInt 0) (PInt 1) None) ;;
        log INFO ("Successfully connected to Confluence as: " ++ username self))
       (fun verify_error =>
          log WARNING ("Could not verify connection by getting spaces: "
                       ++ exn_str verify_error) ;;
          log INFO ("Confluence connection initialized for: " ++ username self)) ;;
     ret tt)
    (fun e =>
       log ERROR ("Failed to connect to Confluence: " ++ exn_str e) ;;
       raise e).

(** [if not self.confluence: self.connect()] *)
Definition ensure_connected : M unit :=
  h <- get_handle ;;
  if h then ret tt else connect.

(** [v.get(k1, {}).get(k2, {}).get(k3, default)] *)
Definition get3 (v : pyval) (k1 k2 k3 : string) (default : pyval) : result pyval :=
  rbind (py_get v k1 (PDict []))
    (fun a => rbind (py_get a k2 (PDict []))
       (fun b => py_get b k3 default)).

Definition get2 (v : pyval) (k1 k2 : string) (default : pyval) : result pyval :=
  rbind (py_get v k1 (PDict [])) (fun a => py_get a k2 default).

(** [self.url.rstrip('/') + webui] *)
Definition page_url (webui : pyval) : result pyval :=
  str_add (rstrip "/"%char (url self)) webui.

Definition space_record (space : pyval) : result dict :=
  rbind (py_get space "key" PNone) (fun key =>
  rbind (py_get space "name" PNone) (fun name =>
  rbind (py_get space "type" PNone) (fun type =>
  rbind (get3 space "description" "plain" "value" (PStr "")) (fun description =>
  rbind (get2 space "_links" "webui" (PStr "")) (fun page_count =>
  Ok [("key", key); ("name", name); ("type", type);
      ("description", description); ("page_count", page_count)]))))).

Definition get_spaces (limit : pyval) : M (list dict) :=
  ensure_connected ;;
  try_except
    (spaces <- api (api_get_all_spaces (PInt 0) limit (Some "description.plain")) ;;
     results <- lift (py_get spaces "results" (PList [])) ;;
     items <- lift (py_iter results) ;;
     result <- lift (map_result space_record items) ;;
     log INFO ("Retrieved " ++ of_nat (List.length result) ++ " spaces") ;;
     ret result)
    (fun e =>
       log ERROR ("Failed to retrieve spaces: " ++ exn_str e) ;;
       raise e).

Definition page_record (space_key page : pyval) : result dict :=
  rbind (py_get page "id" PNone) (fun id =>
  rbind (py_get page "title" PNone) (fun title =>
  rbind (get2 page "version" "number" (PInt 0)) (fun version =>
  rbind (get3 page "body" "storage" "value" (PStr "")) (fun value =>
  rbind (py_slice value 500) (fun content =>
  rbind (get2 page "_links" "webui" (PStr "")) (fun webui =>
  rbind (page_url webui) (fun link =>
  Ok [("id", id); ("title", title); ("space", space_key);
      ("version", version); ("content", content); ("url", link)]))))))).

Definition get_pages_from_space (space_key limit : pyval) : M (list dict) :=
  ensure_connected ;;
  try_except
    (pages <- api (api_get_all_pages_from_space space_key (PInt 0) limit
                     "body.storage,version") ;;
     items <- lift (py_iter pages) ;;
     result <- lift (map_result (page_record space_key) items) ;;
     log INFO ("Retrieved " ++ of_nat (List.length result)
               ++ " pages from space: " ++ py_str space_key) ;;
     ret result)
    (fun e =>
       log ERROR ("Failed to retrieve pages from space: " ++ exn_str e) ;;
       raise e).

(** [re.sub('<[^<]+?>', '', content)] on an arbitrary value. *)
Definition re_sub_tags (content : pyval) : result string :=
  match content with
  | PStr s => Ok (Re.sub_tags s)
  | _ => Raise (Exn "TypeError"
                  ("expected string or bytes-like object, got '"
                   ++ type_name content ++ "'"))
  end.

(** The snippet of one search hit: tags stripped, then the first 300
    characters. *)
Definition snippet (content : pyval) : result string :=
  rbind (re_sub_tags content) (fun text => Ok (take 300 text)).

Definition search_record (item : pyval) : result dict :=
  rbind (get3 item "body" "storage" "value" (PStr "")) (fun content =>
  rbind (snippet content) (fun text_content =>
  rbind (py_get item "id" PNone) (fun id =>
  rbind (py_get item "title" PNone) (fun title =>
  rbind (get2 item "content" "type" (PStr "")) (fun type =>
  rbind (get2 item "space" "key" (PStr "")) (fun space =>
  rbind (get2 item "space" "name" (PStr "")) (fun space_name =>
  rbind (get2 item "_links" "webui" (PStr "")) (fun webui =>
  rbind (page_url webui) (fun link =>
  rbind (get2 item "version" "number" (PInt 0)) (fun version =>
  Ok [("id", id); ("title", title); ("type", type); ("space", space);
      ("space_name", space_name); ("content", PStr text_content);
      ("url", link); ("version", version)])))))))))).

Definition cql_for (query space_key : pyval) : string :=
  let cql_query := "text ~ " ++ dq ++ py_str query ++ dq in
  if truthy space_key then cql_query ++ " AND space = " ++ py_str space_key
  else cql_query.

Definition search_content (query space_key max_results : pyval) : M (list dict) :=
  ensure_connected ;;
  try_except
    (search_results <- api (api_cql (cql_for query space_key) max_results
                              "body.storage,version,space") ;;
     results <- lift (py_get search_results "results" (PList [])) ;;
     items <- lift (py_iter results) ;;
     result <- lift (map_result search_record items) ;;
     log INFO ("Search returned " ++ of_nat (List.length result)
               ++ " results for query: " ++ py_str query) ;;
     ret result)
    (fun e =>
       log ERROR ("Search failed: " ++ exn_str e) ;;
       raise e).

Definition get_page_content (page_id : pyval) : M (option string) :=
  ensure_connected ;;
  try_except
    (page <- api (api_get_page_by_id page_id "body.storage,version,space") ;;
     if truthy page then
       content <- lift (get3 page "body" "storage" "value" (PStr "")) ;;
       text_content <- lift (re_sub_tags content) ;;
       ret (Some text_content)
     else ret None)
    (fun e =>
       log ERROR ("Failed to get page content: " ++ exn_str e) ;;
       ret None).

Definition get_page_by_title (space_key title : pyval) : M (option dict) :=
  ensure_connected ;;
  try_except
    (page <- api (api_get_page_by_title space_key title) ;;
     if truthy page then
       id <- lift (py_get page "id" PNone) ;;
       ptitle <- lift (py_get page "title" PNone) ;;
       webui <- lift (get2 page "_links" "webui" (PStr "")) ;;
       link <- lift (page_url webui) ;;
       ret (Some [("id", id); ("title", ptitle); ("space", space_key); ("url", link)])
     else ret None)
    (fun e =>
       log ERROR ("Failed to get page by title: " ++ exn_str e) ;;
       ret None).

End Program.

(** ** genai_agent.py *)

(** [for i, x in enumerate(l, i0): formatted = body i x formatted] *)
Fixpoint enumerate_loop (body : Z -> dict -> string -> result string)
    (i : Z) (l : list dict) (formatted : string) : result string :=
  match l with
  | [] => Ok formatted
  | x :: rest => rbind (body i x formatted) (enumerate_loop body (i + 1) rest)
  end.

(** [formatted += f"   <label>: {r.get(k, '')[:n]}...\n"] under [if r.get(k):] *)
Definition preview_line (label k : string) (n : nat) (r : dict)
    (formatted : string) : result string :=
  if truthy (dict_get r k PNone) then
    rbind (py_slice (dict_get r k (PStr "")) n) (fun shown =>
    Ok (formatted ++ "   " ++ label ++ ": " ++ py_str shown ++ "..." ++ nl))
  else Ok formatted.

(** [formatted += f"   URL: {r.get('url', 'N/A')}\n"] under [if r.get('url'):] *)
Definition url_line (r : dict) (formatted : string) : string :=
  if truthy (dict_get r "url" PNone)
  then formatted ++ "   URL: " ++ py_str (dict_get r "url" (PStr "N/A")) ++ nl
  else formatted.

Definition search_entry (i : Z) (res : dict) (formatted : string) : result string :=
  let formatted := formatted ++ nl ++ of_Z i ++ ". Title: "
                   ++ py_str (dict_get res "title" (PStr "N/A")) ++ nl in
  let formatted := formatted ++ "   Space: "
                   ++ py_str (dict_get res "space_name" (dict_get res "space" (PStr "N/A")))
                   ++ nl in
  let formatted := formatted ++ "   Type: "
                   ++ py_str (dict_get res "type" (PStr "N/A")) ++ nl in
  rbind (preview_line "Content" "content" 200 res formatted) (fun formatted =>
  Ok (url_line res formatted)).

Definition _format_search_results (results : list dict) : result string :=
  match results with
  | [] => Ok "No results found."
  | _ => enumerate_loop search_entry 1 results ("Search Results:" ++ nl)
  end.

Definition page_entry (i : Z) (page : dict) (formatted : string) : result string :=
  let formatted := formatted ++ nl ++ of_Z i ++ ". "
                   ++ py_str (dict_get page "title" (PStr "N/A")) ++ nl in
  let formatted := formatted ++ "   ID: "
                   ++ py_str (dict_get page "id" (PStr "N/A")) ++ nl in
  rbind (preview_line "Preview" "content" 150 page formatted) (fun formatted =>
  Ok (url_line page formatted)).

Definition _format_pages (pages : list dict) (space_key : pyval) : result string :=
  match pages with
  | [] => Ok ("No pages found in space: " ++ py_str space_key)
  | _ => enumerate_loop page_entry 1 pages
           ("Pages from space '" ++ py_str space_key ++ "':" ++ nl)
  end.

Definition space_entry (i : Z) (space : dict) (formatted : string) : result string :=
  let formatted := formatted ++ nl ++ of_Z i ++ ". "
                   ++ py_str (dict_get space "name" (PStr "N/A"))
                   ++ " (Key: " ++ py_str (dict_get space "key" (PStr "N/A")) ++ ")" ++ nl in
  rbind (preview_line "Description" "description" 100 space formatted) (fun formatted =>
  Ok (formatted ++ "   Type: " ++ py_str (dict_get space "type" (PStr "N/A")) ++ nl)).

Definition _format_spaces (spaces : list dict) : result string :=
  match spaces with
  | [] => Ok "No spaces found."
  | _ => enumerate_loop space_entry 1 spaces ("Available Confluence Spaces:" ++ nl)
  end.

Definition system_prompt : string :=
  "You are an intelligent Confluence assistant. "
    ++ nl ++ "            When a user asks a question, analyze it and determine:"
    ++ nl ++ "            1. Whether they want to search for something specific"
    ++ nl ++ "            2. Whether they want to see spaces"
    ++ nl ++ "            3. Whether they want to see pages from a specific space"
    ++ nl ++ "            4. What keywords or space names are relevant"
    ++ nl ++ "            "
    ++ nl ++ "            Respond ONLY with a JSON object containing:"
    ++ nl ++ "            {"
    ++ nl ++ "                " ++ dq ++ "action" ++ dq ++ ": " ++ dq ++ "search" ++ dq ++ " | " ++ dq ++ "get_pages" ++ dq ++ " | " ++ dq ++ "get_spaces" ++ dq ++ " | " ++ dq ++ "general" ++ dq ++ ","
    ++ nl ++ "                " ++ dq ++ "space_key" ++ dq ++ ": " ++ dq ++ "key of space if applicable" ++ dq ++ ","
    ++ nl ++ "                " ++ dq ++ "search_query" ++ dq ++ ": " ++ dq ++ "search keywords if applicable" ++ dq ++ ","
    ++ nl ++ "                " ++ dq ++ "max_results" ++ dq ++ ": number"
    ++ nl ++ "            }".

Definition synthesis_system : string :=
  "You are a helpful Confluence assistant. Provide clear, concise answers based on the data provided.".

Definition response_prompt (user_query confluence_data : string) : string :=
  "Based on the following Confluence data and the user's question, "
    ++ nl ++ "            provide a clear, helpful answer. If the data doesn't fully answer the question, "
    ++ nl ++ "            indicate what information is available and suggest next steps."
    ++ nl ++ ""
    ++ nl ++ "            User Question: " ++ user_query
    ++ nl ++ ""
    ++ nl ++ "            Confluence Data:"
    ++ nl ++ "            " ++ confluence_data
    ++ nl ++ ""
    ++ nl ++ "            Provide a natural, conversational response that directly addresses the user's question.".

Definition quota_message : string :=
  "I encountered a quota/billing issue with the OpenAI API."
    ++ nl ++ ""
    ++ nl ++ "This usually means:"
    ++ nl ++ "1. Your free trial credits have been used up"
    ++ nl ++ "2. You need to add a payment method"
    ++ nl ++ "3. You've reached your spending limit"
    ++ nl ++ "4. You're making requests too quickly (rate limit)"
    ++ nl ++ ""
    ++ nl ++ "To fix this:"
    ++ nl ++ bullet ++ " Go to https://platform.openai.com/account/billing and add a payment method"
    ++ nl ++ bullet ++ " Check your usage at https://platform.openai.com/account/usage"
    ++ nl ++ bullet ++ " Increase spending limits if needed"
    ++ nl ++ bullet ++ " Wait a few minutes if it's a rate limit issue"
    ++ nl ++ ""
    ++ nl ++ "See FIX_OPENAI_QUOTA.md for detailed instructions.".

Definition auth_message : string :=
  "I encountered an authentication error with the OpenAI API."
    ++ nl ++ ""
    ++ nl ++ "Please check:"
    ++ nl ++ bullet ++ " Your OPENAI_API_KEY in the .env file is correct"
    ++ nl ++ bullet ++ " The API key hasn't been revoked"
    ++ nl ++ bullet ++ " You're using a valid API key from https://platform.openai.com/api-keys".

Definition model_message : string :=
  "I encountered an error with the AI model."
    ++ nl ++ ""
    ++ nl ++ "Please check:"
    ++ nl ++ bullet ++ " Your OPENAI_MODEL in .env is a valid model name (e.g., gpt-3.5-turbo)"
    ++ nl ++ bullet ++ " You have access to the specified model"
    ++ nl ++ bullet ++ " See FIX_MODEL_ERROR.md for model options".

Definition generic_message (error_msg : string) : string :=
  "I encountered an error while processing your query: " ++ error_msg.

(** The [if]/[elif] cascade of the [except] clause of [query]. *)
Definition error_answer (error_msg : string) : string :=
  if contains "429" error_msg || contains "quota" (lower error_msg)
     || contains "insufficient_quota" (lower error_msg)
  then quota_message
  else if contains "401" error_msg || contains "unauthorized" (lower error_msg)
  then auth_message
  else if contains "404" error_msg || contains "model" (lower error_msg)
  then model_message
  else generic_message error_msg.

Definition is_action (action : pyval) (name : string) : bool :=
  match action with
  | PStr s => String.eqb s name
  | _ => false
  end.

Definition opt_str (o : option string) : pyval :=
  match o with
  | Some s => PStr s
  | None => PNone
  end.

Record agent : Type := Agent {
  model : string;
  confluence : connector
}.

Section Agent.

Variable w : world.
Variable self : agent.

(** The lines added for the spaces when no space key is known. *)
Fixpoint space_lines (spaces : list dict) (confluence_data : string) : result string :=
  match spaces with
  | [] => Ok confluence_data
  | space :: rest =>
      rbind (dict_item space "name") (fun name =>
      rbind (dict_item space "key") (fun key =>
      space_lines rest
        (confluence_data ++ "- " ++ py_str name ++ " (Key: " ++ py_str key ++ ")" ++ nl)))
  end.

(** Step 2 of [query]: fetch and format the data the analysis asks for. *)
Definition fetch (user_query : string) (analysis action : pyval) : M string :=
  if is_action action "get_spaces" then
    limit <- lift (py_get analysis "max_results" (PInt 100)) ;;
    spaces <- get_spaces w (confluence self) limit ;;
    lift (_format_spaces spaces)
  else if is_action action "get_pages" then
    space_key <- lift (py_get analysis "space_key"
                         (opt_str (default_space (confluence self)))) ;;
    if truthy space_key then
      limit <- lift (py_get analysis "max_results" (PInt 50)) ;;
      pages <- get_pages_from_space w (confluence self) space_key limit ;;
      lift (_format_pages pages space_key)
    else
      spaces <- get_spaces w (confluence self) (PInt 100) ;;
      lift (space_lines spaces ("Space key not specified. Available spaces:" ++ nl))
  else if is_action action "search" then
    search_query <- lift (py_get analysis "search_query" (PStr user_query)) ;;
    space_key <- lift (py_get analysis "space_key" PNone) ;;
    max_results <- lift (py_get analysis "max_results" (PInt 20)) ;;
    results <- search_content w (confluence self) search_query space_key max_results ;;
    lift (_format_search_results results)
  else
    results <- search_content w (confluence self) (PStr user_query) PNone (PInt 20) ;;
    lift (_format_search_results results).

(** The [try] block of [query]. *)
Definition query_body (user_query : string) : M string :=
  content <- chat w (Chat (model self) system_prompt user_query "0.1") ;;
  analysis <- lift (json_loads w content) ;;
  action <- lift (py_get analysis "action" (PStr "general")) ;;
  confluence_data <- fetch user_query analysis action ;;
  answer <- chat w (Chat (model self) synthesis_system
                      (response_prompt user_query confluence_data) "0.7") ;;
  log INFO ("Generated response for query: " ++ take 50 user_query ++ "...") ;;
  ret answer.

Definition query (user_query : string) : M string :=
  try_except (query_body user_query)
    (fun e =>
       log ERROR ("Error processing query: " ++ exn_str e) ;;
       let error_msg := exn_str e in
       ret (error_answer error_msg)).

End Agent.

(** ** Construction from the environment *)

(** [os.getenv]: the value of a variable, if it is set. *)
Definition environ := string -> option string.

Definition text_of (o : option string) : string :=
  match o with
  | Some s => s
  | None => EmptyString
  end.

Section Construction.

Variable w : world.
Variable getenv : environ.

(** [ConfluenceConnector.__init__]: the credentials are read, all three
    must be set and not empty, and the new connector has no client yet. *)
Definition ConfluenceConnector__init__ : M connector :=
  let url := getenv "CONFLUENCE_URL" in
  let username := getenv "CONFLUENCE_USERNAME" in
  let api_token := getenv "CONFLUENCE_API_TOKEN" in
  let default_space := getenv "CONFLUENCE_SPACE_KEY" in
  if negb (truthy (opt_str url) && truthy (opt_str username)
           && truthy (opt_str api_token))
  then raise (Exn "ValueError"
                "Missing required Confluence credentials in environment variables")
  else
    set_handle false ;;
    ret (Connector (text_of url) (text_of username) (text_of api_token) default_space).

(** [ConfluenceGenAIAgent.__init__].  [openai_client] is what constructing
    the [OpenAI] client gives. *)
Definition ConfluenceGenAIAgent__init__ (openai_client : result unit) : M agent :=
  let api_key := getenv "OPENAI_API_KEY" in
  let model := match getenv "OPENAI_MODEL" with
               | Some m => m
               | None => "gpt-3.5-turbo"
               end in
  if negb (truthy (opt_str api_key))
  then raise (Exn "ValueError" "OPENAI_API_KEY not found in environment variables")
  else
    lift openai_client ;;
    confluence <- ConfluenceConnector__init__ ;;
    connect w confluence ;;
    ret (Agent model confluence).

End Construction.

Definition get_available_spaces (w : world) (self : agent) : M (list dict) :=
  get_spaces w (confluence self) (PInt 100).

Definition search (w : world) (self : agent) (query space_key max_results : pyval)
  : M (list dict) :=
  search_content w (confluence self) query space_key max_results.

(** ** verify_setup.py *)

(** What is printed is the list of the texts given to [print], in order;
    the marks outside the alphabet are spelled as their UTF-8 bytes. *)
Module VerifySetup.

Definition bytes (l : list nat) : string :=
  fold_right (fun n s => String (ascii_of_nat n) s) EmptyString l.

Definition ok_mark : string := bytes [226; 156; 133].
Definition bad_mark : string := bytes [226; 157; 140].
Definition warn_mark : string := bytes [226; 154; 160; 239; 184; 143].
Definition lens_mark : string := bytes [240; 159; 148; 141].
Definition party_mark : string := bytes [240; 159; 142; 137].

Record version_info : Type := Version { major : Z; minor : Z; micro : Z }.

Definition check_python_version (version : version_info) : list string * bool :=
  if (3 <=? major version)%Z && (9 <=? minor version)%Z then
    ([ok_mark ++ " Python version:" ++ " " ++ of_Z (major version) ++ "."
        ++ of_Z (minor version) ++ "." ++ of_Z (micro version)],
     true)
  else
    ([bad_mark ++ " Python version " ++ of_Z (major version) ++ "."
        ++ of_Z (minor version) ++ "." ++ of_Z (micro version)
        ++ " is too old. Need 3.9+";
      "   The atlassian-python-api library requires Python 3.9 or higher"],
     false).

(** What [__import__(name)] does: it returns, raises [ImportError], or
    raises another exception with the given text. *)
Inductive import_outcome : Type :=
| Imported
| NotInstalled
| Crashed (error_msg : string).

Definition required_packages : list (string * string) :=
  [("atlassian", "atlassian"); ("openai", "openai");
   ("dotenv", "python-dotenv"); ("requests", "requests")].

(** The state of the loop of [check_dependencies]. *)
Record imports : Type := Imports {
  printed : list string;
  missing : list string;
  import_errors : list string
}.

Definition import_step (version : version_info) (import_ : string -> import_outcome)
    (acc : imports) (package : string * string) : imports :=
  let (import_name, package_name) := package in
  match import_ import_name with
  | Imported =>
      Imports (printed acc ++ [ok_mark ++ " " ++ package_name ++ " is installed"])
              (missing acc) (import_errors acc)
  | NotInstalled =>
      Imports (printed acc ++ [bad_mark ++ " " ++ package_name ++ " is NOT installed"])
              (missing acc ++ [package_name]) (import_errors acc)
  | Crashed error_msg =>
      if contains "not subscriptable" error_msg || contains "dict[" error_msg then
        Imports (printed acc
                 ++ [warn_mark ++ "  " ++ package_name
                     ++ " requires Python 3.9+ (you have " ++ of_Z (major version)
                     ++ "." ++ of_Z (minor version) ++ ")"])
                (missing acc) (import_errors acc ++ [package_name])
      else
        Imports (printed acc
                 ++ [bad_mark ++ " " ++ package_name ++ " import failed: " ++ error_msg])
                (missing acc) (import_errors acc ++ [package_name])
  end.

(** What has been gathered so far, and some more. *)
Definition say {A} (out more : list A) : list A := out ++ more.

Definition check_dependencies (version : version_info)
    (import_ : string -> import_outcome) : list string * bool :=
  let acc := fold_left (import_step version import_) required_packages
               (Imports [] [] []) in
  if truthy (PList (map PStr (import_errors acc)))
     && contains "atlassian" (py_str (PList (map PStr (import_errors acc))))
  then
    (say (printed acc)
         [nl ++ warn_mark
          ++ "  The atlassian-python-api library requires Python 3.9 or higher";
          "   Your Python version: " ++ of_Z (major version) ++ "."
          ++ of_Z (minor version) ++ "." ++ of_Z (micro version);
          "   Please upgrade Python to 3.9+ or use pyenv/homebrew to install a newer version"],
     false)
  else if truthy (PList (map PStr (missing acc))) then
    (say (printed acc)
         [nl ++ warn_mark ++ "  Missing packages: " ++ join ", " (missing acc);
          "   Run: pip install -r requirements.txt"],
     false)
  else (printed acc, true).

(** [s[-n:]] for a positive [n] *)
Fixpoint skip (n : nat) (s : string) : string :=
  match n, s with
  | S n', String _ r => skip n' r
  | _, _ => s
  end.

Definition last_chars (n : nat) (s : string) : string :=
  skip (String.length s - n) s.

(** [value[:8] + '...' + value[-4:] if len(value) > 12 else '***'] *)
Definition masked (value : string) : string :=
  if (12 <? String.length value)%nat
  then take 8 value ++ "..." ++ last_chars 4 value
  else "***".

Definition required_vars : list string :=
  ["CONFLUENCE_URL"; "CONFLUENCE_USERNAME"; "CONFLUENCE_API_TOKEN"; "OPENAI_API_KEY"].

(** The state of the loop of [check_env_file]. *)
Record variables : Type := Variables {
  shown : list string;
  missing_vars : list string;
  empty_vars : list string
}.

Definition var_step (getenv : environ) (acc : variables) (var : string) : variables :=
  match getenv var with
  | None =>
      Variables (shown acc ++ [bad_mark ++ " " ++ var ++ " is missing"])
                (missing_vars acc ++ [var]) (empty_vars acc)
  | Some value =>
      if String.eqb value EmptyString || contains "your-" (lower value)
         || contains "example" (lower value)
      then
        Variables (shown acc
                   ++ [warn_mark ++ "  " ++ var
                       ++ " is not configured (still has placeholder value)"])
                  (missing_vars acc) (empty_vars acc ++ [var])
      else
        Variables (shown acc ++ [ok_mark ++ " " ++ var ++ " is set (" ++ masked value ++ ")"])
                  (missing_vars acc) (empty_vars acc)
  end.

(** [exists] tells whether the file [.env] is there; [getenv] is the
    environment once the file has been loaded. *)
Definition check_env_file (exists_ : bool) (getenv : environ) : list string * bool :=
  if negb exists_ then
    ([bad_mark ++ " .env file not found!";
      "   Create it by copying env_template.txt: cp env_template.txt .env"],
     false)
  else
    let acc := fold_left (var_step getenv) required_vars
                 (Variables [ok_mark ++ " .env file exists"] [] []) in
    if truthy (PList (map PStr (missing_vars acc)))
       || truthy (PList (map PStr (empty_vars acc)))
    then (say (shown acc)
              [nl ++ warn_mark ++ "  Please configure all variables in .env file"],
          false)
    else (shown acc, true).

(** [imported] is what importing the connector module gives. *)
Definition check_confluence_connection (w : world) (getenv : environ)
    (imported : result unit) : M (list string * bool) :=
  try_except
    (lift imported ;;
     let out := [nl ++ lens_mark ++ " Testing Confluence connection..."] in
     connector <- ConfluenceConnector__init__ getenv ;;
     connect w connector ;;
     try_except
       (spaces <- get_spaces w connector (PInt 1) ;;
        ret (say out [ok_mark ++ " Confluence connection successful!";
                      "   Connected as: " ++ username connector],
             true))
       (fun api_error =>
          ret (say out [warn_mark ++ "  Connection created but API test failed: "
                        ++ exn_str api_error;
                        "   This might indicate:";
                        "   - Incorrect API token";
                        "   - Wrong Confluence URL";
                        "   - Insufficient permissions";
                        "   - Network/firewall issues"],
               false)))
    (fun e =>
       ret (say (match imported with
                 | Ok _ => [nl ++ lens_mark ++ " Testing Confluence connection..."]
                 | Raise _ => []
                 end)
                [bad_mark ++ " Confluence connection failed: " ++ exn_str e;
                 "   Check your credentials in .env file";
                 "   Verify:";
                 "   - CONFLUENCE_URL is correct (should end with /wiki)";
                 "   - CONFLUENCE_USERNAME matches your email";
                 "   - CONFLUENCE_API_TOKEN is valid"],
            false)).

(** [imported], [client] and [models] are what importing [openai],
    constructing the client and listing the models give. *)
Definition check_openai_connection (getenv : environ)
    (imported client models : result unit) : list string * bool :=
  let failed out e :=
    (say out [bad_mark ++ " OpenAI API connection failed: " ++ exn_str e;
              "   Check your OPENAI_API_KEY in .env file"],
     false) in
  match imported with
  | Raise e => failed [] e
  | Ok _ =>
      if negb (truthy (opt_str (getenv "OPENAI_API_KEY"))) then
        ([warn_mark ++ "  OpenAI API key not found, skipping test"], false)
      else
        let out := [nl ++ lens_mark ++ " Testing OpenAI API connection..."] in
        match client with
        | Raise e => failed out e
        | Ok _ =>
            match models with
            | Raise e => failed out e
            | Ok _ => (say out [ok_mark ++ " OpenAI API connection successful!"], true)
            end
        end
  end.

(** Everything [main] consults. *)
Record machine : Type := Machine {
  version : version_info;
  import_ : string -> import_outcome;
  env_file : bool;
  getenv : environ;
  connector_module : result unit;
  openai_module : result unit;
  openai_client : result unit;
  models_list : result unit
}.

(** ['=' * 60] *)
Definition rule : string := bytes (repeat 61 60).

Definition summary_line (check : string * bool) : string :=
  (if snd check then ok_mark ++ " PASS" else bad_mark ++ " FAIL") ++ ": " ++ fst check.

Definition concat_lines (l : list (list string)) : list string := List.concat l.

(** [main]: the printed lines and the exit status. *)
Definition main (w : world) (m : machine) : M (list string * Z) :=
  let (p1, r1) := check_python_version (version m) in
  let (p2, r2) := check_dependencies (version m) (import_ m) in
  let (p3, r3) := check_env_file (env_file m) (getenv m) in
  let out :=
    concat_lines
      [[rule; "Confluence Gen AI Agent - Setup Verification"; rule; ""];
       ["1. Checking Python version..."]; p1; [""];
       ["2. Checking dependencies..."]; p2; [""];
       ["3. Checking environment variables..."]; p3; [""]] in
  let results :=
    [("Python Version", r1); ("Dependencies", r2); ("Environment Variables", r3)] in
  tested <-
    (if r3 then
       confluence <- check_confluence_connection w (getenv m) (connector_module m) ;;
       let (p4, confluence_ok) := confluence in
       let (p5, openai_ok) :=
         check_openai_connection (getenv m) (openai_module m) (openai_client m)
           (models_list m) in
       ret (concat_lines [out; ["4. Testing connections..."]; p4; p5],
            say results [("Confluence Connection", confluence_ok);
                         ("OpenAI Connection", openai_ok)])
     else ret (out, results)) ;;
  let (out, results) := tested in
  let all_passed := forallb snd results in
  ret (concat_lines
         [out; [""; rule; "Summary:"; rule]; map summary_line results; [""];
          if all_passed
          then [party_mark ++ " All checks passed! You're ready to run the application.";
                "   Run: python3 main.py"]
          else [warn_mark ++ "  Some checks failed. Please fix the issues above.";
                "   See SETUP_GUIDE.md for detailed instructions."]],
       if all_passed then 0%Z else 1%Z).

End VerifySetup.

(** ** main.py *)

(** The interactive program.  What is printed is the list of the texts
    given to [print], in order (the prompt of [input] is not among them);
    the keyboard is the list of what [input] will meet. *)
Module Main.

(** What one call of [input] meets: a line, or Ctrl-C.  When the list is
    used up the input is closed, and [input] raises [EOFError]. *)
Inductive key : Type :=
| Line (text : string)
| CtrlC.

Definition eof : exn := Exn "EOFError" "EOF when reading a line".

(** [c.isspace()] for a character of ASCII; the white space that Unicode
    has outside ASCII is not told apart from other text. *)
Definition is_space (c : ascii) : bool :=
  let n := nat_of_ascii c in
  ((9 <=? n)%nat && (n <=? 13)%nat) || ((28 <=? n)%nat && (n <=? 32)%nat).

(** [s.lstrip()], [s.rstrip()] and [s.strip()] *)
Fixpoint lstrip (s : string) : string :=
  match s with
  | EmptyString => EmptyString
  | String c r => if is_space c then lstrip r else s
  end.

Fixpoint rstrip (s : string) : string :=
  match s with
  | EmptyString => EmptyString
  | String c r =>
      let r' := rstrip r in
      if is_space c && String.eqb r' EmptyString then EmptyString
      else String c r'
  end.

Definition strip (s : string) : string := rstrip (lstrip s).

Definition bullet : string := VerifySetup.bytes [226; 128; 162].
Definition tick : string := VerifySetup.bytes [226; 156; 147].

(** ['=' * 60] and ['-' * 60] *)
Definition rule : string := VerifySetup.bytes (repeat 61 60).
Definition dashes : string := VerifySetup.bytes (repeat 45 60).

Definition say {A} (out more : list A) : list A := out ++ more.

(** [for space in spaces: print(f"  • {space['name']} (Key: {space['key']})")]:
    the lines printed, and the exception that stopped the loop, if one
    did. *)
Fixpoint print_spaces (spaces : list dict) : list string * option exn :=
  match spaces with
  | [] => ([], None)
  | space :: rest =>
      match rbind (dict_item space "name") (fun name =>
            rbind (dict_item space "key") (fun key =>
            Ok ("  " ++ bullet ++ " " ++ py_str name
                ++ " (Key: " ++ py_str key ++ ")"))) with
      | Ok line => let (lines, stopped) := print_spaces rest in (line :: lines, stopped)
      | Raise e => ([], Some e)
      end
  end.

(** [print(f"\nError: {str(e)}\n")] *)
Definition error_line (e : exn) : string := nl ++ "Error: " ++ exn_str e ++ nl.

Section Interactive.

Variable w : world.

(** One turn of the [while True] loop, after [out] has been printed:
    [pressed] is what [input] meets, [None] when the input is closed.  The
    result is what has been printed by the end of the turn, and whether the
    loop goes on ([continue], or the end of the body) or stops ([break]).
    Each handler prints after what its [try] block had printed when the
    exception came. *)
Definition turn (self : agent) (pressed : option key) (out : list string)
  : M (list string * bool) :=
  match pressed with
  | Some CtrlC => ret (say out [nl ++ nl ++ "Goodbye!"], false)
  | None => ret (say out [error_line eof], true)
  | Some (Line text) =>
      let user_input := strip text in
      if negb (truthy (PStr user_input)) then ret (out, true)
      else if existsb (String.eqb (lower user_input)) ["exit"; "quit"; "q"] then
        ret (say out [nl ++ "Goodbye!"], false)
      else if String.eqb (lower user_input) "spaces" then
        try_except
          (spaces <- get_available_spaces w self ;;
           let out := say out [nl ++ "Available Spaces:"] in
           let (lines, stopped) := print_spaces spaces in
           match stopped with
           | None => ret (say out (lines ++ [""]), true)
           | Some e => ret (say out (lines ++ [error_line e]), true)
           end)
          (fun e => ret (say out [error_line e], true))
      else
        let out := say out [nl ++ "Processing your query..."] in
        try_except
          (response <- query w self user_input ;;
           ret (say out [nl ++ rule; "Response:"; rule; response; ""], true))
          (fun e => ret (say out [error_line e], true))
  end.

(** The loop, for at most [fuel] turns: what has been printed, and the keys
    left unread when the loop has stopped; [None] when it is still going on
    after [fuel] turns. *)
Fixpoint loop (self : agent) (fuel : nat) (keys : list key) (out : list string)
  : M (list string * option (list key)) :=
  match fuel with
  | O => ret (out, None)
  | S fuel' =>
      turned <- turn self (hd_error keys) out ;;
      let (out', goes_on) := turned in
      if goes_on then loop self fuel' (tl keys) out'
      else ret (out', Some (tl keys))
  end.

Variable getenv : environ.

(** What constructing the [OpenAI] client gives. *)
Variable openai_client : result unit.

(** [isinstance(e, ValueError)] *)
Variable value_error : exn -> bool.

(** The two [except] clauses of [main], after [out] has been printed; both
    end in [sys.exit(1)]. *)
Definition failed (out : list string) (e : exn) : M (list string * option Z) :=
  if value_error e then
    ret (say out ["Configuration Error: " ++ exn_str e;
                  nl ++ "Please make sure you have:";
                  "1. Created a .env file based on env_template.txt";
                  "2. Filled in all required credentials"],
         Some 1%Z)
  else ret (say out ["Unexpected error: " ++ exn_str e], Some 1%Z).

(** [main]: what has been printed and the exit status, 0 when [main]
    returns; no status when the loop is still going on after [fuel]
    turns. *)
Definition main (fuel : nat) (keys : list key) : M (list string * option Z) :=
  let out := [rule; "Confluence Gen AI Agent"; rule; "";
              "Initializing Confluence connection and Gen AI agent..."] in
  try_except
    (agent <- ConfluenceGenAIAgent__init__ w getenv openai_client ;;
     let out := say out [tick ++ " Connected successfully!" ++ nl;
                         "Example 1: Getting available Confluence spaces...";
                         dashes] in
     try_except
       (spaces <- get_available_spaces w agent ;;
        let (lines, stopped) :=
          if truthy (PList (map PDict spaces)) then print_spaces (firstn 5 spaces)
          else ([], None) in
        match stopped with
        | Some e => failed (say out lines) e
        | None =>
            let out :=
              say out
                (lines ++
                 [""; rule; "Interactive Query Mode";
                  "You can now ask questions about your Confluence data.";
                  "Type 'exit' to quit, 'spaces' to see all spaces"; rule; ""]) in
            ended <- loop agent fuel keys out ;;
            let (out, unread) := ended in
            ret (out, match unread with
                      | Some _ => Some 0%Z
                      | None => None
                      end)
        end)
       (failed out))
    (failed out).

End Interactive.

End Main.

(** * Vocabulary of the properties *)

Unset Implicit Arguments.

(** ** Snippets *)

(** Claim C4 read literally: whatever the stored body, the snippet of the
    search record has no tag sequence and at most 300 characters. *)
Definition C4_as_stated : Prop :=
  forall (self : connector) (item : pyval) (rec : dict),
    search_record self item = Ok rec ->
    exists text, lookup "content" rec = Some (PStr text)
                 /\ Re.has_tag text = false
                 /\ String.length text <= 300.

Definition cdata_item : pyval :=
  PDict [("id", PStr "7"); ("title", PStr "Snippet");
         ("body", PDict [("storage", PDict [("value",
            PStr "<ac:plain-text-body><![CDATA[<b>x</b>]]></ac:plain-text-body>")])])].

Definition hello_item : pyval :=
  PDict [("id", PStr "1"); ("title", PStr "Hello");
         ("body", PDict [("storage", PDict [("value",
            PStr "<p>Hello <b>world</b></p>")])])].

Definition hello_record : dict :=
  [("id", PStr "1"); ("title", PStr "Hello"); ("type", PStr "");
   ("space", PStr ""); ("space_name", PStr "");
   ("content", PStr "Hello world");
   ("url", PStr "https://x.atlassian.net/wiki"); ("version", PInt 0)].

(** ** Formatted text *)

(** The preview field of a record can be shown: it is absent or falsy, or
    it can be sliced. *)
Definition previewable (k : string) (r : dict) : bool :=
  let v := dict_get r k PNone in
  negb (truthy v) ||
  match v with
  | PStr _ | PList _ => true
  | _ => false
  end.

(** The text of the entries of a loop, one block per record. *)
Fixpoint blocks (body : Z -> dict -> string -> result string)
    (i : Z) (l : list dict) : result (list string) :=
  match l with
  | [] => Ok []
  | x :: rest =>
      rbind (body i x "") (fun t =>
      rbind (blocks body (i + 1) rest) (fun ts => Ok (t :: ts)))
  end.

Definition cat (l : list string) : string := fold_right append "" l.

(** A loop body only appends to the text built so far. *)
Definition appends (body : Z -> dict -> string -> result string) : Prop :=
  forall i r f, body i r f = rbind (body i r "") (fun t => Ok (f ++ t)).

(** Every block opens with a new line, the number of the entry and a dot. *)
Definition numbered (body : Z -> dict -> string -> result string) : Prop :=
  forall i r t, body i r "" = Ok t -> exists t', t = nl ++ of_Z i ++ ". " ++ t'.

(** Claim C6 read literally: on an empty collection each formatter returns
    one constant sentence, whatever its other arguments. *)
Definition C6_as_stated : Prop :=
  (exists sentence, _format_search_results [] = Ok sentence)
  /\ (exists sentence, forall space_key, _format_pages [] space_key = Ok sentence)
  /\ (exists sentence, _format_spaces [] = Ok sentence).

(** Claim C5 read literally, for the search formatter: a content shorter
    than the limit is shown without the ellipsis, so its line ends right
    after the content. *)
Definition C5_as_stated : Prop :=
  forall (res : dict) (s out : string),
    dict_get res "content" PNone = PStr s ->
    s <> "" ->
    String.length s < 150 ->
    _format_search_results [res] = Ok out ->
    contains ("   Content: " ++ s ++ nl) out = true.

Definition short_hit : dict :=
  [("title", PStr "Release notes"); ("space_name", PStr "Dev");
   ("type", PStr "page"); ("content", PStr "abc")].

(** The text after the header is one block per record, in the order of the
    records; block [k] (counted from 0) opens with the number [k + 1] and is
    what the loop body renders for record [k] under that number. *)
Definition numbered_blocks (body : Z -> dict -> string -> result string)
    (records : list dict) (text : string) : Prop :=
  exists bs,
    text = cat bs
    /\ List.length bs = List.length records
    /\ forall k r, nth_error records k = Some r ->
         exists t,
           nth_error bs k = Some (nl ++ of_Z (Z.of_nat k + 1) ++ ". " ++ t)
           /\ body (Z.of_nat k + 1)%Z r ""
              = Ok (nl ++ of_Z (Z.of_nat k + 1) ++ ". " ++ t).

Definition two_spaces : list dict :=
  [ [("key", PStr "DEV"); ("name", PStr "Development"); ("type", PStr "global");
     ("description", PStr "Engineering notes")];
    [("key", PStr "OPS"); ("name", PStr "Operations"); ("type", PStr "global");
     ("description", PStr "")] ].

(** ** States, traces and worlds *)

(** The state [st] once the events [evs] have been added to its trace. *)
Definition after (st : state) (evs : trace) : state :=
  State (handle st) (events st ++ evs).

Definition wiki : connector :=
  Connector "https://x.atlassian.net/wiki/" "bot@example.com" "token" None.

Definition unavailable : exn := Exn "HTTPError" "503 Server Error: Service Unavailable".

(** A world whose wiki fails every call, and one whose wiki answers
    nothing. *)
Definition failing_wiki : world :=
  World (fun _ => Ok tt) (fun _ _ => Raise unavailable)
        (fun _ _ => Ok "") (fun _ => Ok PNone).

Definition empty_wiki : world :=
  World (fun _ => Ok tt) (fun _ _ => Ok PNone)
        (fun _ _ => Ok "") (fun _ => Ok PNone).

Definition connected : state := State true [].

Definition count_ev (f : event -> bool) (tr : trace) : nat :=
  List.length (filter f tr).

(** The synthesis call is the chat call made with the synthesis system
    message; the classifier call carries [system_prompt]. *)
Definition is_synthesis_call (ev : event) : bool :=
  match ev with
  | EvChat r => String.eqb (chat_system r) synthesis_system
  | _ => false
  end.

(** A call to [get_all_pages_from_space], which is what
    [get_pages_from_space] makes. *)
Definition is_list_pages_call (ev : event) : bool :=
  match ev with
  | EvApi (api_get_all_pages_from_space _ _ _ _) => true
  | _ => false
  end.

(** [m] adds no event selected by [f], whether it returns or raises. *)
Definition quiet {A} (f : event -> bool) (m : M A) : Prop :=
  forall st, count_ev f (events (snd (m st))) = count_ev f (events st).

(** Claim C2 read literally: whenever the [try] block raises an exception
    whose text has [insufficient_quota], the fixed message is returned and
    the trace of the query has no synthesis call. *)
Definition C2_as_stated : Prop :=
  forall w self user_query e st1,
    query_body w self user_query connected = (Raise e, st1) ->
    contains "insufficient_quota" (exn_str e) = true ->
    fst (query w self user_query connected) = Ok quota_message
    /\ count_ev is_synthesis_call (events (snd (query w self user_query connected))) = 0.

(** ** Worlds to run the query in *)

(** The classifier answers [decision_text], which [json.loads] reads as
    [decision]; the wiki answers by [wiki_answer]; the synthesis call gives
    [synthesis]. *)
Definition scripted (decision_text : string) (decision : pyval)
    (wiki_answer : api_call -> result pyval) (synthesis : result string) : world :=
  World (fun _ => Ok tt)
        (fun _ c => wiki_answer c)
        (fun _ r => if String.eqb (chat_system r) synthesis_system
                    then synthesis else Ok decision_text)
        (fun text => if String.eqb text decision_text then Ok decision
                     else Raise (Exn "JSONDecodeError"
                                   "Expecting value: line 1 column 1 (char 0)")).

Definition assistant (space : option string) : agent :=
  Agent "gpt-3.5-turbo"
        (Connector "https://x.atlassian.net/wiki/" "bot@example.com" "token" space).

Definition quota_exn : exn :=
  Exn "RateLimitError" "You exceeded your current quota (insufficient_quota)".

Definition get_spaces_text : string :=
  "{" ++ dq ++ "action" ++ dq ++ ": " ++ dq ++ "get_spaces" ++ dq ++ "}".

(** The classifier and the wiki work; the synthesis call runs out of
    quota. *)
Definition quota_at_synthesis : world :=
  scripted get_spaces_text (PDict [("action", PStr "get_spaces")])
           (fun _ => Ok (PDict [("results", PList [])]))
           (Raise quota_exn).

(** The classifier call itself runs out of quota. *)
Definition quota_at_classifier : world :=
  World (fun _ => Ok tt) (fun _ _ => Ok PNone)
        (fun _ _ => Raise quota_exn) (fun _ => Ok PNone).

Definition search_text : string :=
  "{" ++ dq ++ "action" ++ dq ++ ": " ++ dq ++ "search" ++ dq ++ ", "
      ++ dq ++ "search_query" ++ dq ++ ": " ++ dq ++ "deployment" ++ dq ++ "}".

Definition not_found : exn :=
  Exn "HTTPError" "404 Client Error: Not Found for url: https://x.atlassian.net/wiki/rest/api/search".

(** Both language-model calls work; the wiki answers every call with a
    404. *)
Definition wiki_not_found : world :=
  scripted search_text
           (PDict [("action", PStr "search"); ("search_query", PStr "deployment")])
           (fun _ => Raise not_found)
           (Ok "Here is what I found.").

Definition null_key_text : string :=
  "{" ++ dq ++ "action" ++ dq ++ ": " ++ dq ++ "get_pages" ++ dq ++ ", "
      ++ dq ++ "space_key" ++ dq ++ ": null}".

Definition no_key_text : string :=
  "{" ++ dq ++ "action" ++ dq ++ ": " ++ dq ++ "get_pages" ++ dq ++ "}".

Definition dev_wiki (c : api_call) : result pyval :=
  match c with
  | api_get_all_spaces _ _ _ =>
      Ok (PDict [("results",
                  PList [PDict [("key", PStr "DEV"); ("name", PStr "Development");
                                ("type", PStr "global")]])])
  | api_get_all_pages_from_space _ _ _ _ =>
      Ok (PList [PDict [("id", PStr "1"); ("title", PStr "Home");
                        ("_links", PDict [("webui", PStr "/spaces/DEV/pages/1")])]])
  | _ => Ok PNone
  end.

(** The classifier leaves the space key open, as [null] or by omitting
    it. *)
Definition null_key_world : world :=
  scripted null_key_text
           (PDict [("action", PStr "get_pages"); ("space_key", PNone)])
           dev_wiki (Ok "Please pick a space.").

Definition no_key_world : world :=
  scripted no_key_text (PDict [("action", PStr "get_pages")])
           dev_wiki (Ok "Here are the pages.").

(** ** Budgets of calls *)

Definition is_new_call (ev : event) : bool :=
  match ev with EvNew _ _ _ => true | _ => false end.

Definition is_api_call (ev : event) : bool :=
  match ev with EvApi _ => true | _ => false end.

Definition is_chat_call (ev : event) : bool :=
  match ev with EvChat _ => true | _ => false end.

(** Started with a session, [m] ends with a session and only adds events
    to the trace, at most [n] of them selected by [f]. *)
Definition within {A} (f : event -> bool) (n : nat) (m : M A) : Prop :=
  forall st, handle st = true ->
    handle (snd (m st)) = true
    /\ exists tail, events (snd (m st)) = (events st ++ tail)%list
                    /\ count_ev f tail <= n.

(** From [st] to [st'] the wiki has been called once, with [c], before
    anything else was added to the trace. *)
Definition first_and_only_call (st st' : state) (c : api_call) : Prop :=
  exists tail, events st' = (events st ++ EvApi c :: tail)%list
               /\ count_ev is_api_call tail = 0.

(** [m] keeps the session and constructs no client. *)
Definition reuses_session {A} (m : M A) (st : state) : Prop :=
  handle (snd (m st)) = true
  /\ count_ev is_new_call (events (snd (m st))) = count_ev is_new_call (events st).

(** How a single-page lookup ends once the wiki has been called: nothing
    more in the trace, or no result and one error log with [label]. *)
Definition ends_quietly_or_logged {A} (label : string) (r : option A) (tail : trace)
  : Prop :=
  tail = []
  \/ (r = None /\ exists e, tail = [EvLog ERROR (label ++ exn_str e)]).

Definition deployment_decision : dict :=
  [("action", PStr "search"); ("search_query", PStr "deployment");
   ("max_results", PInt 10)].

(** ** Records *)

Definition keys (r : dict) : list string := map fst r.

Definition space_keys : list string :=
  ["key"; "name"; "type"; "description"; "page_count"].

Definition page_keys : list string :=
  ["id"; "title"; "space"; "version"; "content"; "url"].

Definition search_keys : list string :=
  ["id"; "title"; "type"; "space"; "space_name"; "content"; "url"; "version"].

(** The items of a response of the wiki: those under [results]. *)
Definition results_of (response : pyval) : result (list pyval) :=
  rbind (py_get response "results" (PList [])) py_iter.

Definition home_page : pyval :=
  PDict [("id", PStr "1"); ("title", PStr "Home");
         ("body", PDict [("storage", PDict [("value", PStr "<h1>Welcome</h1>")])]);
         ("_links", PDict [("webui", PStr "/spaces/DEV/pages/1")])].

(** A wiki with one space, one page and one search hit. *)
Definition small_wiki : world :=
  World (fun _ => Ok tt)
        (fun _ c =>
           match c with
           | api_get_all_spaces _ _ _ =>
               Ok (PDict [("results",
                           PList [PDict [("key", PStr "DEV"); ("name", PStr "Development")]])])
           | api_get_all_pages_from_space _ _ _ _ => Ok (PList [home_page])
           | api_cql _ _ _ => Ok (PDict [("results", PList [home_page])])
           | api_get_page_by_id _ _ => Ok home_page
           | api_get_page_by_title _ _ => Ok home_page
           end)
        (fun _ _ => Ok "") (fun _ => Ok PNone).

(** ** Letter case *)

(** A character that is no letter from A to Z in either case. *)
Definition caseless_char (c : ascii) : bool :=
  let n := nat_of_ascii c in
  negb ((65 <=? n)%nat && (n <=? 90)%nat) && negb ((97 <=? n)%nat && (n <=? 122)%nat).

Fixpoint caseless (s : string) : bool :=
  match s with
  | EmptyString => true
  | String c r => caseless_char c && caseless r
  end.

(** ** Environments *)

Definition full_env : environ :=
  fun name =>
    if String.eqb name "CONFLUENCE_URL" then Some "https://x.atlassian.net/wiki/"
    else if String.eqb name "CONFLUENCE_USERNAME" then Some "bot@corp.test"
    else if String.eqb name "CONFLUENCE_API_TOKEN" then Some "ATATT3xFfGF0aBcDeFgHiJkLmNoP"
    else if String.eqb name "OPENAI_API_KEY" then Some "sk-proj-0123456789abcdef"
    else None.

(** [full_env] with one variable set to the empty text. *)
Definition blanked (name : string) : environ :=
  fun n => if String.eqb n name then Some EmptyString else full_env n.

(** The line of the notice for one space. *)
Definition space_line (space : dict) : string :=
  "- " ++ py_str (dict_get space "name" PNone)
       ++ " (Key: " ++ py_str (dict_get space "key" PNone) ++ ")" ++ nl.

(** ** Setup verification *)

(** The value of a variable counts as configured: it is set, not empty, and
    holds neither [your-] nor [example] in any letter case. *)
Definition configured (value : option string) : bool :=
  match value with
  | None => false
  | Some v =>
      negb (String.eqb v EmptyString || contains "your-" (lower v)
            || contains "example" (lower v))
  end.

(** The line [check_env_file] prints for a configured variable. *)
Definition set_line (getenv : environ) (var : string) : string :=
  VerifySetup.ok_mark ++ " " ++ var ++ " is set ("
    ++ VerifySetup.masked (text_of (getenv var)) ++ ")".

(** A machine where every check passes on [small_wiki]. *)
Definition ready_machine : VerifySetup.machine :=
  VerifySetup.Machine (VerifySetup.Version 3 11 4) (fun _ => VerifySetup.Imported)
    true full_env (Ok tt) (Ok tt) (Ok tt) (Ok tt).

(** The package names a loop adds to a list: [p] when the import of [n] is
    reported as not installed, or when it crashed. *)
Definition not_installed (imp : string -> VerifySetup.import_outcome)
    (package : string * string) : list string :=
  match imp (fst package) with
  | VerifySetup.NotInstalled => [snd package]
  | _ => []
  end.

Definition crashed (imp : string -> VerifySetup.import_outcome)
    (package : string * string) : list string :=
  match imp (fst package) with
  | VerifySetup.Crashed _ => [snd package]
  | _ => []
  end.

(** A value that is set but empty or a placeholder. *)
Definition placeholder (value : option string) : bool :=
  match value with
  | None => false
  | Some v =>
      String.eqb v EmptyString || contains "your-" (lower v)
      || contains "example" (lower v)
  end.

(** ** The keyboard of the interactive program *)

(** A key that ends the loop: Ctrl-C, or a line that reads [exit], [quit]
    or [q] once stripped and put in lower case. *)
Definition stops (k : Main.key) : bool :=
  match k with
  | Main.CtrlC => true
  | Main.Line text =>
      existsb (String.eqb (lower (Main.strip text))) ["exit"; "quit"; "q"]
  end.


(** Whether the loop goes on after a turn, and how many requests the turn
    may send. *)
Definition goes_on (pressed : option Main.key) : bool :=
  match pressed with
  | Some k => negb (stops k)
  | None => true
  end.





(** * Properties *)

(** ** Facts about strings *)

Section StringFacts.

Lemma app_assoc_s (a b c : string) : (a ++ b) ++ c = a ++ (b ++ c).
Proof. induction a as [|x a IH]; simpl; [reflexivity | now rewrite IH]. Qed.

Lemma app_nil_r_s (a : string) : a ++ "" = a.
Proof. induction a as [|x a IH]; simpl; [reflexivity | now rewrite IH]. Qed.

Lemma take_length_le n s : String.length (take n s) <= n.
Proof.
  revert s; induction n as [|n IH]; intros [|c r]; simpl; try lia.
  specialize (IH r). lia.
Qed.

Lemma prefix_app sub b : prefix sub (sub ++ b) = true.
Proof.
  induction sub as [|c sub IH]; simpl.
  - now destruct b.
  - destruct (ascii_dec c c) as [_|N]; [exact IH | now elim N].
Qed.

Lemma prefix_split sub s : prefix sub s = true -> exists b, s = sub ++ b.
Proof.
  revert s; induction sub as [|c sub IH]; intros s H.
  - exists s. reflexivity.
  - destruct s as [|d s]; simpl in H; [discriminate|].
    destruct (ascii_dec c d) as [->|_]; [|discriminate].
    destruct (IH _ H) as [b ->]. exists b. reflexivity.
Qed.

Lemma contains_app sub a b : contains sub (a ++ sub ++ b) = true.
Proof.
  induction a as [|c a IH].
  - change (contains sub (sub ++ b) = true).
    pose proof (prefix_app sub b) as P.
    destruct (sub ++ b); cbn [contains]; rewrite P; reflexivity.
  - simpl. rewrite IH. apply orb_true_r.
Qed.

Lemma contains_split sub s :
  contains sub s = true -> exists a b, s = a ++ sub ++ b.
Proof.
  induction s as [|c s IH]; cbn [contains]; intros H.
  - rewrite orb_false_r in H. apply prefix_split in H as [b ->].
    exists "", b. reflexivity.
  - apply orb_true_iff in H as [H|H].
    + apply prefix_split in H as [b ->]. exists "", b. reflexivity.
    + destruct (IH H) as (a & b & ->). exists (String c a), b. reflexivity.
Qed.

Lemma lower_app a b : lower (a ++ b) = lower a ++ lower b.
Proof. induction a as [|c a IH]; simpl; [reflexivity | now rewrite IH]. Qed.

(** A needle already in lower case that occurs in a text occurs in its
    lower-cased form, and so does every piece of the needle. *)
Lemma contains_lower_part pre part post s :
  lower (pre ++ part ++ post) = pre ++ part ++ post ->
  contains (pre ++ part ++ post) s = true ->
  contains part (lower s) = true.
Proof.
  intros Hl H. apply contains_split in H as (a & b & ->).
  rewrite lower_app, lower_app, Hl.
  rewrite !app_assoc_s. rewrite <- (app_assoc_s (lower a) pre).
  apply contains_app.
Qed.

Lemma rstrip_snoc c s : rstrip c (s ++ String c "") = rstrip c s.
Proof.
  induction s as [|a s IH]; simpl.
  - rewrite Ascii.eqb_refl. reflexivity.
  - rewrite IH. reflexivity.
Qed.

Lemma mem_take c n s : mem c s = false -> mem c (take n s) = false.
Proof.
  revert s; induction n as [|n IH]; intros [|a r]; simpl; auto.
  intros H. apply orb_false_iff in H as [-> H]. simpl. auto.
Qed.

End StringFacts.

(** ** Facts about tag stripping *)

Section TagFacts.

Import Re.

Lemma tag_close_shorter s rest :
  tag_close s = Some rest -> String.length rest < String.length s.
Proof.
  revert rest; induction s as [|c r IH]; simpl; intros rest H; [discriminate|].
  destruct (Ascii.eqb c ">"%char).
  - injection H as <-. lia.
  - destruct (Ascii.eqb c "<"%char); [discriminate|].
    apply IH in H. lia.
Qed.

Lemma tag_at_shorter s rest :
  tag_at s = Some rest -> String.length rest < String.length s.
Proof.
  destruct s as [|c0 [|c1 r]]; simpl; try discriminate.
  destruct (Ascii.eqb c0 "<"%char && negb (Ascii.eqb c1 "<"%char)); [|discriminate].
  intros H. apply tag_close_shorter in H. lia.
Qed.

Lemma tag_at_lt s rest : tag_at s = Some rest -> exists r, s = String "<"%char r.
Proof.
  destruct s as [|c0 [|c1 r]]; simpl; try discriminate.
  destruct (Ascii.eqb_spec c0 "<"%char) as [->|]; simpl; [|discriminate].
  intros _. eexists. reflexivity.
Qed.

Lemma has_tag_cons c r :
  has_tag (String c r) =
  match tag_at (String c r) with Some _ => true | None => has_tag r end.
Proof. reflexivity. Qed.

Lemma has_tag_mem s : has_tag s = true -> mem "<"%char s = true.
Proof.
  induction s as [|c r IH].
  - discriminate.
  - rewrite has_tag_cons. destruct (tag_at (String c r)) eqn:E.
    + intros _. apply tag_at_lt in E as [r' E]. injection E as -> _.
      reflexivity.
    + intros H. simpl. rewrite (IH H). apply orb_true_r.
Qed.

Lemma tag_close_closed s rest :
  tag_close s = Some rest -> tags_closed s = true -> tags_closed rest = true.
Proof.
  revert rest; induction s as [|c r IH]; intros rest; [discriminate|].
  cbn [tag_close]. intros H Hc.
  assert (Hr : tags_closed r = true).
  { cbn [tags_closed] in Hc. apply andb_true_iff in Hc as [_ Hc]. exact Hc. }
  destruct (Ascii.eqb c ">"%char).
  - injection H as <-. exact Hr.
  - destruct (Ascii.eqb c "<"%char); [discriminate|]. auto.
Qed.

Lemma tag_at_closed s rest :
  tag_at s = Some rest -> tags_closed s = true -> tags_closed rest = true.
Proof.
  destruct s as [|c0 [|c1 r]]; try discriminate.
  cbn [tag_at].
  destruct (Ascii.eqb c0 "<"%char && negb (Ascii.eqb c1 "<"%char)); [|discriminate].
  intros H Hc. apply (tag_close_closed _ _ H).
  cbn [tags_closed] in Hc.
  apply andb_true_iff in Hc as [_ Hc].
  apply andb_true_iff in Hc as [_ Hc]. exact Hc.
Qed.

Lemma sub_tags_cons c r :
  sub_tags (String c r) =
  match tag_at (String c r) with
  | Some rest => sub_tags rest
  | None => String c (sub_tags r)
  end.
Proof.
  simp sub_tags.
  destruct (inspect (tag_at (String c r))) as [[rest|] E]; simp sub_tags;
    rewrite E; reflexivity.
Qed.

(** When every [<] of the text opens a tag, no [<] survives the scan. *)
Lemma sub_tags_no_lt s :
  tags_closed s = true -> mem "<"%char (sub_tags s) = false.
Proof.
  remember (String.length s) as n eqn:Hn. revert s Hn.
  induction n as [n IH] using lt_wf_ind. intros [|c r] Hn Hc.
  - reflexivity.
  - rewrite sub_tags_cons. destruct (tag_at (String c r)) as [rest|] eqn:E.
    + apply (IH (String.length rest)); [|reflexivity|].
      * subst n. apply tag_at_shorter. exact E.
      * eapply tag_at_closed; eauto.
    + cbn [tags_closed] in Hc. rewrite E in Hc.
      apply andb_true_iff in Hc as [H1 H2].
      cbn [mem]. destruct (Ascii.eqb c "<"%char); [discriminate|].
      apply (IH (String.length r)); [subst n; simpl; lia|reflexivity|exact H2].
Qed.

End TagFacts.

(** ** Results: inversion of [rbind] chains *)

Lemma rbind_ok {A B} (r : result A) (k : A -> result B) (b : B) :
  rbind r k = Ok b -> exists a, r = Ok a /\ k a = Ok b.
Proof. destruct r as [a|e]; simpl; [eauto | discriminate]. Qed.

Ltac rinv H :=
  repeat match type of H with
         | rbind ?r _ = Ok _ =>
             let a := fresh "a" in
             let E := fresh "E" in
             apply rbind_ok in H as (a & E & H)
         end.

(** ** Values as text *)

Example py_str_nested :
  py_str (PList [PStr "a'b"; PInt 3; PNone; PDict [("k", PBool true)]])
  = "[" ++ dq ++ "a'b" ++ dq ++ ", 3, None, {'k': True}]".
Proof. reflexivity. Qed.

Example py_str_scalars :
  py_str (PStr "N/A") = "N/A" /\ py_str PNone = "None" /\ py_str (PInt (-7)) = "-7".
Proof. repeat split. Qed.

(** ** The connector: URLs and snippets *)

Example sub_tags_plain : Re.sub_tags "<p>Hello <b>world</b></p>" = "Hello world".
Proof. reflexivity. Qed.

Example sub_tags_lazy : Re.sub_tags "a<>b<>>c< d" = "a<>bc< d".
Proof. reflexivity. Qed.

Example page_url_spec_example :
  page_url (Connector "https://x.atlassian.net/wiki/" "u" "t" None)
           (PStr "/spaces/KEY/pages/1")
  = Ok (PStr "https://x.atlassian.net/wiki/spaces/KEY/pages/1")
  /\ page_url (Connector "https://x.atlassian.net/wiki" "u" "t" None)
              (PStr "/spaces/KEY/pages/1")
     = Ok (PStr "https://x.atlassian.net/wiki/spaces/KEY/pages/1").
Proof. split; reflexivity. Qed.

Lemma page_url_rstrip c1 c2 webui :
  rstrip "/"%char (url c1) = rstrip "/"%char (url c2) ->
  page_url c1 webui = page_url c2 webui.
Proof. unfold page_url. intros ->. reflexivity. Qed.

(** C8: the URL of a page does not depend on a trailing slash of the
    configured base URL.  For every base URL and every relative web link
    (in particular one that starts with a slash), the base URL followed by
    a slash and the base URL itself give the same result, which is the base
    with its trailing slashes stripped followed by the link; the page and
    search records built from a remote item agree as well. *)
Theorem C8_url_trailing_slash (base user token : string) (space : option string)
    (link : string) (space_key item : pyval) :
  let with_slash := Connector (base ++ "/") user token space in
  let without := Connector base user token space in
  page_url with_slash (PStr link) = page_url without (PStr link)
  /\ page_url without (PStr link) = Ok (PStr (rstrip "/"%char base ++ link))
  /\ page_record with_slash space_key item = page_record without space_key item
  /\ search_record with_slash item = search_record without item.
Proof.
  intros with_slash without.
  assert (R : rstrip "/"%char (url with_slash) = rstrip "/"%char (url without))
    by apply rstrip_snoc.
  split; [|split; [|split]].
  - apply page_url_rstrip, R.
  - reflexivity.
  - unfold page_record, page_url. rewrite R. reflexivity.
  - unfold search_record, page_url. rewrite R. reflexivity.
Qed.

Example cdata_snippet :
  search_record (Connector "https://x.atlassian.net/wiki" "u" "t" None) cdata_item
  = Ok [("id", PStr "7"); ("title", PStr "Snippet"); ("type", PStr "");
        ("space", PStr ""); ("space_name", PStr "");
        ("content", PStr "<![CDATA[x]]>");
        ("url", PStr "https://x.atlassian.net/wiki"); ("version", PInt 0)].
Proof. reflexivity. Qed.

(** C4, counterexample: a [<] inside a CDATA section opens no match, is
    kept, and closes into a tag once the inner tags are gone. *)
Lemma C4_counterexample : ~ C4_as_stated.
Proof.
  intros H.
  destruct (H _ _ _ cdata_snippet) as (text & Hl & Ht & _).
  injection Hl as <-. discriminate Ht.
Qed.

(** C4, amended: the snippet of a search record is the stored body after
    one left-to-right pass that removes every match of the tag pattern,
    cut to its first 300 characters (stripping comes before the cut), so it
    is at most 300 characters long; and when every [<] of the body opens a
    match of the pattern, the snippet has no [<] and hence no tag
    sequence. *)
Theorem C4_search_snippet (self : connector) (item : pyval) (rec : dict) :
  search_record self item = Ok rec ->
  exists body text,
    get3 item "body" "storage" "value" (PStr "") = Ok (PStr body)
    /\ lookup "content" rec = Some (PStr text)
    /\ text = take 300 (Re.sub_tags body)
    /\ String.length text <= 300
    /\ (Re.tags_closed body = true ->
        mem "<"%char text = false /\ Re.has_tag text = false).
Proof.
  unfold search_record. intros H. rinv H.
  destruct a as [| | |body| |]; try discriminate.
  cbn in E0. injection E0 as <-. injection H as <-.
  exists body, (take 300 (Re.sub_tags body)).
  split; [assumption|]. split; [reflexivity|]. split; [reflexivity|].
  split; [apply take_length_le|].
  intros Hc.
  assert (Hm : mem "<"%char (take 300 (Re.sub_tags body)) = false)
    by (apply mem_take, sub_tags_no_lt; assumption).
  split; [exact Hm|].
  destruct (Re.has_tag _) eqn:T; [|reflexivity].
  apply has_tag_mem in T. rewrite Hm in T. discriminate.
Qed.

Lemma C4_search_snippet_witness :
  search_record (Connector "https://x.atlassian.net/wiki" "u" "t" None) hello_item
  = Ok hello_record
  /\ Re.tags_closed "<p>Hello <b>world</b></p>" = true
  /\ lookup "content" hello_record = Some (PStr "Hello world")
  /\ String.length "Hello world" <= 300
  /\ mem "<"%char "Hello world" = false
  /\ Re.has_tag "Hello world" = false.
Proof.
  assert (R : search_record (Connector "https://x.atlassian.net/wiki" "u" "t" None)
                hello_item = Ok hello_record) by reflexivity.
  destruct (C4_search_snippet _ _ _ R) as (body & text & Hb & Hl & Ht & Hlen & Hc).
  injection Hb as <-. injection Hl as <-.
  split; [exact R|]. split; [reflexivity|]. split; [reflexivity|].
  split; [exact Hlen|]. apply Hc. reflexivity.
Defined.

(** ** The record formatters *)

Lemma dict_get_default_irrelevant r k d1 d2 :
  truthy (dict_get r k PNone) = true -> dict_get r k d1 = dict_get r k d2.
Proof.
  unfold dict_get. destruct (lookup k r); [reflexivity | discriminate].
Qed.

Lemma preview_line_appends label k n r f :
  preview_line label k n r f
  = rbind (preview_line label k n r "") (fun t => Ok (f ++ t)).
Proof.
  unfold preview_line. destruct (truthy _).
  - destruct (py_slice _ n); reflexivity.
  - simpl. now rewrite app_nil_r_s.
Qed.

Lemma url_line_appends r f : url_line r f = f ++ url_line r "".
Proof.
  unfold url_line. destruct (truthy _); [reflexivity | now rewrite app_nil_r_s].
Qed.

Ltac entry_appends :=
  intros i r f; cbv beta delta [search_entry page_entry space_entry] zeta;
  do 2 rewrite (preview_line_appends _ _ _ _ (_ ++ _)%string);
  destruct (preview_line _ _ _ r "") as [t|e]; cbn [rbind]; [|reflexivity];
  try (rewrite url_line_appends; symmetry; rewrite url_line_appends; symmetry);
  cbn [String.append]; rewrite !app_assoc_s; reflexivity.

Lemma search_entry_appends : appends search_entry.
Proof. entry_appends. Qed.

Lemma page_entry_appends : appends page_entry.
Proof. entry_appends. Qed.

Lemma space_entry_appends : appends space_entry.
Proof. entry_appends. Qed.

Lemma enumerate_loop_blocks body (Happ : appends body) l :
  forall i f,
    enumerate_loop body i l f = rbind (blocks body i l) (fun bs => Ok (f ++ cat bs)).
Proof.
  induction l as [|x rest IH]; intros i f; simpl.
  - now rewrite app_nil_r_s.
  - rewrite Happ. destruct (body i x "") as [t|e]; simpl; [|reflexivity].
    rewrite IH. destruct (blocks body (i + 1) rest) as [ts|e]; simpl; [|reflexivity].
    now rewrite app_assoc_s.
Qed.

Lemma blocks_nth body l :
  forall i bs, blocks body i l = Ok bs ->
    List.length bs = List.length l
    /\ forall k r, nth_error l k = Some r ->
         exists t, nth_error bs k = Some t /\ body (i + Z.of_nat k)%Z r "" = Ok t.
Proof.
  induction l as [|x rest IH]; intros i bs H; simpl in H.
  - injection H as <-. split; [reflexivity|]. intros [|k] r; discriminate.
  - rinv H. injection H as <-. destruct (IH _ _ E0) as [Hlen Hnth].
    split; [simpl; now rewrite Hlen|].
    intros [|k] r Hk; simpl in Hk.
    + injection Hk as <-. exists a. rewrite Z.add_0_r. now split.
    + destruct (Hnth _ _ Hk) as (t & Ht & Hb). exists t. split; [exact Ht|].
      replace (i + Z.of_nat (S k))%Z with (i + 1 + Z.of_nat k)%Z by lia. exact Hb.
Qed.

Lemma blocks_total body (P : dict -> bool)
    (Hok : forall i r, P r = true -> exists t, body i r "" = Ok t) l :
  forallb P l = true -> forall i, exists bs, blocks body i l = Ok bs.
Proof.
  induction l as [|x rest IH]; simpl; intros H i.
  - eauto.
  - apply andb_true_iff in H as [Hx Hr].
    destruct (Hok i x Hx) as [t ->]. destruct (IH Hr (i + 1)%Z) as [ts ->].
    simpl. eauto.
Qed.

Lemma preview_line_total label k n r f :
  previewable k r = true -> exists t, preview_line label k n r f = Ok t.
Proof.
  unfold previewable, preview_line. cbv zeta.
  destruct (truthy (dict_get r k PNone)) eqn:T; [|eauto].
  rewrite (dict_get_default_irrelevant r k (PStr "") PNone T).
  destruct (dict_get r k PNone); simpl; intros H; try discriminate; eauto.
Qed.

Lemma search_entry_total i r :
  previewable "content" r = true -> exists t, search_entry i r "" = Ok t.
Proof.
  intros H. unfold search_entry.
  edestruct preview_line_total as [t ->]; [exact H|]. simpl. eauto.
Qed.

Lemma page_entry_total i r :
  previewable "content" r = true -> exists t, page_entry i r "" = Ok t.
Proof.
  intros H. unfold page_entry.
  edestruct preview_line_total as [t ->]; [exact H|]. simpl. eauto.
Qed.

Lemma space_entry_total i r :
  previewable "description" r = true -> exists t, space_entry i r "" = Ok t.
Proof.
  intros H. unfold space_entry.
  edestruct preview_line_total as [t ->]; [exact H|]. simpl. eauto.
Qed.

Ltac entry_numbered :=
  intros i r t; cbv beta delta [search_entry page_entry space_entry] zeta;
  rewrite (preview_line_appends _ _ _ _ (_ ++ _)%string);
  destruct (preview_line _ _ _ r "") as [p|e]; cbn [rbind]; [|discriminate];
  intros H; injection H as <-;
  try rewrite url_line_appends;
  cbn [String.append]; rewrite !app_assoc_s;
  eexists; reflexivity.

Lemma search_entry_numbered : numbered search_entry.
Proof. entry_numbered. Qed.

Lemma page_entry_numbered : numbered page_entry.
Proof. entry_numbered. Qed.

Lemma space_entry_numbered : numbered space_entry.
Proof. entry_numbered. Qed.

(** C6, counterexample: the sentence of the page formatter names the space
    key it was given, so two space keys give two sentences. *)
Lemma C6_counterexample : ~ C6_as_stated.
Proof.
  intros (_ & (sentence & H) & _).
  pose proof (H (PStr "DEV")) as H1. pose proof (H (PStr "OPS")) as H2.
  pose proof (eq_trans H1 (eq_sym H2)) as D. discriminate D.
Qed.

(** C6, amended: on an empty collection no formatter raises and none emits
    a header or a numbered block; the search and space formatters return the
    constant sentences [No results found.] and [No spaces found.], and the
    page formatter returns [No pages found in space: ] followed by the space
    key it was given. *)
Theorem C6_empty_collections :
  _format_search_results [] = Ok "No results found."
  /\ _format_spaces [] = Ok "No spaces found."
  /\ forall space_key : pyval,
       _format_pages [] space_key = Ok ("No pages found in space: " ++ py_str space_key).
Proof. repeat split. Qed.

Example short_hit_formatted :
  _format_search_results [short_hit]
  = Ok ("Search Results:" ++ nl
        ++ nl ++ "1. Title: Release notes" ++ nl
        ++ "   Space: Dev" ++ nl
        ++ "   Type: page" ++ nl
        ++ "   Content: abc..." ++ nl).
Proof. reflexivity. Qed.

(** C5, counterexample: a three-character content is followed by the
    ellipsis although nothing was cut. *)
Lemma C5_counterexample : ~ C5_as_stated.
Proof.
  intros H.
  assert (N : "abc" <> "") by discriminate.
  assert (L : String.length "abc" < 150) by (simpl; lia).
  pose proof (H short_hit "abc" _ eq_refl N L short_hit_formatted) as C.
  vm_compute in C. discriminate C.
Qed.

(** C5, amended: whenever the preview field of a record is a non-empty
    string, the entry shows its first 200 characters (search results), 150
    characters (pages) or 100 characters (space descriptions), and the
    ellipsis follows in every case, cut or not. *)
Theorem C5_preview_ellipsis (r : dict) (s : string) (i : Z) (f : string) :
  s <> "" ->
  (dict_get r "content" PNone = PStr s ->
     search_entry i r f
     = Ok (url_line r
             (f ++ nl ++ of_Z i ++ ". Title: "
                ++ py_str (dict_get r "title" (PStr "N/A")) ++ nl
                ++ "   Space: "
                ++ py_str (dict_get r "space_name" (dict_get r "space" (PStr "N/A"))) ++ nl
                ++ "   Type: " ++ py_str (dict_get r "type" (PStr "N/A")) ++ nl
                ++ "   Content: " ++ take 200 s ++ "..." ++ nl))
     /\ page_entry i r f
        = Ok (url_line r
                (f ++ nl ++ of_Z i ++ ". "
                   ++ py_str (dict_get r "title" (PStr "N/A")) ++ nl
                   ++ "   ID: " ++ py_str (dict_get r "id" (PStr "N/A")) ++ nl
                   ++ "   Preview: " ++ take 150 s ++ "..." ++ nl)))
  /\ (dict_get r "description" PNone = PStr s ->
        space_entry i r f
        = Ok (f ++ nl ++ of_Z i ++ ". "
                ++ py_str (dict_get r "name" (PStr "N/A"))
                ++ " (Key: " ++ py_str (dict_get r "key" (PStr "N/A")) ++ ")" ++ nl
                ++ "   Description: " ++ take 100 s ++ "..." ++ nl
                ++ "   Type: " ++ py_str (dict_get r "type" (PStr "N/A")) ++ nl))
  /\ String.length (take 200 s) <= 200
  /\ String.length (take 150 s) <= 150
  /\ String.length (take 100 s) <= 100.
Proof.
  intros Hs.
  assert (T : truthy (PStr s) = true).
  { simpl. destruct (String.eqb_spec s ""); [contradiction | reflexivity]. }
  assert (P : forall label k n g,
             dict_get r k PNone = PStr s ->
             preview_line label k n r g
             = Ok (g ++ "   " ++ label ++ ": " ++ take n s ++ "..." ++ nl)).
  { intros label k n g Hk. unfold preview_line.
    assert (Hk' : dict_get r k (PStr "") = PStr s).
    { rewrite <- Hk. apply dict_get_default_irrelevant. now rewrite Hk. }
    rewrite Hk, Hk', T. reflexivity. }
  split; [|split].
  - intros Hc. unfold search_entry, page_entry. rewrite !P by assumption.
    cbn [rbind]. rewrite !app_assoc_s. split; reflexivity.
  - intros Hd. unfold space_entry. rewrite P by assumption.
    cbn [rbind]. rewrite !app_assoc_s. reflexivity.
  - repeat split; apply take_length_le.
Qed.

Lemma C5_preview_ellipsis_witness :
  "abc" <> ""
  /\ dict_get short_hit "content" PNone = PStr "abc"
  /\ search_entry 1 short_hit ("Search Results:" ++ nl)
     = Ok ("Search Results:" ++ nl
           ++ nl ++ "1. Title: Release notes" ++ nl
           ++ "   Space: Dev" ++ nl
           ++ "   Type: page" ++ nl
           ++ "   Content: abc..." ++ nl).
Proof.
  assert (N : "abc" <> "") by discriminate.
  split; [exact N|]. split; [reflexivity|].
  exact (proj1 (proj1 (C5_preview_ellipsis short_hit "abc" 1 ("Search Results:" ++ nl) N)
                  eq_refl)).
Defined.

Lemma enumerate_loop_numbered body records header out :
  appends body -> numbered body ->
  enumerate_loop body 1 records header = Ok out ->
  exists text, out = header ++ text /\ numbered_blocks body records text.
Proof.
  intros Happ Hnum H. rewrite (enumerate_loop_blocks _ Happ) in H.
  apply rbind_ok in H as (bs & Hbs & H). injection H as <-.
  exists (cat bs). split; [reflexivity|].
  exists bs. destruct (blocks_nth body records 1%Z bs Hbs) as [Hlen Hnth].
  split; [reflexivity|]. split; [exact Hlen|].
  intros k r Hk. destruct (Hnth k r Hk) as (t & Ht & Hb).
  replace (1 + Z.of_nat k)%Z with (Z.of_nat k + 1)%Z in Hb by lia.
  destruct (Hnum _ _ _ Hb) as [t' ->]. exists t'. now split.
Qed.

Lemma enumerate_loop_total body (P : dict -> bool) records header :
  appends body ->
  (forall i r, P r = true -> exists t, body i r "" = Ok t) ->
  forallb P records = true ->
  exists out, enumerate_loop body 1 records header = Ok out.
Proof.
  intros Happ Hok Hall.
  destruct (blocks_total body P Hok records Hall 1%Z) as [bs Hbs].
  rewrite (enumerate_loop_blocks _ Happ), Hbs. simpl. eauto.
Qed.

(** C7: for a non-empty list of records, the text a formatter returns is
    its header followed by exactly one block per record, in the order of the
    records, the block of the k-th record opening with the number k counted
    from 1; and the formatter does return a text when the preview field of
    every record can be shown (it is absent, empty, or text). *)
Theorem C7_numbered_entries (records : list dict) (space_key : pyval) :
  records <> [] ->
  (forall out, _format_search_results records = Ok out ->
     exists text, out = ("Search Results:" ++ nl) ++ text
                  /\ numbered_blocks search_entry records text)
  /\ (forall out, _format_pages records space_key = Ok out ->
        exists text,
          out = ("Pages from space '" ++ py_str space_key ++ "':" ++ nl) ++ text
          /\ numbered_blocks page_entry records text)
  /\ (forall out, _format_spaces records = Ok out ->
        exists text, out = ("Available Confluence Spaces:" ++ nl) ++ text
                     /\ numbered_blocks space_entry records text)
  /\ (forallb (previewable "content") records = true ->
        (exists out, _format_search_results records = Ok out)
        /\ (exists out, _format_pages records space_key = Ok out))
  /\ (forallb (previewable "description") records = true ->
        exists out, _format_spaces records = Ok out).
Proof.
  intros Hne. destruct records as [|r0 rest]; [contradiction|].
  unfold _format_search_results, _format_pages, _format_spaces.
  split; [|split; [|split; [|split]]].
  - intros out. apply enumerate_loop_numbered;
      auto using search_entry_appends, search_entry_numbered.
  - intros out. apply enumerate_loop_numbered;
      auto using page_entry_appends, page_entry_numbered.
  - intros out. apply enumerate_loop_numbered;
      auto using space_entry_appends, space_entry_numbered.
  - intros Hall. split.
    + apply enumerate_loop_total with (P := previewable "content");
        auto using search_entry_appends, search_entry_total.
    + apply enumerate_loop_total with (P := previewable "content");
        auto using page_entry_appends, page_entry_total.
  - intros Hall. apply enumerate_loop_total with (P := previewable "description");
      auto using space_entry_appends, space_entry_total.
Qed.

Example two_spaces_formatted :
  _format_spaces two_spaces
  = Ok ("Available Confluence Spaces:" ++ nl
        ++ nl ++ "1. Development (Key: DEV)" ++ nl
        ++ "   Description: Engineering notes..." ++ nl
        ++ "   Type: global" ++ nl
        ++ nl ++ "2. Operations (Key: OPS)" ++ nl
        ++ "   Type: global" ++ nl).
Proof. reflexivity. Qed.

Lemma C7_numbered_entries_witness :
  two_spaces <> []
  /\ forallb (previewable "description") two_spaces = true
  /\ (exists out, _format_spaces two_spaces = Ok out)
  /\ exists text,
       "Available Confluence Spaces:" ++ nl
         ++ nl ++ "1. Development (Key: DEV)" ++ nl
         ++ "   Description: Engineering notes..." ++ nl
         ++ "   Type: global" ++ nl
         ++ nl ++ "2. Operations (Key: OPS)" ++ nl
         ++ "   Type: global" ++ nl
       = ("Available Confluence Spaces:" ++ nl) ++ text
       /\ numbered_blocks space_entry two_spaces text.
Proof.
  assert (N : two_spaces <> []) by discriminate.
  destruct (C7_numbered_entries two_spaces PNone N) as (_ & _ & Hs & _ & Ht).
  split; [exact N|]. split; [reflexivity|].
  split; [exact (Ht eq_refl)|].
  exact (Hs _ two_spaces_formatted).
Defined.

(** ** Failures inside the connector *)

Ltac run_op Hconn :=
  cbv beta delta [get_spaces get_pages_from_space search_content
                  get_page_content get_page_by_title bind try_except api log emit
                  lift ret raise];
  rewrite Hconn; cbn [handle events].

(** C3: once the session is there, [get_page_content] and
    [get_page_by_title] answer [None] both when the remote call raises (the
    failure is logged and swallowed) and when the remote answer is empty;
    [get_spaces], [get_pages_from_space] and [search_content] log the
    failure of their remote call and raise the same exception again. *)
Theorem C3_adapter_failures (w : world) (self : connector) (st st1 : state) (e : exn) :
  ensure_connected w self st = (Ok tt, st1) ->
  let failed c msg := after st1 [EvApi c; EvLog ERROR (msg ++ exn_str e)] in
  (forall page_id,
     let c := api_get_page_by_id page_id "body.storage,version,space" in
     (confluence_api w (events st1) c = Raise e ->
      get_page_content w self page_id st
      = (Ok None, failed c "Failed to get page content: "))
     /\ (forall page,
           confluence_api w (events st1) c = Ok page -> truthy page = false ->
           get_page_content w self page_id st = (Ok None, after st1 [EvApi c])))
  /\ (forall space_key title,
        let c := api_get_page_by_title space_key title in
        (confluence_api w (events st1) c = Raise e ->
         get_page_by_title w self space_key title st
         = (Ok None, failed c "Failed to get page by title: "))
        /\ (forall page,
              confluence_api w (events st1) c = Ok page -> truthy page = false ->
              get_page_by_title w self space_key title st = (Ok None, after st1 [EvApi c])))
  /\ (forall limit,
        let c := api_get_all_spaces (PInt 0) limit (Some "description.plain") in
        confluence_api w (events st1) c = Raise e ->
        get_spaces w self limit st = (Raise e, failed c "Failed to retrieve spaces: "))
  /\ (forall space_key limit,
        let c := api_get_all_pages_from_space space_key (PInt 0) limit
                   "body.storage,version" in
        confluence_api w (events st1) c = Raise e ->
        get_pages_from_space w self space_key limit st
        = (Raise e, failed c "Failed to retrieve pages from space: "))
  /\ (forall query space_key max_results,
        let c := api_cql (cql_for query space_key) max_results
                   "body.storage,version,space" in
        confluence_api w (events st1) c = Raise e ->
        search_content w self query space_key max_results st
        = (Raise e, failed c "Search failed: ")).
Proof.
  intros Hconn failed.
  split; [|split; [|split; [|split]]].
  - intros page_id c. split.
    + intros Hapi. subst failed c. unfold after. run_op Hconn. rewrite Hapi. cbn.
      now rewrite <- app_assoc.
    + intros page Hapi Hpage. subst c. unfold after. run_op Hconn.
      rewrite Hapi, Hpage. reflexivity.
  - intros space_key title c. split.
    + intros Hapi. subst failed c. unfold after. run_op Hconn. rewrite Hapi. cbn.
      now rewrite <- app_assoc.
    + intros page Hapi Hpage. subst c. unfold after. run_op Hconn.
      rewrite Hapi, Hpage. reflexivity.
  - intros limit c Hapi. subst failed c. unfold after. run_op Hconn. rewrite Hapi. cbn.
    now rewrite <- app_assoc.
  - intros space_key limit c Hapi. subst failed c. unfold after. run_op Hconn.
    rewrite Hapi. cbn. now rewrite <- app_assoc.
  - intros query space_key max_results c Hapi. subst failed c. unfold after.
    run_op Hconn. rewrite Hapi. cbn. now rewrite <- app_assoc.
Qed.

Lemma C3_adapter_failures_witness :
  ensure_connected failing_wiki wiki connected = (Ok tt, connected)
  /\ confluence_api failing_wiki (events connected)
       (api_get_page_by_id (PStr "42") "body.storage,version,space") = Raise unavailable
  /\ get_page_content failing_wiki wiki (PStr "42") connected
     = (Ok None,
        after connected
          [EvApi (api_get_page_by_id (PStr "42") "body.storage,version,space");
           EvLog ERROR ("Failed to get page content: " ++ exn_str unavailable)])
  /\ get_spaces failing_wiki wiki (PInt 100) connected
     = (Raise unavailable,
        after connected
          [EvApi (api_get_all_spaces (PInt 0) (PInt 100) (Some "description.plain"));
           EvLog ERROR ("Failed to retrieve spaces: " ++ exn_str unavailable)])
  /\ get_page_content empty_wiki wiki (PStr "42") connected
     = (Ok None,
        after connected
          [EvApi (api_get_page_by_id (PStr "42") "body.storage,version,space")]).
Proof.
  assert (F : ensure_connected failing_wiki wiki connected = (Ok tt, connected))
    by reflexivity.
  assert (E : ensure_connected empty_wiki wiki connected = (Ok tt, connected))
    by reflexivity.
  pose proof (C3_adapter_failures failing_wiki wiki _ _ unavailable F) as (Hc & _ & Hs & _).
  pose proof (C3_adapter_failures empty_wiki wiki _ _ unavailable E) as (Hn & _).
  split; [exact F|]. split; [reflexivity|].
  split; [exact (proj1 (Hc (PStr "42")) eq_refl)|].
  split; [exact (Hs (PInt 100) eq_refl)|].
  exact (proj2 (Hn (PStr "42")) PNone eq_refl eq_refl).
Defined.

(** A lazy connect that fails is outside the [try] of every operation, so
    it is not swallowed, not even by [get_page_content]. *)
Lemma connect_failure_propagates (w : world) (self : connector) (st : state)
    (e : exn) (page_id : pyval) :
  handle st = false ->
  confluence_new w (events st) = Raise e ->
  fst (get_page_content w self page_id st) = Raise e.
Proof.
  intros Hh Hn.
  cbv beta delta [get_page_content ensure_connected connect new_client get_handle
                  bind try_except].
  rewrite Hh. cbn. rewrite Hn. reflexivity.
Qed.

(** ** The query: totality and the error mapping *)

(** C9: [query] never raises.  Whatever the world answers and wherever the
    [try] block raises (the classifier call, the parsing of its answer, a
    connector call, a formatter, the synthesis call), [query] returns a
    string: the synthesised answer when the block completes, the message
    chosen from the text of the exception otherwise, after logging it. *)
Theorem C9_query_total (w : world) (self : agent) (user_query : string) (st : state) :
  exists answer st',
    query w self user_query st = (Ok answer, st')
    /\ match query_body w self user_query st with
       | (Ok a, st1) => answer = a /\ st' = st1
       | (Raise e, st1) =>
           answer = error_answer (exn_str e)
           /\ st' = after st1 [EvLog ERROR ("Error processing query: " ++ exn_str e)]
       end.
Proof.
  unfold query, try_except.
  destruct (query_body w self user_query st) as [[a|e] st1].
  - exists a, st1. auto.
  - eexists _, _. split; [reflexivity|]. split; reflexivity.
Qed.

(** The two failures of the classifying step, seen from the caller. *)
Lemma query_classifier_failure w self user_query st e :
  let request := Chat (model self) system_prompt user_query "0.1" in
  chat_content w (events st) request = Raise e ->
  query w self user_query st
  = (Ok (error_answer (exn_str e)),
     after st [EvChat request; EvLog ERROR ("Error processing query: " ++ exn_str e)]).
Proof.
  intros request H.
  cbv beta delta [query query_body try_except bind chat log emit ret after].
  fold request. rewrite H. cbn. now rewrite <- app_assoc.
Qed.

Lemma query_parse_failure w self user_query st content e :
  let request := Chat (model self) system_prompt user_query "0.1" in
  chat_content w (events st) request = Ok content ->
  json_loads w content = Raise e ->
  query w self user_query st
  = (Ok (error_answer (exn_str e)),
     after st [EvChat request; EvLog ERROR ("Error processing query: " ++ exn_str e)]).
Proof.
  intros request H J.
  cbv beta delta [query query_body try_except bind chat lift log emit ret after].
  fold request. rewrite H. cbn. rewrite J. cbn. now rewrite <- app_assoc.
Qed.

(** *** Counting calls in the trace *)

Section Quiet.

Variable f : event -> bool.

Lemma count_ev_snoc tr ev :
  count_ev f (tr ++ [ev]) = count_ev f tr + (if f ev then 1 else 0).
Proof.
  unfold count_ev. rewrite filter_app, length_app. simpl.
  destruct (f ev); reflexivity.
Qed.

Lemma quiet_ret {A} (a : A) : quiet f (ret a).
Proof. intros st. reflexivity. Qed.

Lemma quiet_raise {A} (e : exn) : quiet f (@raise A e).
Proof. intros st. reflexivity. Qed.

Lemma quiet_lift {A} (r : result A) : quiet f (lift r).
Proof. intros st. reflexivity. Qed.

Lemma quiet_get_handle : quiet f get_handle.
Proof. intros st. reflexivity. Qed.

Lemma quiet_set_handle b : quiet f (set_handle b).
Proof. intros st. reflexivity. Qed.

Lemma quiet_emit ev : f ev = false -> quiet f (emit ev).
Proof.
  intros H st. unfold emit. simpl. rewrite count_ev_snoc, H. lia.
Qed.

Lemma quiet_api w c : f (EvApi c) = false -> quiet f (api w c).
Proof.
  intros H st. unfold api. simpl. rewrite count_ev_snoc, H. lia.
Qed.

Lemma quiet_chat w r : f (EvChat r) = false -> quiet f (chat w r).
Proof.
  intros H st. unfold chat. simpl. rewrite count_ev_snoc, H. lia.
Qed.

Lemma quiet_new w u n p : f (EvNew u n p) = false -> quiet f (new_client w u n p).
Proof.
  intros H st. unfold new_client. simpl. rewrite count_ev_snoc, H. lia.
Qed.

Lemma quiet_bind {A B} (m : M A) (k : A -> M B) :
  quiet f m -> (forall a, quiet f (k a)) -> quiet f (bind m k).
Proof.
  intros Hm Hk st. unfold bind. specialize (Hm st).
  destruct (m st) as [[a|e] st']; simpl in *.
  - rewrite Hk. exact Hm.
  - exact Hm.
Qed.

Lemma quiet_try {A} (m : M A) (h : exn -> M A) :
  quiet f m -> (forall e, quiet f (h e)) -> quiet f (try_except m h).
Proof.
  intros Hm Hh st. unfold try_except. specialize (Hm st).
  destruct (m st) as [[a|e] st']; simpl in *.
  - exact Hm.
  - rewrite Hh. exact Hm.
Qed.

End Quiet.

Ltac quiet_step :=
  first
    [ apply quiet_ret | apply quiet_raise | apply quiet_lift
    | apply quiet_get_handle | apply quiet_set_handle
    | apply quiet_bind; [|intros ?]
    | apply quiet_try; [|intros ?]
    | apply quiet_emit; solve [auto]
    | apply quiet_api; solve [auto]
    | apply quiet_new; solve [auto]
    | match goal with
      | |- quiet _ (if ?b then _ else _) => destruct b
      end ].

Ltac quiet_auto := unfold log; repeat quiet_step.

Section QuietConnector.

Variable f : event -> bool.
Variable w : world.
Variable self : connector.

Hypothesis f_log : forall lvl msg, f (EvLog lvl msg) = false.
Hypothesis f_new : forall u n p, f (EvNew u n p) = false.
Hypothesis f_spaces : forall s l x, f (EvApi (api_get_all_spaces s l x)) = false.

Lemma quiet_ensure_connected : quiet f (ensure_connected w self).
Proof. unfold ensure_connected, connect. quiet_auto. Qed.

Lemma quiet_get_spaces limit : quiet f (get_spaces w self limit).
Proof.
  unfold get_spaces.
  apply quiet_bind; [apply quiet_ensure_connected | intros _]. quiet_auto.
Qed.

Lemma quiet_search_content query space_key max_results :
  (forall q l x, f (EvApi (api_cql q l x)) = false) ->
  quiet f (search_content w self query space_key max_results).
Proof.
  intros f_cql. unfold search_content.
  apply quiet_bind; [apply quiet_ensure_connected | intros _]. quiet_auto.
Qed.

Lemma quiet_get_pages_from_space space_key limit :
  (forall s a l x, f (EvApi (api_get_all_pages_from_space s a l x)) = false) ->
  quiet f (get_pages_from_space w self space_key limit).
Proof.
  intros f_pages. unfold get_pages_from_space.
  apply quiet_bind; [apply quiet_ensure_connected | intros _]. quiet_auto.
Qed.

End QuietConnector.

(** Step 2 of [query] never makes the synthesis call. *)
Lemma quiet_fetch_synthesis w self user_query analysis action :
  quiet is_synthesis_call (fetch w self user_query analysis action).
Proof.
  unfold fetch.
  repeat first
    [ apply quiet_get_spaces; solve [auto]
    | apply quiet_search_content; solve [auto]
    | apply quiet_get_pages_from_space; solve [auto]
    | quiet_step ].
Qed.

Lemma bind_raise {A B} (m : M A) (k : A -> M B) st e st1 :
  bind m k st = (Raise e, st1) ->
  m st = (Raise e, st1)
  \/ exists a st', m st = (Ok a, st') /\ k a st' = (Raise e, st1).
Proof.
  unfold bind. destruct (m st) as [[a|e'] st']; intros H.
  - right. eauto.
  - left. injection H as -> ->. reflexivity.
Qed.

Lemma lift_run {A} (r : result A) st x st1 : lift r st = (x, st1) -> r = x /\ st1 = st.
Proof. unfold lift. intros H. injection H as <- <-. auto. Qed.

Lemma query_raise w self user_query st e st1 :
  query_body w self user_query st = (Raise e, st1) ->
  query w self user_query st
  = (Ok (error_answer (exn_str e)),
     after st1 [EvLog ERROR ("Error processing query: " ++ exn_str e)]).
Proof. intros H. unfold query, try_except. rewrite H. reflexivity. Qed.

(** Where the [try] block of [query] can raise: before the synthesis call,
    which then is not made, or in the synthesis call itself, which then is
    the last event. *)
Lemma query_body_raise_synthesis w self user_query st e st1 :
  query_body w self user_query st = (Raise e, st1) ->
  count_ev is_synthesis_call (events st1) = count_ev is_synthesis_call (events st)
  \/ exists tr confluence_data,
       let request := Chat (model self) synthesis_system
                        (response_prompt user_query confluence_data) "0.7" in
       events st1 = (tr ++ [EvChat request])%list
       /\ chat_content w tr request = Raise e
       /\ count_ev is_synthesis_call tr = count_ev is_synthesis_call (events st).
Proof.
  unfold query_body. intros H.
  assert (C1 : forall x st', chat w (Chat (model self) system_prompt user_query "0.1") st
                             = (x, st') ->
               count_ev is_synthesis_call (events st')
               = count_ev is_synthesis_call (events st)).
  { intros x st' Hc.
    pose proof (quiet_chat is_synthesis_call w
                  (Chat (model self) system_prompt user_query "0.1") eq_refl st) as Q.
    rewrite Hc in Q. exact Q. }
  apply bind_raise in H as [H | (content & st2 & Hchat & H)]; [left; eauto|].
  apply C1 in Hchat.
  apply bind_raise in H as [H | (analysis & st3 & Hl & H)].
  { apply lift_run in H as [_ ->]. left. exact Hchat. }
  apply lift_run in Hl as [_ ->].
  apply bind_raise in H as [H | (action & st3 & Hl & H)].
  { apply lift_run in H as [_ ->]. left. exact Hchat. }
  apply lift_run in Hl as [_ ->].
  apply bind_raise in H as [H | (confluence_data & st3 & Hf & H)].
  { left. rewrite <- Hchat.
    pose proof (quiet_fetch_synthesis w self user_query analysis action st2) as Q.
    rewrite H in Q. exact Q. }
  assert (Hq : count_ev is_synthesis_call (events st3)
               = count_ev is_synthesis_call (events st)).
  { rewrite <- Hchat.
    pose proof (quiet_fetch_synthesis w self user_query analysis action st2) as Q.
    rewrite Hf in Q. exact Q. }
  apply bind_raise in H as [H | (answer & st4 & _ & H)].
  - right. exists (events st3), confluence_data. cbv zeta.
    unfold chat in H. injection H as H <-. simpl. auto.
  - cbv in H. discriminate H.
Qed.

(** *** The quota error *)

Lemma insufficient_quota_answer msg :
  contains "insufficient_quota" msg = true -> error_answer msg = quota_message.
Proof.
  intros H. unfold error_answer.
  rewrite (contains_lower_part "insufficient_" "quota" "" msg eq_refl H).
  rewrite orb_true_r. reflexivity.
Qed.

(** C2, counterexample: when it is the synthesis call that raises the
    quota error, the message is the billing guidance, but the synthesis
    call has been made. *)
Lemma C2_counterexample : ~ C2_as_stated.
Proof.
  intros H.
  destruct (H quota_at_synthesis (assistant None) "what spaces do we have?"
              quota_exn _ eq_refl eq_refl) as [_ N].
  vm_compute in N. discriminate N.
Qed.

(** C2, amended: whenever the [try] block of [query] raises an exception
    whose text has [insufficient_quota], [query] returns the fixed billing
    guidance verbatim and does nothing more than log the error; the
    synthesis call is not made when the exception comes from an earlier step
    (the classifier call, the parsing, a connector call or a formatter), and
    otherwise it is the synthesis call itself that raised, as the last call
    of the query. *)
Theorem C2_insufficient_quota (w : world) (self : agent) (user_query : string)
    (st st1 : state) (e : exn) :
  query_body w self user_query st = (Raise e, st1) ->
  contains "insufficient_quota" (exn_str e) = true ->
  query w self user_query st
  = (Ok quota_message, after st1 [EvLog ERROR ("Error processing query: " ++ exn_str e)])
  /\ (count_ev is_synthesis_call (events st1) = count_ev is_synthesis_call (events st)
      \/ exists tr confluence_data,
           let request := Chat (model self) synthesis_system
                            (response_prompt user_query confluence_data) "0.7" in
           events st1 = (tr ++ [EvChat request])%list
           /\ chat_content w tr request = Raise e
           /\ count_ev is_synthesis_call tr = count_ev is_synthesis_call (events st)).
Proof.
  intros Hb Hq. split.
  - rewrite (query_raise _ _ _ _ _ _ Hb), (insufficient_quota_answer _ Hq). reflexivity.
  - exact (query_body_raise_synthesis _ _ _ _ _ _ Hb).
Qed.

Lemma C2_insufficient_quota_witness :
  query_body quota_at_classifier (assistant None) "what spaces do we have?" connected
  = (Raise quota_exn,
     after connected [EvChat (Chat "gpt-3.5-turbo" system_prompt
                                "what spaces do we have?" "0.1")])
  /\ contains "insufficient_quota" (exn_str quota_exn) = true
  /\ query quota_at_classifier (assistant None) "what spaces do we have?" connected
     = (Ok quota_message,
        after connected
          [EvChat (Chat "gpt-3.5-turbo" system_prompt "what spaces do we have?" "0.1");
           EvLog ERROR ("Error processing query: " ++ exn_str quota_exn)]).
Proof.
  split; [reflexivity|]. split; [reflexivity|].
  exact (proj1 (C2_insufficient_quota quota_at_classifier (assistant None)
                  "what spaces do we have?" connected _ quota_exn eq_refl eq_refl)).
Defined.

Example wiki_not_found_run :
  query wiki_not_found (assistant None) "how do we deploy?" connected
  = (Ok model_message,
     after connected
       [EvChat (Chat "gpt-3.5-turbo" system_prompt "how do we deploy?" "0.1");
        EvApi (api_cql ("text ~ " ++ dq ++ "deployment" ++ dq) (PInt 20)
                 "body.storage,version,space");
        EvLog ERROR ("Search failed: " ++ exn_str not_found);
        EvLog ERROR ("Error processing query: " ++ exn_str not_found)]).
Proof. reflexivity. Qed.

(** C10: the message of [query] for a caught exception depends only on the
    text of the exception, wherever it was raised, and is chosen in a fixed
    order: the quota guidance for a text with [429] or [quota], else the
    API-key guidance for [401] or [unauthorized], else the model guidance
    for [404] or [model], else the generic message.  So a failure of the
    wiki whose text has [404] is answered with the model guidance, not with
    a generic retrieval error. *)
Theorem C10_error_mapping_any_origin :
  (forall w self user_query st e st1,
     query_body w self user_query st = (Raise e, st1) ->
     fst (query w self user_query st) = Ok (error_answer (exn_str e)))
  /\ (forall msg,
        let quota := contains "429" msg || contains "quota" (lower msg) in
        let auth := contains "401" msg || contains "unauthorized" (lower msg) in
        let model := contains "404" msg || contains "model" (lower msg) in
        (quota = true -> error_answer msg = quota_message)
        /\ (quota = false -> auth = true -> error_answer msg = auth_message)
        /\ (quota = false -> auth = false -> model = true ->
            error_answer msg = model_message)
        /\ (quota = false -> auth = false -> model = false ->
            error_answer msg = generic_message msg))
  /\ (exists w self user_query e,
        (forall tr c, confluence_api w tr c = Raise e)
        /\ (forall tr r, exists s, chat_content w tr r = Ok s)
        /\ contains "404" (exn_str e) = true
        /\ fst (query w self user_query connected) = Ok model_message
        /\ model_message <> generic_message (exn_str e)).
Proof.
  split; [|split].
  - intros w self user_query st e st1 H. now rewrite (query_raise _ _ _ _ _ _ H).
  - intros msg quota auth model.
    assert (Q : contains "insufficient_quota" (lower msg) = true -> quota = true).
    { intros H. unfold quota.
      apply contains_split in H as (a & b & ->).
      change "insufficient_quota" with ("insufficient_" ++ "quota" ++ "").
      rewrite !app_assoc_s, <- (app_assoc_s a "insufficient_").
      rewrite contains_app. apply orb_true_r. }
    unfold error_answer. fold quota auth model.
    destruct quota.
    + repeat split; intros; try discriminate; try reflexivity.
    + destruct (contains "insufficient_quota" (lower msg));
        [discriminate (Q eq_refl)|].
      cbn [orb].
      destruct auth; [repeat split; intros; try discriminate; try reflexivity|].
      destruct model; repeat split; intros; try discriminate; try reflexivity.
  - exists wiki_not_found, (assistant None), "how do we deploy?", not_found.
    split; [reflexivity|]. split; [|split; [reflexivity|split]].
    + intros tr r. cbn. destruct (String.eqb _ _); eauto.
    + rewrite wiki_not_found_run. reflexivity.
    + discriminate.
Qed.

Lemma C10_error_mapping_any_origin_witness :
  query_body wiki_not_found (assistant None) "how do we deploy?" connected
  = (Raise not_found,
     after connected
       [EvChat (Chat "gpt-3.5-turbo" system_prompt "how do we deploy?" "0.1");
        EvApi (api_cql ("text ~ " ++ dq ++ "deployment" ++ dq) (PInt 20)
                 "body.storage,version,space");
        EvLog ERROR ("Search failed: " ++ exn_str not_found)])
  /\ fst (query wiki_not_found (assistant None) "how do we deploy?" connected)
     = Ok (error_answer (exn_str not_found))
  /\ contains "429" "model 404 and 429" || contains "quota" (lower "model 404 and 429")
     = true
  /\ error_answer "model 404 and 429" = quota_message.
Proof.
  destruct C10_error_mapping_any_origin as (Hany & Horder & _).
  split; [reflexivity|].
  split; [exact (Hany wiki_not_found (assistant None) "how do we deploy?" connected
                   not_found _ eq_refl)|].
  split; [reflexivity|].
  exact (proj1 (Horder "model 404 and 429") eq_refl).
Defined.

(** *** The space key of a [get_pages] decision *)

(** When the key resolved for [get_pages] is empty, no page listing is
    requested and the data is the list of all spaces under the notice. *)
Lemma fetch_get_pages_no_key w self user_query d :
  truthy (dict_get d "space_key" (opt_str (default_space (confluence self)))) = false ->
  fetch w self user_query (PDict d) (PStr "get_pages")
  = bind (get_spaces w (confluence self) (PInt 100))
         (fun spaces =>
            lift (space_lines spaces ("Space key not specified. Available spaces:" ++ nl)))
  /\ quiet is_list_pages_call (fetch w self user_query (PDict d) (PStr "get_pages")).
Proof.
  intros H. unfold fetch. cbn [is_action String.eqb Ascii.eqb Bool.eqb py_get].
  assert (E : forall k : pyval -> M string,
             bind (lift (Ok (dict_get d "space_key"
                               (opt_str (default_space (confluence self)))))) k
             = k (dict_get d "space_key" (opt_str (default_space (confluence self)))))
    by reflexivity.
  rewrite E, H. split; [reflexivity|].
  apply quiet_bind; [apply quiet_get_spaces; auto | intros spaces; apply quiet_lift].
Qed.

(** A decision without a [space_key] entry takes the configured default;
    a decision with one takes its value, whatever it is. *)
Lemma get_pages_key_resolution d default :
  (lookup "space_key" d = None -> dict_get d "space_key" (opt_str default) = opt_str default)
  /\ (forall v, lookup "space_key" d = Some v ->
                dict_get d "space_key" (opt_str default) = v).
Proof.
  unfold dict_get. split; [intros -> | intros v ->]; reflexivity.
Qed.

(** A decision whose [space_key] entry is [null] or empty never leads to a
    page listing, whatever default space is configured. *)
Lemma get_pages_empty_key_skips_default w self user_query d v :
  lookup "space_key" d = Some v -> truthy v = false ->
  quiet is_list_pages_call (fetch w self user_query (PDict d) (PStr "get_pages")).
Proof.
  intros Hl Hv. apply fetch_get_pages_no_key.
  now rewrite (proj2 (get_pages_key_resolution d _) v Hl).
Qed.

(** C1, the failing input: with the default space [DEV] configured, a
    decision whose [space_key] is [null] is answered with the notice and the
    list of spaces, and no page listing is requested; the same decision
    without the [space_key] entry lists the pages of [DEV]. *)
Theorem C1_null_space_key_ignores_default :
  query null_key_world (assistant (Some "DEV")) "show me the pages" connected
  = (Ok "Please pick a space.",
     after connected
       [EvChat (Chat "gpt-3.5-turbo" system_prompt "show me the pages" "0.1");
        EvApi (api_get_all_spaces (PInt 0) (PInt 100) (Some "description.plain"));
        EvLog INFO "Retrieved 1 spaces";
        EvChat (Chat "gpt-3.5-turbo" synthesis_system
                  (response_prompt "show me the pages"
                     ("Space key not specified. Available spaces:" ++ nl
                      ++ "- Development (Key: DEV)" ++ nl))
                  "0.7");
        EvLog INFO "Generated response for query: show me the pages..."])
  /\ query no_key_world (assistant (Some "DEV")) "show me the pages" connected
     = (Ok "Here are the pages.",
        after connected
          [EvChat (Chat "gpt-3.5-turbo" system_prompt "show me the pages" "0.1");
           EvApi (api_get_all_pages_from_space (PStr "DEV") (PInt 0) (PInt 50)
                    "body.storage,version");
           EvLog INFO "Retrieved 1 pages from space: DEV";
           EvChat (Chat "gpt-3.5-turbo" synthesis_system
                     (response_prompt "show me the pages"
                        ("Pages from space 'DEV':" ++ nl
                         ++ nl ++ "1. Home" ++ nl
                         ++ "   ID: 1" ++ nl
                         ++ "   URL: https://x.atlassian.net/wiki/spaces/DEV/pages/1" ++ nl))
                     "0.7");
           EvLog INFO "Generated response for query: show me the pages..."]).
Proof. split; reflexivity. Qed.

(** The scenario of the specification: [space_key] is [null] and no default
    space is configured. *)
Example null_key_without_default :
  count_ev is_list_pages_call
    (events (snd (query null_key_world (assistant None) "show me the pages" connected)))
  = 0.
Proof. reflexivity. Qed.

(** ** Budgets of calls *)

Section Within.

Variable f : event -> bool.

Lemma count_ev_app tr1 tr2 :
  count_ev f (tr1 ++ tr2) = count_ev f tr1 + count_ev f tr2.
Proof. unfold count_ev. now rewrite filter_app, length_app. Qed.

Lemma within_weaken {A} n n' (m : M A) : n <= n' -> within f n m -> within f n' m.
Proof.
  intros Hn H st Hh. destruct (H st Hh) as (H1 & tail & H2 & H3).
  split; [exact H1|]. exists tail. split; [exact H2 | lia].
Qed.

Lemma within_nothing {A} n (m : M A) :
  (forall st, snd (m st) = st) -> within f n m.
Proof.
  intros H st Hh. rewrite H. split; [exact Hh|].
  exists []. rewrite app_nil_r. split; [reflexivity | unfold count_ev; simpl; lia].
Qed.

Lemma within_ret {A} n (a : A) : within f n (ret a).
Proof. now apply within_nothing. Qed.

Lemma within_raise {A} n (e : exn) : within f n (@raise A e).
Proof. now apply within_nothing. Qed.

Lemma within_lift {A} n (r : result A) : within f n (lift r).
Proof. now apply within_nothing. Qed.

Lemma within_one {A} n ev (m : M A) :
  (forall st, handle (snd (m st)) = handle st
              /\ events (snd (m st)) = (events st ++ [ev])%list) ->
  (if f ev then 1 else 0) <= n -> within f n m.
Proof.
  intros H Hn st Hh. destruct (H st) as [H1 H2]. rewrite H1, H2.
  split; [exact Hh|]. exists [ev]. split; [reflexivity|].
  unfold count_ev. simpl. destruct (f ev); simpl in *; lia.
Qed.

Lemma within_emit n ev : (if f ev then 1 else 0) <= n -> within f n (emit ev).
Proof. apply within_one. intros st. split; reflexivity. Qed.

Lemma within_api n w c : (if f (EvApi c) then 1 else 0) <= n -> within f n (api w c).
Proof. apply within_one. intros st. split; reflexivity. Qed.

Lemma within_chat n w r : (if f (EvChat r) then 1 else 0) <= n -> within f n (chat w r).
Proof. apply within_one. intros st. split; reflexivity. Qed.

Lemma within_bind {A B} n1 n2 n (m : M A) (k : A -> M B) :
  n1 + n2 <= n -> within f n1 m -> (forall a, within f n2 (k a)) ->
  within f n (bind m k).
Proof.
  intros Hn Hm Hk st Hh. unfold bind. destruct (Hm st Hh) as (H1 & t1 & H2 & H3).
  destruct (m st) as [[a|e] st']; simpl in *.
  - destruct (Hk a st' H1) as (H4 & t2 & H5 & H6). split; [exact H4|].
    exists (t1 ++ t2)%list. rewrite H5, H2, <- app_assoc, count_ev_app.
    split; [reflexivity | lia].
  - split; [exact H1|]. exists t1. split; [exact H2 | lia].
Qed.

Lemma within_try {A} n1 n2 n (m : M A) (h : exn -> M A) :
  n1 + n2 <= n -> within f n1 m -> (forall e, within f n2 (h e)) ->
  within f n (try_except m h).
Proof.
  intros Hn Hm Hh' st Hh. unfold try_except. destruct (Hm st Hh) as (H1 & t1 & H2 & H3).
  destruct (m st) as [[a|e] st']; simpl in *.
  - split; [exact H1|]. exists t1. split; [exact H2 | lia].
  - destruct (Hh' e st' H1) as (H4 & t2 & H5 & H6). split; [exact H4|].
    exists (t1 ++ t2)%list. rewrite H5, H2, <- app_assoc, count_ev_app.
    split; [reflexivity | lia].
Qed.

(** With a session, [ensure_connected] does nothing. *)
Lemma within_ensure_connected n w self : within f n (ensure_connected w self).
Proof.
  intros st Hh. unfold ensure_connected, bind, get_handle. rewrite Hh. simpl.
  split; [exact Hh|]. exists []. rewrite app_nil_r. split; [reflexivity | unfold count_ev; simpl; lia].
Qed.

(** What [within] says about the counts. *)
Lemma within_count {A} n (m : M A) st :
  within f n m -> handle st = true ->
  count_ev f (events st) <= count_ev f (events (snd (m st)))
  <= count_ev f (events st) + n.
Proof.
  intros H Hh. destruct (H st Hh) as (_ & tail & -> & Hc).
  rewrite count_ev_app. lia.
Qed.

End Within.

Ltac within_free Hlog :=
  unfold log;
  repeat first
    [ apply within_ret | apply within_raise | apply within_lift
    | apply within_emit; solve [rewrite Hlog; lia]
    | apply (@within_bind _ _ _ 0 0 0); [lia | | intros ?]
    | apply (@within_try _ _ 0 0 0); [lia | | intros ?]
    | match goal with
      | |- within _ _ (if ?b then _ else _) => destruct b
      end ].

Section WithinPrograms.

Variable f : event -> bool.
Variable n : nat.
Variable w : world.

Hypothesis f_log : forall lvl msg, f (EvLog lvl msg) = false.
Hypothesis f_api : forall c, (if f (EvApi c) then 1 else 0) <= n.

(** The shape of every connector operation: the session check, one remote
    call, and steps that make no call. *)
Lemma within_operation {A} self (c : api_call) (k : pyval -> M A) (h : exn -> M A) :
  (forall v, within f 0 (k v)) -> (forall e, within f 0 (h e)) ->
  within f n (bind (ensure_connected w self)
                (fun _ => try_except (bind (api w c) k) h)).
Proof.
  intros Hk Hh.
  apply (@within_bind f _ _ 0 n n); [lia | apply within_ensure_connected | intros _].
  apply (@within_try f _ n 0 n); [lia | | exact Hh].
  apply (@within_bind f _ _ n 0 n); [lia | apply within_api, f_api | exact Hk].
Qed.

Lemma within_get_spaces self limit : within f n (get_spaces w self limit).
Proof.
  unfold get_spaces. apply within_operation; intros; within_free f_log.
Qed.

Lemma within_get_pages_from_space self space_key limit :
  within f n (get_pages_from_space w self space_key limit).
Proof.
  unfold get_pages_from_space. apply within_operation; intros; within_free f_log.
Qed.

Lemma within_search_content self query space_key max_results :
  within f n (search_content w self query space_key max_results).
Proof.
  unfold search_content. apply within_operation; intros; within_free f_log.
Qed.

Lemma within_get_page_content self page_id :
  within f n (get_page_content w self page_id).
Proof.
  unfold get_page_content. apply within_operation; intros; within_free f_log.
Qed.

Lemma within_get_page_by_title self space_key title :
  within f n (get_page_by_title w self space_key title).
Proof.
  unfold get_page_by_title. apply within_operation; intros; within_free f_log.
Qed.

Lemma within_fetch self user_query analysis action :
  within f n (fetch w self user_query analysis action).
Proof.
  unfold fetch.
  repeat first
    [ apply within_lift
    | apply (@within_bind f _ _ 0 n n);
        [lia | solve [apply within_lift] | intros ?]
    | apply (@within_bind f _ _ n 0 n);
        [lia
        | first [apply within_get_spaces | apply within_get_pages_from_space
                | apply within_search_content]
        | intros ?]
    | match goal with
      | |- within _ _ (if ?b then _ else _) => destruct b
      end ].
Qed.

End WithinPrograms.

Lemma is_api_log lvl msg : is_api_call (EvLog lvl msg) = false.
Proof. reflexivity. Qed.

Lemma is_new_log lvl msg : is_new_call (EvLog lvl msg) = false.
Proof. reflexivity. Qed.

Lemma is_chat_log lvl msg : is_chat_call (EvLog lvl msg) = false.
Proof. reflexivity. Qed.

(** The trace of an operation run with a session: its remote call comes
    first, and what follows makes no remote call. *)
Lemma operation_trace {A} w self (c : api_call) (k : pyval -> M A) (h : exn -> M A) st :
  handle st = true ->
  (forall v, within is_api_call 0 (k v)) -> (forall e, within is_api_call 0 (h e)) ->
  first_and_only_call st
    (snd (bind (ensure_connected w self)
            (fun _ => try_except (bind (api w c) k) h) st)) c.
Proof.
  intros Hh Hk Hhd. unfold first_and_only_call.
  unfold bind at 1. unfold ensure_connected, bind at 1, get_handle. rewrite Hh.
  cbn [ret]. unfold try_except, bind, api.
  set (st1 := State (handle st) (events st ++ [EvApi c])).
  assert (H1 : handle st1 = true) by exact Hh.
  destruct (confluence_api w (events st) c) as [v|e].
  - destruct (Hk v st1 H1) as (H2 & t & H3 & H4).
    destruct (k v st1) as [[a|e] st2]; simpl in *.
    + exists t. rewrite H3, <- app_assoc. split; [reflexivity | lia].
    + destruct (Hhd e st2 H2) as (_ & t2 & H5 & H6).
      exists (t ++ t2)%list. rewrite H5, H3, <- !app_assoc, count_ev_app.
      split; [reflexivity | lia].
  - destruct (Hhd e st1 H1) as (_ & t2 & H5 & H6).
    exists t2. rewrite H5. simpl. rewrite <- app_assoc. split; [reflexivity | lia].
Qed.

Lemma bind_lift_state {A B} (m : M A) (g : A -> result B) st :
  snd (bind m (fun a => lift (g a)) st) = snd (m st).
Proof. unfold bind, lift. destruct (m st) as [[a|e] st']; reflexivity. Qed.

Ltac operation_first :=
  rewrite bind_lift_state;
  cbv beta delta [get_spaces get_pages_from_space search_content];
  apply operation_trace; [assumption | intros; within_free is_api_log ..].

(** X1: [connect] fails only when the client cannot be constructed, and
    then logs the error and leaves the session as it was; once the client is
    constructed it returns with the session set whether the verification
    probe succeeds or fails, a failed probe being only logged as a
    warning. *)
Theorem connect_outcome (w : world) (self : connector) (st : state) :
  let created := EvNew (url self) (username self) (api_token self) in
  let probe := api_get_all_spaces (PInt 0) (PInt 1) None in
  (forall e, confluence_new w (events st) = Raise e ->
     connect w self st
     = (Raise e,
        after st [created;
                  EvLog ERROR ("Failed to connect to Confluence: " ++ exn_str e)]))
  /\ (confluence_new w (events st) = Ok tt ->
      (forall spaces,
         confluence_api w (events st ++ [created]) probe = Ok spaces ->
         connect w self st
         = (Ok tt,
            State true
              (events st ++
               [created; EvApi probe;
                EvLog INFO ("Successfully connected to Confluence as: "
                            ++ username self)])))
      /\ (forall verify_error,
            confluence_api w (events st ++ [created]) probe = Raise verify_error ->
            connect w self st
            = (Ok tt,
               State true
                 (events st ++
                  [created; EvApi probe;
                   EvLog WARNING ("Could not verify connection by getting spaces: "
                                  ++ exn_str verify_error);
                   EvLog INFO ("Confluence connection initialized for: "
                               ++ username self)])))).
Proof.
  intros created probe.
  split; [intros e Hn | intros Hn; split; [intros spaces Hp | intros ve Hp]];
    cbv beta delta [connect try_except bind new_client set_handle api log emit ret
                    raise after];
    fold created; rewrite Hn; cbn [handle events]; try fold probe; try rewrite Hp;
    cbn [handle events]; rewrite <- ?app_assoc; reflexivity.
Qed.

Lemma connect_outcome_witness :
  confluence_new failing_wiki (events (State false [])) = Ok tt
  /\ confluence_api failing_wiki
       (events (State false []) ++
        [EvNew (url wiki) (username wiki) (api_token wiki)])
       (api_get_all_spaces (PInt 0) (PInt 1) None) = Raise unavailable
  /\ connect failing_wiki wiki (State false [])
     = (Ok tt,
        State true
          [EvNew (url wiki) (username wiki) (api_token wiki);
           EvApi (api_get_all_spaces (PInt 0) (PInt 1) None);
           EvLog WARNING ("Could not verify connection by getting spaces: "
                          ++ exn_str unavailable);
           EvLog INFO ("Confluence connection initialized for: " ++ username wiki)]).
Proof.
  split; [reflexivity|]. split; [reflexivity|].
  exact (proj2 (proj2 (connect_outcome failing_wiki wiki (State false [])) eq_refl)
           unavailable eq_refl).
Defined.

(** X2: with a session, none of the five connector operations constructs a
    client, and each leaves the session in place. *)
Theorem session_reused (w : world) (self : connector) (st : state) (a b c : pyval) :
  handle st = true ->
  reuses_session (get_spaces w self a) st
  /\ reuses_session (get_pages_from_space w self a b) st
  /\ reuses_session (search_content w self a b c) st
  /\ reuses_session (get_page_content w self a) st
  /\ reuses_session (get_page_by_title w self a b) st.
Proof.
  intros Hh.
  assert (R : forall A (m : M A), within is_new_call 0 m -> reuses_session m st).
  { intros A m Hm. split; [apply (Hm st Hh)|].
    pose proof (within_count is_new_call 0 m st Hm Hh). lia. }
  repeat split; apply R;
    first [ apply within_get_spaces | apply within_get_pages_from_space
          | apply within_search_content | apply within_get_page_content
          | apply within_get_page_by_title ];
    solve [reflexivity | intros []; simpl; lia].
Qed.

Lemma session_reused_witness :
  handle connected = true
  /\ reuses_session (get_spaces failing_wiki wiki (PInt 100)) connected
  /\ reuses_session (get_page_content failing_wiki wiki (PStr "42")) connected.
Proof.
  destruct (session_reused failing_wiki wiki connected (PInt 100) PNone PNone eq_refl)
    as (H1 & _).
  destruct (session_reused failing_wiki wiki connected (PStr "42") PNone PNone eq_refl)
    as (_ & _ & _ & H4 & _).
  split; [reflexivity|]. split; assumption.
Defined.

Section WithinQuery.

Variable f : event -> bool.
Variables n1 n2 : nat.
Variable w : world.
Variable self : agent.

Hypothesis f_log : forall lvl msg, f (EvLog lvl msg) = false.
Hypothesis f_chat : forall r, (if f (EvChat r) then 1 else 0) <= n1.
Hypothesis f_api : forall c, (if f (EvApi c) then 1 else 0) <= n2.

(** What follows the classifier call in the [try] block of [query]. *)
Lemma within_query_rest user_query content :
  within f (n2 + n1)
    (analysis <- lift (json_loads w content) ;;
     action <- lift (py_get analysis "action" (PStr "general")) ;;
     confluence_data <- fetch w self user_query analysis action ;;
     answer <- chat w (Chat (model self) synthesis_system
                         (response_prompt user_query confluence_data) "0.7") ;;
     log INFO ("Generated response for query: " ++ take 50 user_query ++ "...") ;;
     ret answer).
Proof.
  apply (@within_bind f _ _ 0 (n2 + n1)); [lia | apply within_lift | intros analysis].
  apply (@within_bind f _ _ 0 (n2 + n1)); [lia | apply within_lift | intros action].
  apply (@within_bind f _ _ n2 n1); [lia | now apply within_fetch | intros data].
  apply (@within_bind f _ _ n1 0); [lia | apply within_chat, f_chat | intros answer].
  within_free f_log.
Qed.


End WithinQuery.

(** X3: a query run with a session makes the classifier call first, at
    most two language-model calls and at most one call to the wiki, never
    constructs a client, and leaves the session in place. *)
Theorem query_call_budget (w : world) (self : agent) (user_query : string) (st : state) :
  handle st = true ->
  let st' := snd (query w self user_query st) in
  handle st' = true
  /\ (exists tail,
        events st' = (events st
                      ++ EvChat (Chat (model self) system_prompt user_query "0.1")
                      :: tail)%list
        /\ count_ev is_chat_call tail <= 1
        /\ count_ev is_api_call tail <= 1
        /\ count_ev is_new_call tail = 0).
Proof.
  intros Hh st'. subst st'.
  assert (Hrest : forall g k1 k2 content,
            (forall lvl msg, g (EvLog lvl msg) = false) ->
            (forall r, (if g (EvChat r) then 1 else 0) <= k1) ->
            (forall c, (if g (EvApi c) then 1 else 0) <= k2) ->
            within g (k2 + k1)
              (try_except
                 (analysis <- lift (json_loads w content) ;;
                  action <- lift (py_get analysis "action" (PStr "general")) ;;
                  confluence_data <- fetch w self user_query analysis action ;;
                  answer <- chat w (Chat (model self) synthesis_system
                                      (response_prompt user_query confluence_data)
                                      "0.7") ;;
                  log INFO ("Generated response for query: "
                            ++ take 50 user_query ++ "...") ;;
                  ret answer)
                 (fun e =>
                    log ERROR ("Error processing query: " ++ exn_str e) ;;
                    ret (error_answer (exn_str e))))).
  { intros g k1 k2 content Hl Hc Ha.
    apply (@within_try g _ (k2 + k1) 0); [lia | | intros e; within_free Hl].
    now apply within_query_rest. }
  assert (Hstep : forall A (r : chat_request) (K : string -> M A) (H : exn -> M A),
            try_except (bind (chat w r) K) H st
            = match chat_content w (events st) r with
              | Ok content =>
                  try_except (K content) H (State (handle st) (events st ++ [EvChat r]))
              | Raise e => H e (State (handle st) (events st ++ [EvChat r]))
              end).
  { intros A r K H. unfold try_except, bind, chat.
    destruct (chat_content w (events st) r); reflexivity. }
  unfold query, query_body. rewrite Hstep.
  set (request := Chat (model self) system_prompt user_query "0.1").
  set (st1 := State (handle st) (events st ++ [EvChat request])).
  assert (H1 : handle st1 = true) by exact Hh.
  destruct (chat_content w (events st) request) as [content|e].
  - destruct (Hrest is_chat_call 1 0 content is_chat_log
                ltac:(intros; simpl; lia) ltac:(intros; simpl; lia) st1 H1)
      as (Hh2 & t & Ht & Hc).
    destruct (Hrest is_api_call 0 1 content is_api_log
                ltac:(intros; simpl; lia) ltac:(intros; simpl; lia) st1 H1)
      as (_ & t' & Ht' & Ha).
    destruct (Hrest is_new_call 0 0 content is_new_log
                ltac:(intros; simpl; lia) ltac:(intros; simpl; lia) st1 H1)
      as (_ & t'' & Ht'' & Hn).
    rewrite Ht in Ht', Ht''. apply app_inv_head in Ht', Ht''. subst t' t''.
    split; [exact Hh2|]. exists t. rewrite Ht. subst st1. cbn [events].
    rewrite <- app_assoc. repeat split; try reflexivity; lia.
  - cbn. split; [exact Hh|].
    exists [EvLog ERROR ("Error processing query: " ++ exn_str e)].
    rewrite <- app_assoc. repeat split; try reflexivity; unfold count_ev; simpl; lia.
Qed.

Lemma query_call_budget_witness :
  handle connected = true
  /\ exists tail,
       events (snd (query wiki_not_found (assistant None) "how do we deploy?" connected))
       = (events connected
          ++ EvChat (Chat (model (assistant None)) system_prompt
                       "how do we deploy?" "0.1")
          :: tail)%list
       /\ count_ev is_chat_call tail <= 1
       /\ count_ev is_api_call tail <= 1
       /\ count_ev is_new_call tail = 0.
Proof.
  split; [reflexivity|].
  exact (proj2 (query_call_budget wiki_not_found (assistant None) "how do we deploy?"
                  connected eq_refl)).
Defined.

(** ** Dispatch *)

(** X4: what [query] asks of the wiki for a decision [d], run with a
    session.  The action [get_spaces] lists the spaces with the limit of the
    decision, 100 if it has none; [get_pages] with a non-empty resolved key
    lists the pages of that space with the limit of the decision or 50, and
    with an empty one lists the spaces with limit 100; [search] runs the CQL
    query built from the [search_query] entry (the text of the user only
    when the entry is absent) and the [space_key] entry, with the limit of
    the decision or 20; any other action searches for the text of the user
    in all spaces with limit 20.  In each case this is the first and the
    only call to the wiki. *)
Theorem dispatch_table (w : world) (self : agent) (user_query : string)
    (d : dict) (st : state) :
  handle st = true ->
  let run action := snd (fetch w self user_query (PDict d) action st) in
  let key := dict_get d "space_key" (opt_str (default_space (confluence self))) in
  first_and_only_call st (run (PStr "get_spaces"))
    (api_get_all_spaces (PInt 0) (dict_get d "max_results" (PInt 100))
       (Some "description.plain"))
  /\ (truthy key = true ->
      first_and_only_call st (run (PStr "get_pages"))
        (api_get_all_pages_from_space key (PInt 0)
           (dict_get d "max_results" (PInt 50)) "body.storage,version"))
  /\ (truthy key = false ->
      first_and_only_call st (run (PStr "get_pages"))
        (api_get_all_spaces (PInt 0) (PInt 100) (Some "description.plain")))
  /\ first_and_only_call st (run (PStr "search"))
       (api_cql (cql_for (dict_get d "search_query" (PStr user_query))
                         (dict_get d "space_key" PNone))
                (dict_get d "max_results" (PInt 20)) "body.storage,version,space")
  /\ (forall action,
        is_action action "get_spaces" = false ->
        is_action action "get_pages" = false ->
        is_action action "search" = false ->
        first_and_only_call st (run action)
          (api_cql (cql_for (PStr user_query) PNone) (PInt 20)
                   "body.storage,version,space")).
Proof.
  intros Hh run key. subst run. cbv beta.
  assert (L : forall A (v : pyval) (k : pyval -> M A), bind (lift (Ok v)) k = k v)
    by reflexivity.
  split; [|split; [|split; [|split]]].
  - unfold fetch. cbn [is_action String.eqb Ascii.eqb Bool.eqb py_get].
    rewrite L. operation_first.
  - intros Hk. unfold fetch. cbn [is_action String.eqb Ascii.eqb Bool.eqb py_get].
    rewrite L. fold key. rewrite Hk, L. operation_first.
  - intros Hk. unfold fetch. cbn [is_action String.eqb Ascii.eqb Bool.eqb py_get].
    rewrite L. fold key. rewrite Hk. operation_first.
  - unfold fetch. cbn [is_action String.eqb Ascii.eqb Bool.eqb py_get].
    rewrite !L. operation_first.
  - intros action H1 H2 H3. unfold fetch. rewrite H1, H2, H3. operation_first.
Qed.

Lemma dispatch_table_witness :
  handle connected = true
  /\ first_and_only_call connected
       (snd (fetch empty_wiki (assistant None) "how do we deploy?"
               (PDict deployment_decision) (PStr "search") connected))
       (api_cql ("text ~ " ++ dq ++ "deployment" ++ dq) (PInt 10)
                "body.storage,version,space")
  /\ is_action (PStr "Search") "search" = false
  /\ first_and_only_call connected
       (snd (fetch empty_wiki (assistant None) "how do we deploy?"
               (PDict deployment_decision) (PStr "Search") connected))
       (api_cql ("text ~ " ++ dq ++ "how do we deploy?" ++ dq) (PInt 20)
                "body.storage,version,space")
  /\ truthy (dict_get deployment_decision "space_key" (opt_str (Some "DEV"))) = true
  /\ first_and_only_call connected
       (snd (fetch empty_wiki (assistant (Some "DEV")) "how do we deploy?"
               (PDict deployment_decision) (PStr "get_pages") connected))
       (api_get_all_pages_from_space (PStr "DEV") (PInt 0) (PInt 10)
          "body.storage,version").
Proof.
  destruct (dispatch_table empty_wiki (assistant None) "how do we deploy?"
              deployment_decision connected eq_refl) as (_ & _ & _ & Hs & Hg).
  destruct (dispatch_table empty_wiki (assistant (Some "DEV")) "how do we deploy?"
              deployment_decision connected eq_refl) as (_ & Hp & _).
  split; [reflexivity|]. split; [exact Hs|]. split; [reflexivity|].
  split; [exact (Hg (PStr "Search") eq_refl eq_refl eq_refl)|].
  split; [reflexivity|]. exact (Hp eq_refl).
Defined.

(** X5: when the classifier call raises, or its answer does not parse, or
    parses to a value that has no [get] (not an object), the query ends
    there: the error is logged, the answer is the message for the text of
    the exception, and neither the wiki nor the synthesis call has been
    reached. *)
Theorem query_stops_at_classifier (w : world) (self : agent) (user_query : string)
    (st : state) (e : exn) :
  let request := Chat (model self) system_prompt user_query "0.1" in
  let stopped :=
    (Ok (error_answer (exn_str e)),
     after st [EvChat request; EvLog ERROR ("Error processing query: " ++ exn_str e)]) in
  (chat_content w (events st) request = Raise e ->
   query w self user_query st = stopped)
  /\ (forall content,
        chat_content w (events st) request = Ok content ->
        json_loads w content = Raise e ->
        query w self user_query st = stopped)
  /\ (forall content analysis,
        chat_content w (events st) request = Ok content ->
        json_loads w content = Ok analysis ->
        py_get analysis "action" (PStr "general") = Raise e ->
        query w self user_query st = stopped).
Proof.
  intros request stopped. split; [|split].
  - apply query_classifier_failure.
  - intros content. apply query_parse_failure.
  - intros content analysis H J G. subst stopped.
    cbv beta delta [query query_body try_except bind chat lift log emit ret after].
    fold request. rewrite H. cbn. rewrite J. cbn. rewrite G. cbn.
    now rewrite <- app_assoc.
Qed.

Lemma query_stops_at_classifier_witness :
  chat_content quota_at_classifier (events connected)
    (Chat (model (assistant None)) system_prompt "what spaces do we have?" "0.1")
  = Raise quota_exn
  /\ query quota_at_classifier (assistant None) "what spaces do we have?" connected
     = (Ok (error_answer (exn_str quota_exn)),
        after connected
          [EvChat (Chat (model (assistant None)) system_prompt
                     "what spaces do we have?" "0.1");
           EvLog ERROR ("Error processing query: " ++ exn_str quota_exn)]).
Proof.
  split; [reflexivity|].
  exact (proj1 (query_stops_at_classifier quota_at_classifier (assistant None)
                  "what spaces do we have?" connected quota_exn) eq_refl).
Defined.

(** ** What the connector returns *)

Lemma bind_ok {A B} (m : M A) (k : A -> M B) st b st' :
  bind m k st = (Ok b, st') ->
  exists a st1, m st = (Ok a, st1) /\ k a st1 = (Ok b, st').
Proof.
  unfold bind. destruct (m st) as [[a|e] st1]; intros H; [eauto | discriminate].
Qed.

Lemma try_reraise_ok {A} (m : M A) (h : exn -> M A) st a st' :
  (forall e s, exists e' s', h e s = (Raise e', s')) ->
  try_except m h st = (Ok a, st') -> m st = (Ok a, st').
Proof.
  intros Hh. unfold try_except. destruct (m st) as [[x|e] st1]; intros H; [exact H|].
  destruct (Hh e st1) as (e' & s' & E). rewrite E in H. discriminate.
Qed.

Lemma log_raise_raises {A} lvl msg e s :
  exists e' s', bind (log lvl msg) (fun _ => @raise A e) s = (Raise e', s').
Proof. eexists _, _. reflexivity. Qed.

Lemma api_ok w c st v st1 :
  api w c st = (Ok v, st1) -> confluence_api w (events st) c = Ok v.
Proof. unfold api. intros H. now injection H as H _. Qed.

Lemma map_result_Forall2 {A B} (f : A -> result B) l rs :
  map_result f l = Ok rs -> Forall2 (fun x r => f x = Ok r) l rs.
Proof.
  revert rs; induction l as [|x l IH]; simpl; intros rs H.
  - injection H as <-. constructor.
  - rinv H. injection H as <-. constructor; auto.
Qed.

Ltac minv H :=
  repeat match type of H with
         | bind (lift _) _ _ = (Ok _, _) =>
             let a := fresh "a" in
             let s := fresh "s" in
             let E := fresh "E" in
             apply bind_ok in H as (a & s & E & H);
             apply lift_run in E as [E ->]
         | bind (log _ _) _ _ = (Ok _, _) =>
             let a := fresh "a" in
             let s := fresh "s" in
             let E := fresh "E" in
             apply bind_ok in H as (a & s & E & H); clear E
         | bind _ _ _ = (Ok _, _) =>
             let a := fresh "a" in
             let s := fresh "s" in
             let E := fresh "E" in
             apply bind_ok in H as (a & s & E & H)
         | try_except _ _ _ = (Ok _, _) =>
             apply try_reraise_ok in H; [|intros; apply log_raise_raises]
         end.

Lemma space_record_keys space r : space_record space = Ok r -> keys r = space_keys.
Proof. unfold space_record. intros H. rinv H. now injection H as <-. Qed.

Lemma page_record_keys self space_key page r :
  page_record self space_key page = Ok r -> keys r = page_keys.
Proof. unfold page_record. intros H. rinv H. now injection H as <-. Qed.

Lemma search_record_keys self item r :
  search_record self item = Ok r -> keys r = search_keys.
Proof. unfold search_record. intros H. rinv H. now injection H as <-. Qed.

Lemma get_spaces_inv w self limit st records st' :
  get_spaces w self limit st = (Ok records, st') ->
  exists st1 response items,
    ensure_connected w self st = (Ok tt, st1)
    /\ confluence_api w (events st1)
         (api_get_all_spaces (PInt 0) limit (Some "description.plain")) = Ok response
    /\ results_of response = Ok items
    /\ Forall2 (fun item r => space_record item = Ok r) items records.
Proof.
  intros H. unfold get_spaces in H. minv H.
  destruct a. apply api_ok in E0. cbv in H. injection H as <- _.
  exists s, a0, a2. split; [exact E|]. split; [exact E0|].
  split; [unfold results_of; rewrite E1; exact E2|].
  now apply map_result_Forall2.
Qed.

Lemma get_pages_from_space_inv w self space_key limit st records st' :
  get_pages_from_space w self space_key limit st = (Ok records, st') ->
  exists st1 response items,
    ensure_connected w self st = (Ok tt, st1)
    /\ confluence_api w (events st1)
         (api_get_all_pages_from_space space_key (PInt 0) limit
            "body.storage,version") = Ok response
    /\ py_iter response = Ok items
    /\ Forall2 (fun item r => page_record self space_key item = Ok r) items records.
Proof.
  intros H. unfold get_pages_from_space in H. minv H.
  destruct a. apply api_ok in E0. cbv in H. injection H as <- _.
  exists s, a0, a1. split; [exact E|]. split; [exact E0|]. split; [exact E1|].
  now apply map_result_Forall2.
Qed.

Lemma search_content_inv w self query space_key max_results st records st' :
  search_content w self query space_key max_results st = (Ok records, st') ->
  exists st1 response items,
    ensure_connected w self st = (Ok tt, st1)
    /\ confluence_api w (events st1)
         (api_cql (cql_for query space_key) max_results
            "body.storage,version,space") = Ok response
    /\ results_of response = Ok items
    /\ Forall2 (fun item r => search_record self item = Ok r) items records.
Proof.
  intros H. unfold search_content in H. minv H.
  destruct a. apply api_ok in E0. cbv in H. injection H as <- _.
  exists s, a0, a2. split; [exact E|]. split; [exact E0|].
  split; [unfold results_of; rewrite E1; exact E2|].
  now apply map_result_Forall2.
Qed.

(** X6: Each list operation of the connector that returns has called the wiki
    once the session was there, and returns exactly one record per item of
    the answer, in the order of the answer, each record with the fixed
    fields of its kind. *)
Theorem records_follow_items (w : world) (self : connector) (st st' : state)
    (records : list dict) :
  (forall limit,
     get_spaces w self limit st = (Ok records, st') ->
     exists st1 response items,
       ensure_connected w self st = (Ok tt, st1)
       /\ confluence_api w (events st1)
            (api_get_all_spaces (PInt 0) limit (Some "description.plain")) = Ok response
       /\ results_of response = Ok items
       /\ Forall2 (fun item r => space_record item = Ok r /\ keys r = space_keys)
            items records)
  /\ (forall space_key limit,
        get_pages_from_space w self space_key limit st = (Ok records, st') ->
        exists st1 response items,
          ensure_connected w self st = (Ok tt, st1)
          /\ confluence_api w (events st1)
               (api_get_all_pages_from_space space_key (PInt 0) limit
                  "body.storage,version") = Ok response
          /\ py_iter response = Ok items
          /\ Forall2 (fun item r => page_record self space_key item = Ok r
                                    /\ keys r = page_keys)
               items records)
  /\ (forall query space_key max_results,
        search_content w self query space_key max_results st = (Ok records, st') ->
        exists st1 response items,
          ensure_connected w self st = (Ok tt, st1)
          /\ confluence_api w (events st1)
               (api_cql (cql_for query space_key) max_results
                  "body.storage,version,space") = Ok response
          /\ results_of response = Ok items
          /\ Forall2 (fun item r => search_record self item = Ok r
                                    /\ keys r = search_keys)
               items records).
Proof.
  split; [|split].
  - intros limit H.
    apply get_spaces_inv in H as (st1 & response & items & H1 & H2 & H3 & H4).
    exists st1, response, items. repeat (split; [assumption|]).
    eapply Forall2_impl; [|exact H4]. cbv beta. intros x r Hr.
    split; [exact Hr | eapply space_record_keys; eauto].
  - intros space_key limit H.
    apply get_pages_from_space_inv in H as (st1 & response & items & H1 & H2 & H3 & H4).
    exists st1, response, items. repeat (split; [assumption|]).
    eapply Forall2_impl; [|exact H4]. cbv beta. intros x r Hr.
    split; [exact Hr | eapply page_record_keys; eauto].
  - intros query space_key max_results H.
    apply search_content_inv in H as (st1 & response & items & H1 & H2 & H3 & H4).
    exists st1, response, items. repeat (split; [assumption|]).
    eapply Forall2_impl; [|exact H4]. cbv beta. intros x r Hr.
    split; [exact Hr | eapply search_record_keys; eauto].
Qed.

Lemma records_follow_items_witness :
  get_spaces small_wiki wiki (PInt 10) connected
  = (Ok [[("key", PStr "DEV"); ("name", PStr "Development"); ("type", PNone);
          ("description", PStr ""); ("page_count", PStr "")]],
     after connected
       [EvApi (api_get_all_spaces (PInt 0) (PInt 10) (Some "description.plain"));
        EvLog INFO "Retrieved 1 spaces"])
  /\ exists st1 response items,
       ensure_connected small_wiki wiki connected = (Ok tt, st1)
       /\ confluence_api small_wiki (events st1)
            (api_get_all_spaces (PInt 0) (PInt 10) (Some "description.plain"))
          = Ok response
       /\ results_of response = Ok items
       /\ Forall2 (fun item r => space_record item = Ok r /\ keys r = space_keys)
            items
            [[("key", PStr "DEV"); ("name", PStr "Development"); ("type", PNone);
              ("description", PStr ""); ("page_count", PStr "")]].
Proof.
  split; [reflexivity|].
  exact (proj1 (records_follow_items small_wiki wiki connected _ _) (PInt 10) eq_refl).
Defined.

Lemma search_record_previewable self item r :
  search_record self item = Ok r -> previewable "content" r = true.
Proof.
  unfold search_record. intros H. rinv H. injection H as <-.
  unfold previewable. cbn. apply orb_true_r.
Qed.

Lemma page_record_previewable self space_key page r :
  page_record self space_key page = Ok r -> previewable "content" r = true.
Proof.
  unfold page_record. intros H. rinv H. injection H as <-.
  unfold previewable. cbn.
  destruct a2 as [| | |body|l|d]; try discriminate E3; cbn in E3;
    injection E3 as <-; apply orb_true_r.
Qed.

Lemma Forall2_forallb {A B} (R : A -> B -> Prop) (P : B -> bool) l rs :
  (forall x r, R x r -> P r = true) -> Forall2 R l rs -> forallb P rs = true.
Proof.
  intros H F. induction F as [|x r l rs Hr _ IH]; simpl; [reflexivity|].
  now rewrite (H x r Hr), IH.
Qed.

Lemma format_search_total records :
  forallb (previewable "content") records = true ->
  exists out, _format_search_results records = Ok out.
Proof.
  intros H. destruct records as [|r rest]; [simpl; eauto|].
  unfold _format_search_results.
  apply enumerate_loop_total with (P := previewable "content");
    auto using search_entry_appends, search_entry_total.
Qed.

Lemma format_pages_total records space_key :
  forallb (previewable "content") records = true ->
  exists out, _format_pages records space_key = Ok out.
Proof.
  intros H. destruct records as [|r rest]; [simpl; eauto|].
  unfold _format_pages.
  apply enumerate_loop_total with (P := previewable "content");
    auto using page_entry_appends, page_entry_total.
Qed.

(** X7: The formatters of search results and of pages never raise on what
    [search_content] and [get_pages_from_space] return: the content of such
    a record is always text, or at least something that can be sliced. *)
Theorem formatters_accept_connector_output (w : world) (self : connector)
    (st st' : state) (records : list dict) :
  (forall query space_key max_results,
     search_content w self query space_key max_results st = (Ok records, st') ->
     exists out, _format_search_results records = Ok out)
  /\ (forall space_key limit shown,
        get_pages_from_space w self space_key limit st = (Ok records, st') ->
        exists out, _format_pages records shown = Ok out).
Proof.
  split.
  - intros query space_key max_results H.
    apply search_content_inv in H as (_ & _ & items & _ & _ & _ & F).
    apply format_search_total.
    eapply Forall2_forallb; [|exact F]. cbv beta. intros x r.
    apply search_record_previewable.
  - intros space_key limit shown H.
    apply get_pages_from_space_inv in H as (_ & _ & items & _ & _ & _ & F).
    apply format_pages_total.
    eapply Forall2_forallb; [|exact F]. cbv beta. intros x r.
    apply page_record_previewable.
Qed.

Lemma formatters_accept_connector_output_witness :
  search_content small_wiki wiki (PStr "welcome") PNone (PInt 20) connected
  = (Ok [[("id", PStr "1"); ("title", PStr "Home"); ("type", PStr "");
          ("space", PStr ""); ("space_name", PStr ""); ("content", PStr "Welcome");
          ("url", PStr "https://x.atlassian.net/wiki/spaces/DEV/pages/1");
          ("version", PInt 0)]],
     after connected
       [EvApi (api_cql ("text ~ " ++ dq ++ "welcome" ++ dq) (PInt 20)
                 "body.storage,version,space");
        EvLog INFO "Search returned 1 results for query: welcome"])
  /\ exists out,
       _format_search_results
         [[("id", PStr "1"); ("title", PStr "Home"); ("type", PStr "");
           ("space", PStr ""); ("space_name", PStr ""); ("content", PStr "Welcome");
           ("url", PStr "https://x.atlassian.net/wiki/spaces/DEV/pages/1");
           ("version", PInt 0)]] = Ok out.
Proof.
  split; [reflexivity|].
  exact (proj1 (formatters_accept_connector_output small_wiki wiki connected _ _)
           (PStr "welcome") PNone (PInt 20) eq_refl).
Defined.

Lemma prefix_take n s : prefix (take n s) s = true.
Proof.
  revert s; induction n as [|n IH]; intros [|c r]; simpl; try reflexivity.
  destruct (ascii_dec c c) as [_|N]; [apply IH | now elim N].
Qed.

(** X8: The content of a page record is the first 500 characters of the stored
    body, tags included: a prefix of the body of at most 500 characters,
    the whole body when it has no more; and the record carries the space key
    that was asked for, not one read from the answer. *)
Theorem page_content_is_prefix (self : connector) (space_key page : pyval)
    (r : dict) (body : string) :
  page_record self space_key page = Ok r ->
  get3 page "body" "storage" "value" (PStr "") = Ok (PStr body) ->
  lookup "content" r = Some (PStr (take 500 body))
  /\ String.length (take 500 body) <= 500
  /\ prefix (take 500 body) body = true
  /\ (String.length body <= 500 -> take 500 body = body)
  /\ lookup "space" r = Some space_key.
Proof.
  unfold page_record. intros H Hb. rinv H. rewrite Hb in E2. injection E2 as <-.
  cbn in E3. injection E3 as <-. injection H as <-.
  split; [reflexivity|]. split; [apply take_length_le|].
  split; [apply prefix_take|]. split; [|reflexivity].
  clear. revert body. generalize 500. induction n as [|n IH]; intros [|c s]; simpl;
    intros H; try reflexivity; try lia.
  now rewrite IH by lia.
Qed.

Lemma page_content_is_prefix_witness :
  page_record wiki (PStr "DEV") home_page
  = Ok [("id", PStr "1"); ("title", PStr "Home"); ("space", PStr "DEV");
        ("version", PInt 0); ("content", PStr "<h1>Welcome</h1>");
        ("url", PStr "https://x.atlassian.net/wiki/spaces/DEV/pages/1")]
  /\ get3 home_page "body" "storage" "value" (PStr "") = Ok (PStr "<h1>Welcome</h1>")
  /\ String.length "<h1>Welcome</h1>" <= 500
  /\ take 500 "<h1>Welcome</h1>" = "<h1>Welcome</h1>".
Proof.
  assert (R : page_record wiki (PStr "DEV") home_page
              = Ok [("id", PStr "1"); ("title", PStr "Home"); ("space", PStr "DEV");
                    ("version", PInt 0); ("content", PStr "<h1>Welcome</h1>");
                    ("url", PStr "https://x.atlassian.net/wiki/spaces/DEV/pages/1")])
    by reflexivity.
  assert (L : String.length "<h1>Welcome</h1>" <= 500) by (simpl; lia).
  destruct (page_content_is_prefix wiki (PStr "DEV") home_page _ "<h1>Welcome</h1>"
              R eq_refl) as (_ & _ & _ & Hall & _).
  split; [exact R|]. split; [reflexivity|]. split; [exact L|]. exact (Hall L).
Defined.

(** ** Stripped text *)

Lemma sub_tags_length s : String.length (Re.sub_tags s) <= String.length s.
Proof.
  remember (String.length s) as n eqn:Hn. revert s Hn.
  induction n as [n IH] using lt_wf_ind. intros [|c r] Hn.
  - subst n. vm_compute. lia.
  - rewrite sub_tags_cons. destruct (Re.tag_at (String c r)) as [rest|] eqn:E.
    + apply tag_at_shorter in E.
      pose proof (IH (String.length rest) ltac:(lia) rest eq_refl). lia.
    + simpl in *. pose proof (IH (String.length r) ltac:(lia) r eq_refl). lia.
Qed.

(** X9: The tag stripping of the connector never makes a text longer, and the
    texts it returns unchanged are exactly those in which no tag starts; in
    particular a text without [<] is returned as it is. *)
Theorem sub_tags_fixed_points (s : string) :
  String.length (Re.sub_tags s) <= String.length s
  /\ (Re.sub_tags s = s <-> Re.has_tag s = false)
  /\ (mem "<"%char s = false -> Re.sub_tags s = s).
Proof.
  split; [apply sub_tags_length|].
  assert (Hiff : Re.sub_tags s = s <-> Re.has_tag s = false).
  { induction s as [|c r IH].
    - split; reflexivity.
    - rewrite sub_tags_cons, has_tag_cons.
      destruct (Re.tag_at (String c r)) as [rest|] eqn:E.
      + split; [|discriminate]. intros H.
        apply tag_at_shorter in E. pose proof (sub_tags_length rest) as L.
        rewrite H in L. lia.
      + split.
        * intros H. injection H as H. now apply IH.
        * intros H. f_equal. now apply IH. }
  split; [exact Hiff|].
  intros Hm. apply Hiff. destruct (Re.has_tag s) eqn:T; [|reflexivity].
  apply has_tag_mem in T. rewrite Hm in T. discriminate.
Qed.

Lemma sub_tags_fixed_points_witness :
  mem "<"%char "2 > 1 and no markup" = false
  /\ Re.sub_tags "2 > 1 and no markup" = "2 > 1 and no markup".
Proof.
  split; [reflexivity|].
  exact (proj2 (proj2 (sub_tags_fixed_points "2 > 1 and no markup")) eq_refl).
Defined.

(** X10: With a session, a page that exists (a non-empty answer) and stores text
    is returned by [get_page_content] as the whole stripped text, after one call to the
    wiki and without any log; the snippet that [search_content] shows for
    the same stored body is the first 300 characters of that text. *)
Theorem page_content_and_snippet (w : world) (self : connector) (st : state)
    (page_id page : pyval) (body : string) :
  handle st = true ->
  confluence_api w (events st)
    (api_get_page_by_id page_id "body.storage,version,space") = Ok page ->
  truthy page = true ->
  get3 page "body" "storage" "value" (PStr "") = Ok (PStr body) ->
  get_page_content w self page_id st
  = (Ok (Some (Re.sub_tags body)),
        after st [EvApi (api_get_page_by_id page_id "body.storage,version,space")])
  /\ snippet (PStr body) = Ok (take 300 (Re.sub_tags body))
  /\ prefix (take 300 (Re.sub_tags body)) (Re.sub_tags body) = true.
Proof.
  intros Hh Hapi Ht Hb.
  split; [|split; [reflexivity | apply prefix_take]].
  cbv beta delta [get_page_content ensure_connected get_handle bind try_except api
                  lift ret after].
  rewrite Hh. cbn [handle events]. rewrite Hapi, Ht, Hb.
  cbn [re_sub_tags handle events]. rewrite ?Hh. reflexivity.
Qed.

Lemma page_content_and_snippet_witness :
  handle connected = true
  /\ confluence_api small_wiki (events connected)
       (api_get_page_by_id (PStr "1") "body.storage,version,space") = Ok home_page
  /\ get3 home_page "body" "storage" "value" (PStr "") = Ok (PStr "<h1>Welcome</h1>")
  /\ get_page_content small_wiki wiki (PStr "1") connected
     = (Ok (Some "Welcome"),
        after connected [EvApi (api_get_page_by_id (PStr "1") "body.storage,version,space")]).
Proof.
  split; [reflexivity|]. split; [reflexivity|]. split; [reflexivity|].
  exact (proj1 (page_content_and_snippet small_wiki wiki connected (PStr "1")
                  home_page "<h1>Welcome</h1>" eq_refl eq_refl eq_refl eq_refl)).
Defined.

(** ** Single-page lookups *)

(** X19: with a session, [get_page_content] and [get_page_by_title] never
    raise, whatever the wiki answers: each calls the wiki once, and then
    either returns with nothing logged, or has caught an exception (of the
    call, or of reading an answer of the wrong shape), logged it as one
    error and returned [None]. *)
Theorem page_lookups_never_raise (w : world) (self : connector) (st : state)
    (page_id space_key title : pyval) :
  handle st = true ->
  (exists r tail,
     get_page_content w self page_id st
     = (Ok r, after st (EvApi (api_get_page_by_id page_id "body.storage,version,space")
                        :: tail))
     /\ ends_quietly_or_logged "Failed to get page content: " r tail)
  /\ (exists r tail,
        get_page_by_title w self space_key title st
        = (Ok r, after st (EvApi (api_get_page_by_title space_key title) :: tail))
        /\ ends_quietly_or_logged "Failed to get page by title: " r tail).
Proof.
  intros Hh. unfold ends_quietly_or_logged. split.
  - cbv beta delta [get_page_content ensure_connected get_handle bind try_except api
                    lift ret log emit after].
    rewrite Hh. cbn [handle events]. rewrite ?Hh.
    destruct (confluence_api w (events st) _) as [page|e].
    + destruct (truthy page).
      * destruct (get3 page "body" "storage" "value" (PStr "")) as [content|e].
        -- destruct (re_sub_tags content) as [text|e].
           ++ eexists _, []. split; [reflexivity | now left].
           ++ eexists _, [_]; cbn [handle events]; rewrite <- app_assoc;
                split; [reflexivity | right; eauto].
        -- eexists _, [_]; cbn [handle events]; rewrite <- app_assoc;
        split; [reflexivity | right; eauto].
      * eexists _, []. split; [reflexivity | now left].
    + eexists _, [_]; cbn [handle events]; rewrite <- app_assoc;
        split; [reflexivity | right; eauto].
  - cbv beta delta [get_page_by_title ensure_connected get_handle bind try_except api
                    lift ret log emit after].
    rewrite Hh. cbn [handle events]. rewrite ?Hh.
    destruct (confluence_api w (events st) _) as [page|e].
    + destruct (truthy page).
      * destruct (py_get page "id" PNone) as [id|e];
          [|eexists _, [_]; cbn [handle events]; rewrite <- app_assoc;
            split; [reflexivity | right; eauto]].
        destruct (py_get page "title" PNone) as [ptitle|e];
          [|eexists _, [_]; cbn [handle events]; rewrite <- app_assoc;
            split; [reflexivity | right; eauto]].
        destruct (get2 page "_links" "webui" (PStr "")) as [webui|e];
          [|eexists _, [_]; cbn [handle events]; rewrite <- app_assoc;
            split; [reflexivity | right; eauto]].
        destruct (page_url self webui) as [link|e];
          [|eexists _, [_]; cbn [handle events]; rewrite <- app_assoc;
            split; [reflexivity | right; eauto]].
        eexists _, []. split; [reflexivity | now left].
      * eexists _, []. split; [reflexivity | now left].
    + eexists _, [_]; cbn [handle events]; rewrite <- app_assoc;
        split; [reflexivity | right; eauto].
Qed.

Lemma page_lookups_never_raise_witness :
  handle connected = true
  /\ exists r tail,
       get_page_by_title failing_wiki wiki (PStr "DEV") (PStr "Home") connected
       = (Ok r, after connected
                  (EvApi (api_get_page_by_title (PStr "DEV") (PStr "Home")) :: tail))
       /\ ends_quietly_or_logged "Failed to get page by title: " r tail.
Proof.
  split; [reflexivity|].
  exact (proj2 (page_lookups_never_raise failing_wiki wiki connected PNone
                  (PStr "DEV") (PStr "Home") eq_refl)).
Defined.

Example malformed_page_is_swallowed :
  get_page_content
    (World (fun _ => Ok tt) (fun _ _ => Ok (PList [PInt 1]))
       (fun _ _ => Ok "") (fun _ => Ok PNone))
    wiki (PStr "1") connected
  = (Ok None,
     after connected
       [EvApi (api_get_page_by_id (PStr "1") "body.storage,version,space");
        EvLog ERROR ("Failed to get page content: "
                     ++ "'list' object has no attribute 'get'")]).
Proof. reflexivity. Qed.

(** ** Letter case in the error mapping *)

Lemma lower_ascii_caseless c : caseless_char c = true -> lower_ascii c = c.
Proof.
  unfold caseless_char, lower_ascii. cbv zeta.
  destruct ((65 <=? nat_of_ascii c)%nat && (nat_of_ascii c <=? 90)%nat);
    [discriminate | reflexivity].
Qed.

Lemma lower_ascii_hits_caseless a c :
  caseless_char c = true -> lower_ascii a = c -> a = c.
Proof.
  unfold caseless_char, lower_ascii. cbv zeta. intros Hc.
  destruct ((65 <=? nat_of_ascii a)%nat && (nat_of_ascii a <=? 90)%nat) eqn:U;
    [|auto].
  intros <-. exfalso.
  apply andb_true_iff in U as [U1 U2].
  apply Nat.leb_le in U1, U2.
  rewrite nat_ascii_embedding in Hc by lia.
  apply andb_true_iff in Hc as [_ Hc]. apply negb_true_iff in Hc.
  apply andb_false_iff in Hc as [Hc|Hc]; apply Nat.leb_gt in Hc; lia.
Qed.

Lemma prefix_lower d s : caseless d = true -> prefix d (lower s) = prefix d s.
Proof.
  revert s; induction d as [|c d IH]; intros s Hd; [destruct s; reflexivity|].
  simpl in Hd. apply andb_true_iff in Hd as [Hc Hd].
  destruct s as [|a s]; [reflexivity|]. simpl.
  destruct (ascii_dec c (lower_ascii a)) as [E|N], (ascii_dec c a) as [E'|N'];
    auto.
  - elim N'. symmetry. apply lower_ascii_hits_caseless; auto.
  - elim N. subst a. symmetry. now apply lower_ascii_caseless.
Qed.

Lemma contains_lower d s : caseless d = true -> contains d (lower s) = contains d s.
Proof.
  intros Hd. induction s as [|a s IH].
  - reflexivity.
  - change (lower (String a s)) with (String (lower_ascii a) (lower s)).
    cbn [contains]. rewrite IH.
    change (String (lower_ascii a) (lower s)) with (lower (String a s)).
    now rewrite prefix_lower.
Qed.

(** X11: The choice among the four answers of [query] to an error does not
    depend on the case of the letters of the error text: two texts that
    differ only in letter case get the same guidance, or each the generic
    message around its own text. *)
Theorem error_answer_ignores_case (msg msg' : string) :
  lower msg = lower msg' ->
  error_answer msg = error_answer msg'
  \/ (error_answer msg = generic_message msg
      /\ error_answer msg' = generic_message msg').
Proof.
  intros H. unfold error_answer.
  rewrite <- (contains_lower "429" msg eq_refl), <- (contains_lower "401" msg eq_refl),
          <- (contains_lower "404" msg eq_refl).
  rewrite <- (contains_lower "429" msg' eq_refl), <- (contains_lower "401" msg' eq_refl),
          <- (contains_lower "404" msg' eq_refl).
  rewrite H.
  destruct (contains "429" (lower msg') || contains "quota" (lower msg')
            || contains "insufficient_quota" (lower msg')); [now left|].
  destruct (contains "401" (lower msg') || contains "unauthorized" (lower msg'));
    [now left|].
  destruct (contains "404" (lower msg') || contains "model" (lower msg'));
    [now left | now right].
Qed.

Lemma error_answer_ignores_case_witness :
  lower "Unauthorized: bad key" = lower "UNAUTHORIZED: bad key"
  /\ error_answer "Unauthorized: bad key" = auth_message
  /\ error_answer "UNAUTHORIZED: bad key" = auth_message.
Proof.
  split; [reflexivity|].
  destruct (error_answer_ignores_case "Unauthorized: bad key" "UNAUTHORIZED: bad key"
              eq_refl) as [E | [E _]].
  - split; [reflexivity | rewrite <- E; reflexivity].
  - discriminate E.
Defined.

(** ** Construction *)

(** X12: Constructing the agent checks the OpenAI key first: without it (unset
    or empty) a [ValueError] is raised at once.  With the key and the
    OpenAI client, missing wiki credentials (any of the three unset or
    empty) raise a [ValueError] as well.  In both cases nothing has been
    called and nothing logged.  When the constructor returns, the session is
    set, exactly one client has been constructed, from the three
    credentials, followed by the verification probe, and the agent carries
    the model of the environment (the default one when none is set) and the
    optional default space. *)
Theorem agent_construction (w : world) (getenv : environ) (openai_client : result unit)
    (st : state) :
  let credentials :=
    truthy (opt_str (getenv "CONFLUENCE_URL"))
    && truthy (opt_str (getenv "CONFLUENCE_USERNAME"))
    && truthy (opt_str (getenv "CONFLUENCE_API_TOKEN")) in
  (truthy (opt_str (getenv "OPENAI_API_KEY")) = false ->
   ConfluenceGenAIAgent__init__ w getenv openai_client st
   = (Raise (Exn "ValueError" "OPENAI_API_KEY not found in environment variables"), st))
  /\ (truthy (opt_str (getenv "OPENAI_API_KEY")) = true ->
      openai_client = Ok tt -> credentials = false ->
      ConfluenceGenAIAgent__init__ w getenv openai_client st
      = (Raise (Exn "ValueError"
                  "Missing required Confluence credentials in environment variables"),
         st))
  /\ (forall self st',
        ConfluenceGenAIAgent__init__ w getenv openai_client st = (Ok self, st') ->
        handle st' = true
        /\ truthy (opt_str (getenv "OPENAI_API_KEY")) = true
        /\ credentials = true
        /\ self = Agent (match getenv "OPENAI_MODEL" with
                         | Some m => m
                         | None => "gpt-3.5-turbo"
                         end)
                        (Connector (text_of (getenv "CONFLUENCE_URL"))
                                   (text_of (getenv "CONFLUENCE_USERNAME"))
                                   (text_of (getenv "CONFLUENCE_API_TOKEN"))
                                   (getenv "CONFLUENCE_SPACE_KEY"))
        /\ exists tail,
             events st'
             = (events st
                ++ EvNew (text_of (getenv "CONFLUENCE_URL"))
                         (text_of (getenv "CONFLUENCE_USERNAME"))
                         (text_of (getenv "CONFLUENCE_API_TOKEN"))
                :: EvApi (api_get_all_spaces (PInt 0) (PInt 1) None) :: tail)%list
             /\ count_ev is_new_call tail = 0
             /\ count_ev is_api_call tail = 0).
Proof.
  intros credentials. unfold ConfluenceGenAIAgent__init__. split; [|split].
  - intros ->. reflexivity.
  - intros -> -> Hc. cbn [negb]. unfold ConfluenceConnector__init__.
    fold credentials. rewrite Hc. reflexivity.
  - intros self st'.
    destruct (truthy (opt_str (getenv "OPENAI_API_KEY"))); [|discriminate].
    cbn [negb]. unfold ConfluenceConnector__init__. fold credentials.
    destruct credentials.
    + cbn [negb]. destruct openai_client as [[]|e]; [|discriminate].
      cbv beta delta [bind lift set_handle ret connect try_except new_client api
                      log emit raise].
      cbn [handle events url username api_token].
      destruct (confluence_new w (events st)) as [[]|e]; [|discriminate].
      destruct (confluence_api w _ _) as [v|e]; intros H; injection H as <- <-;
        (split; [reflexivity|]); (split; [reflexivity|]); (split; [reflexivity|]);
        (split; [reflexivity|]); cbn [events]; rewrite <- !app_assoc; cbn [app];
        eexists; (split; [reflexivity|]); split; reflexivity.
    + cbn [negb]. destruct openai_client as [[]|e]; discriminate.
Qed.

Lemma agent_construction_witness :
  truthy (opt_str (blanked "OPENAI_API_KEY" "OPENAI_API_KEY")) = false
  /\ ConfluenceGenAIAgent__init__ small_wiki (blanked "OPENAI_API_KEY") (Ok tt)
       (State false [])
     = (Raise (Exn "ValueError" "OPENAI_API_KEY not found in environment variables"),
        State false [])
  /\ ConfluenceGenAIAgent__init__ small_wiki (blanked "CONFLUENCE_API_TOKEN") (Ok tt)
       (State false [])
     = (Raise (Exn "ValueError"
                 "Missing required Confluence credentials in environment variables"),
        State false [])
  /\ ConfluenceGenAIAgent__init__ small_wiki full_env (Ok tt) (State false [])
     = (Ok (Agent "gpt-3.5-turbo"
              (Connector "https://x.atlassian.net/wiki/" "bot@corp.test"
                 "ATATT3xFfGF0aBcDeFgHiJkLmNoP" None)),
        State true
          [EvNew "https://x.atlassian.net/wiki/" "bot@corp.test"
             "ATATT3xFfGF0aBcDeFgHiJkLmNoP";
           EvApi (api_get_all_spaces (PInt 0) (PInt 1) None);
           EvLog INFO "Successfully connected to Confluence as: bot@corp.test"])
  /\ handle (State true
               [EvNew "https://x.atlassian.net/wiki/" "bot@corp.test"
                  "ATATT3xFfGF0aBcDeFgHiJkLmNoP";
                EvApi (api_get_all_spaces (PInt 0) (PInt 1) None);
                EvLog INFO "Successfully connected to Confluence as: bot@corp.test"])
     = true.
Proof.
  destruct (agent_construction small_wiki (blanked "OPENAI_API_KEY") (Ok tt)
              (State false [])) as (H1 & _).
  destruct (agent_construction small_wiki (blanked "CONFLUENCE_API_TOKEN") (Ok tt)
              (State false [])) as (_ & H2 & _).
  destruct (agent_construction small_wiki full_env (Ok tt) (State false []))
    as (_ & _ & H3).
  split; [reflexivity|]. split; [exact (H1 eq_refl)|].
  split; [exact (H2 eq_refl eq_refl eq_refl)|]. split; [reflexivity|].
  exact (proj1 (H3 _ _ eq_refl)).
Defined.

(** ** The notice of the spaces *)

Lemma space_keys_items r :
  keys r = space_keys ->
  dict_item r "name" = Ok (dict_get r "name" PNone)
  /\ dict_item r "key" = Ok (dict_get r "key" PNone).
Proof.
  unfold keys, space_keys.
  destruct r as [|[k1 v1] [|[k2 v2] r]]; try discriminate.
  cbn [map fst]. intros H. injection H as -> -> _. split; reflexivity.
Qed.

Lemma space_lines_cat records text :
  Forall (fun r => keys r = space_keys) records ->
  space_lines records text = Ok (text ++ cat (map space_line records)).
Proof.
  intros F. revert text. induction F as [|r rest Hr _ IH]; intros text.
  - simpl. now rewrite app_nil_r_s.
  - destruct (space_keys_items r Hr) as [Hn Hk].
    cbn [space_lines]. rewrite Hn, Hk. cbn [rbind]. rewrite IH.
    cbn [map cat fold_right]. unfold space_line at 2.
    rewrite !app_assoc_s. reflexivity.
Qed.

(** X13: When [query] has no space key for [get_pages], the notice it builds
    from the spaces that [get_spaces] returned never fails on a missing
    field: it is the heading followed by one line per space, in order, with
    the name and the key of the space. *)
Theorem space_notice_lists_all (w : world) (self : connector) (limit : pyval)
    (st st' : state) (spaces : list dict) (heading : string) :
  get_spaces w self limit st = (Ok spaces, st') ->
  space_lines spaces heading = Ok (heading ++ cat (map space_line spaces))
  /\ List.length (map space_line spaces) = List.length spaces.
Proof.
  intros H. split; [|apply length_map].
  apply space_lines_cat.
  apply get_spaces_inv in H as (_ & _ & items & _ & _ & _ & F).
  induction F as [|x r l rs Hr _ IH]; constructor; [|exact IH].
  eapply space_record_keys; eauto.
Qed.

Lemma space_notice_lists_all_witness :
  get_spaces small_wiki wiki (PInt 100) connected
  = (Ok [[("key", PStr "DEV"); ("name", PStr "Development"); ("type", PNone);
          ("description", PStr ""); ("page_count", PStr "")]],
     after connected
       [EvApi (api_get_all_spaces (PInt 0) (PInt 100) (Some "description.plain"));
        EvLog INFO "Retrieved 1 spaces"])
  /\ space_lines
       [[("key", PStr "DEV"); ("name", PStr "Development"); ("type", PNone);
         ("description", PStr ""); ("page_count", PStr "")]]
       ("Space key not specified. Available spaces:" ++ nl)
     = Ok ("Space key not specified. Available spaces:" ++ nl
           ++ "- Development (Key: DEV)" ++ nl).
Proof.
  split; [reflexivity|].
  exact (proj1 (space_notice_lists_all small_wiki wiki (PInt 100) connected _ _
                  ("Space key not specified. Available spaces:" ++ nl) eq_refl)).
Defined.

(** ** The setup verification script *)

Section Setup.

Import VerifySetup.

(** X14: The version check accepts only versions from 3.9 on, and for major
    version 3 exactly those with minor version 9 or more; but it compares
    the two numbers separately, so a later major version with a minor
    version below 9 is turned down. *)
Theorem python_version_check (v : version_info) :
  let accepted := snd (check_python_version v) in
  (accepted = true ->
   (3 < major v \/ (major v = 3 /\ 9 <= minor v))%Z)
  /\ (major v = 3%Z -> (accepted = true <-> (9 <= minor v)%Z))
  /\ ((3 < major v)%Z -> (minor v < 9)%Z -> accepted = false).
Proof.
  intros accepted. subst accepted. unfold check_python_version.
  destruct (Z.leb_spec 3 (major v)), (Z.leb_spec 9 (minor v)); cbn [andb snd];
    repeat split; intros; try discriminate; try reflexivity; lia.
Qed.

Example python_4_0_turned_down :
  check_python_version (Version 4 0 0)
  = ([bad_mark ++ " Python version 4.0.0 is too old. Need 3.9+";
      "   The atlassian-python-api library requires Python 3.9 or higher"],
     false).
Proof. reflexivity. Qed.

Lemma python_version_check_witness :
  (3 < major (Version 4 0 0))%Z /\ (minor (Version 4 0 0) < 9)%Z
  /\ snd (check_python_version (Version 4 0 0)) = false.
Proof.
  assert (A : (3 < major (Version 4 0 0))%Z) by (simpl; lia).
  assert (B : (minor (Version 4 0 0) < 9)%Z) by (simpl; lia).
  split; [exact A|]. split; [exact B|].
  exact (proj2 (proj2 (python_version_check (Version 4 0 0))) A B).
Defined.

End Setup.

Section SetupDependencies.

Import VerifySetup.

Lemma import_step_lists v imp acc package :
  missing (import_step v imp acc package) = (missing acc ++ not_installed imp package)%list
  /\ import_errors (import_step v imp acc package)
     = (import_errors acc ++ crashed imp package)%list.
Proof.
  destruct package as [n p]. unfold import_step, not_installed, crashed. cbn [fst snd].
  destruct (imp n) as [| |m]; cbn [missing import_errors]; rewrite ?app_nil_r; auto.
  destruct (contains "not subscriptable" m || contains "dict[" m);
    cbn [missing import_errors]; rewrite ?app_nil_r; auto.
Qed.

Lemma import_loop_lists v imp packages :
  forall acc,
    missing (fold_left (import_step v imp) packages acc)
    = (missing acc ++ flat_map (not_installed imp) packages)%list
    /\ import_errors (fold_left (import_step v imp) packages acc)
       = (import_errors acc ++ flat_map (crashed imp) packages)%list.
Proof.
  induction packages as [|package rest IH]; intros acc; cbn [fold_left flat_map].
  - now rewrite !app_nil_r.
  - destruct (IH (import_step v imp acc package)) as [-> ->].
    destruct (import_step_lists v imp acc package) as [-> ->].
    now rewrite <- !app_assoc.
Qed.

Lemma check_dependencies_result v imp :
  snd (check_dependencies v imp)
  = let errors := flat_map (crashed imp) required_packages in
    let lost := flat_map (not_installed imp) required_packages in
    negb (truthy (PList (map PStr errors))
          && contains "atlassian" (py_str (PList (map PStr errors))))
    && negb (truthy (PList (map PStr lost))).
Proof.
  unfold check_dependencies. cbv zeta.
  destruct (import_loop_lists v imp required_packages (Imports [] [] [])) as [-> ->].
  cbn [missing import_errors app].
  destruct (truthy (PList (map PStr (flat_map (crashed imp) required_packages)))
            && contains "atlassian"
                 (py_str (PList (map PStr (flat_map (crashed imp) required_packages)))));
    [reflexivity|].
  destruct (truthy (PList (map PStr (flat_map (not_installed imp) required_packages))));
    reflexivity.
Qed.

(** X15: The dependency check passes exactly when [atlassian] imports and none
    of [openai], [dotenv] and [requests] is reported as not installed: an
    import of one of these three that fails with another exception is
    printed as failed but does not fail the check. *)
Theorem dependencies_check (v : version_info) (imp : string -> import_outcome) :
  snd (check_dependencies v imp) = true
  <-> imp "atlassian" = Imported
      /\ imp "openai" <> NotInstalled
      /\ imp "dotenv" <> NotInstalled
      /\ imp "requests" <> NotInstalled.
Proof.
  rewrite check_dependencies_result.
  unfold required_packages, crashed, not_installed. cbn [flat_map fst snd].
  destruct (imp "atlassian") as [| |m1]; destruct (imp "openai") as [| |m2];
    destruct (imp "dotenv") as [| |m3]; destruct (imp "requests") as [| |m4];
    vm_compute;
    (split; [intros H; try discriminate H;
             repeat split; try reflexivity; discriminate
            | intros (H1 & H2 & H3 & H4);
              try discriminate H1; try (now elim H2); try (now elim H3);
              try (now elim H4); reflexivity]).
Qed.

Example openai_crash_passes :
  check_dependencies (Version 3 11 4)
    (fun name => if String.eqb name "openai" then Crashed "boom" else Imported)
  = ([ok_mark ++ " atlassian is installed";
      bad_mark ++ " openai import failed: boom";
      ok_mark ++ " python-dotenv is installed";
      ok_mark ++ " requests is installed"],
     true).
Proof. reflexivity. Qed.

Lemma dependencies_check_witness :
  let imp := fun name => if String.eqb name "openai" then Crashed "boom" else Imported in
  (imp "atlassian" = Imported
   /\ imp "openai" <> NotInstalled
   /\ imp "dotenv" <> NotInstalled
   /\ imp "requests" <> NotInstalled)
  /\ snd (check_dependencies (Version 3 11 4) imp) = true.
Proof.
  intros imp.
  assert (P : imp "atlassian" = Imported
              /\ imp "openai" <> NotInstalled
              /\ imp "dotenv" <> NotInstalled
              /\ imp "requests" <> NotInstalled)
    by (repeat split; discriminate).
  split; [exact P|].
  exact (proj2 (dependencies_check (Version 3 11 4) imp) P).
Defined.

End SetupDependencies.

Section SetupEnvironment.

Import VerifySetup.

Lemma length_app_s a b : String.length (a ++ b) = String.length a + String.length b.
Proof. induction a as [|c a IH]; simpl; [reflexivity | now rewrite IH]. Qed.

Lemma take_app_exact a b : take (String.length a) (a ++ b) = a.
Proof. induction a as [|c a IH]; simpl; [now destruct b | now rewrite IH]. Qed.

Lemma skip_app_exact a b : skip (String.length a) (a ++ b) = b.
Proof. induction a as [|c a IH]; simpl; [now destruct b | exact IH]. Qed.

Lemma masked_shows_ends a mid b :
  String.length a = 8 -> String.length b = 4 -> mid <> "" ->
  masked (a ++ mid ++ b) = a ++ "..." ++ b.
Proof.
  intros Ha Hb Hm. unfold masked, last_chars.
  assert (Hl : 0 < String.length mid) by (destruct mid; [contradiction | simpl; lia]).
  rewrite !length_app_s.
  destruct (Nat.ltb_spec 12 (String.length a + (String.length mid + String.length b)));
    [|lia].
  replace (take 8 (a ++ mid ++ b)) with a
    by (rewrite <- Ha; symmetry; apply take_app_exact).
  replace (String.length a + (String.length mid + String.length b) - 4)
    with (String.length (a ++ mid)) by (rewrite length_app_s; lia).
  replace (a ++ mid ++ b) with ((a ++ mid) ++ b) by apply app_assoc_s.
  now rewrite skip_app_exact.
Qed.

Lemma truthy_names l : truthy (PList (map PStr l)) = false <-> l = [].
Proof. destruct l; simpl; split; auto; discriminate. Qed.

Lemma configured_cases value :
  configured value = true <-> value <> None /\ placeholder value = false.
Proof.
  unfold configured, placeholder. destruct value as [v|].
  - rewrite negb_true_iff. split; [intros H; split; [discriminate | exact H] | now intros [_ H]].
  - split; [discriminate | now intros [H _]].
Qed.

(** What the loop of [check_env_file] has gathered after the variables
    [vars]. *)
Lemma var_loop getenv vars :
  forall acc,
    let final := fold_left (var_step getenv) vars acc in
    (missing_vars final = missing_vars acc /\ empty_vars final = empty_vars acc
     <-> forallb (fun var => configured (getenv var)) vars = true)
    /\ (forallb (fun var => configured (getenv var)) vars = true ->
        shown final = (shown acc ++ map (set_line getenv) vars)%list)
    /\ (exists more, missing_vars final = (missing_vars acc ++ more)%list)
    /\ (exists more, empty_vars final = (empty_vars acc ++ more)%list).
Proof.
  induction vars as [|var rest IH]; intros acc; cbn [fold_left forallb map].
  - cbv zeta. rewrite app_nil_r. repeat split; auto; exists []; now rewrite app_nil_r.
  - destruct (IH (var_step getenv acc var)) as (IH1 & IH2 & (m & IH3) & (e & IH4)).
    cbv zeta in *. unfold var_step in *. unfold set_line at 1.
    destruct (getenv var) as [v|] eqn:E; cbn [configured text_of].
    + destruct (String.eqb v "" || contains "your-" (lower v)
                || contains "example" (lower v)) eqn:P;
        cbn [negb andb shown missing_vars empty_vars] in *.
      * split; [|split; [discriminate | split]].
        -- split; [|discriminate]. intros [_ H]. rewrite IH4 in H.
           rewrite <- app_assoc in H. rewrite <- (app_nil_r (empty_vars acc)) in H at 2.
           apply app_inv_head in H. discriminate H.
        -- exists m. exact IH3.
        -- exists ([var] ++ e)%list. rewrite IH4. now rewrite <- app_assoc.
      * split; [exact IH1 | split; [|split; [exists m; exact IH3 | exists e; exact IH4]]].
        intros H. rewrite (IH2 H). now rewrite <- app_assoc.
    + cbn [negb andb shown missing_vars empty_vars] in *.
      split; [|split; [discriminate | split]].
      * split; [|discriminate]. intros [H _]. rewrite IH3 in H.
        rewrite <- app_assoc in H. rewrite <- (app_nil_r (missing_vars acc)) in H at 2.
        apply app_inv_head in H. discriminate H.
      * exists ([var] ++ m)%list. rewrite IH3. now rewrite <- app_assoc.
      * exists e. exact IH4.
Qed.

(** X16: The check of the environment file passes exactly when the file is
    there and each of the four required variables is configured.  When it
    passes, what it prints is the line for the file and one line per
    variable, and a line shows nothing of a value of at most 12 characters
    and only the first 8 and the last 4 characters of a longer one. *)
Theorem env_file_check (exists_ : bool) (getenv : environ) :
  (snd (check_env_file exists_ getenv) = true
   <-> exists_ = true
       /\ forallb (fun var => configured (getenv var)) required_vars = true)
  /\ (snd (check_env_file exists_ getenv) = true ->
      fst (check_env_file exists_ getenv)
      = (ok_mark ++ " .env file exists") :: map (set_line getenv) required_vars)
  /\ (forall v, String.length v <= 12 -> masked v = "***")
  /\ (forall a mid mid' b,
        String.length a = 8 -> String.length b = 4 -> mid <> "" -> mid' <> "" ->
        masked (a ++ mid ++ b) = a ++ "..." ++ b
        /\ masked (a ++ mid' ++ b) = masked (a ++ mid ++ b)).
Proof.
  assert (Main : forall acc,
            acc = Variables [ok_mark ++ " .env file exists"] [] [] ->
            let final := fold_left (var_step getenv) required_vars acc in
            (truthy (PList (map PStr (missing_vars final)))
             || truthy (PList (map PStr (empty_vars final))) = false
             <-> forallb (fun var => configured (getenv var)) required_vars = true)
            /\ (forallb (fun var => configured (getenv var)) required_vars = true ->
                shown final
                = (ok_mark ++ " .env file exists") :: map (set_line getenv) required_vars)).
  { intros acc Hacc final.
    destruct (var_loop getenv required_vars acc) as (H1 & H2 & _ & _).
    fold final in H1, H2. subst acc. cbn [missing_vars empty_vars shown app] in H1, H2.
    split; [|exact H2].
    rewrite orb_false_iff, !truthy_names. exact H1. }
  split; [|split; [|split]].
  - unfold check_env_file. destruct exists_; cbn [negb];
      [|split; [discriminate | intros [H _]; discriminate H]].
    destruct (Main _ eq_refl) as [H1 _]. cbv zeta in H1.
    destruct (truthy _ || truthy _); cbn [snd].
    + split; [discriminate|]. intros [_ H]. apply H1 in H. discriminate H.
    + split; [intros _; split; [reflexivity | now apply H1] | reflexivity].
  - unfold check_env_file. destruct exists_; cbn [negb]; [|discriminate].
    destruct (Main _ eq_refl) as [H1 H2]. cbv zeta in H1, H2.
    destruct (truthy _ || truthy _); cbn [snd fst]; [discriminate|].
    intros _. apply H2. now apply H1.
  - intros v Hv. unfold masked.
    destruct (Nat.ltb_spec 12 (String.length v)); [lia | reflexivity].
  - intros a mid mid' b Ha Hb Hm Hm'.
    rewrite !masked_shows_ends by assumption. split; reflexivity.
Qed.

Example full_env_report :
  check_env_file true full_env
  = ([ok_mark ++ " .env file exists";
      ok_mark ++ " CONFLUENCE_URL is set (https://...iki/)";
      ok_mark ++ " CONFLUENCE_USERNAME is set (bot@corp...test)";
      ok_mark ++ " CONFLUENCE_API_TOKEN is set (ATATT3xF...mNoP)";
      ok_mark ++ " OPENAI_API_KEY is set (sk-proj-...cdef)"],
     true).
Proof. reflexivity. Qed.

Lemma env_file_check_witness :
  (true = true
   /\ forallb (fun var => configured (full_env var)) required_vars = true)
  /\ snd (check_env_file true full_env) = true
  /\ String.length "sk-proj-" = 8 /\ String.length "cdef" = 4
  /\ masked ("sk-proj-" ++ "0123456789ab" ++ "cdef") = "sk-proj-" ++ "..." ++ "cdef".
Proof.
  assert (P : true = true
              /\ forallb (fun var => configured (full_env var)) required_vars = true)
    by (split; reflexivity).
  destruct (env_file_check true full_env) as (H1 & _ & _ & H4).
  split; [exact P|]. split; [exact (proj2 H1 P)|].
  split; [reflexivity|]. split; [reflexivity|].
  exact (proj1 (H4 "sk-proj-" "0123456789ab" "x" "cdef" eq_refl eq_refl
                  ltac:(discriminate) ltac:(discriminate))).
Defined.

End SetupEnvironment.

Section SetupConnections.

Import VerifySetup.

Lemma check_confluence_connection_cases w getenv imported st :
  exists out ok st',
    check_confluence_connection w getenv imported st = (Ok (out, ok), st')
    /\ (ok = true
        <-> exists connector st1 st2 spaces,
              imported = Ok tt
              /\ ConfluenceConnector__init__ getenv st = (Ok connector, st1)
              /\ connect w connector st1 = (Ok tt, st2)
              /\ get_spaces w connector (PInt 1) st2 = (Ok spaces, st')).
Proof.
  cbv beta zeta delta [check_confluence_connection try_except bind lift ret].
  destruct imported as [[]|e0].
  - destruct (ConfluenceConnector__init__ getenv st) as [[c|e1] st1] eqn:E1.
    + destruct (connect w c st1) as [[[]|e2] st2] eqn:E2.
      * destruct (get_spaces w c (PInt 1) st2) as [[spaces|e3] st3] eqn:E3.
        -- eexists _, _, _. split; [reflexivity|]. split; [|reflexivity].
           intros _. exists c, st1, st2, spaces. auto.
        -- eexists _, _, _. split; [reflexivity|]. split; [discriminate|].
           intros (c' & s1 & s2 & sp & _ & H1 & H2 & H3).
           injection H1 as <- <-. rewrite E2 in H2. injection H2 as <-.
           rewrite E3 in H3. discriminate H3.
      * eexists _, _, _. split; [reflexivity|]. split; [discriminate|].
        intros (c' & s1 & s2 & sp & _ & H1 & H2 & _).
        injection H1 as <- <-. rewrite E2 in H2. discriminate H2.
    + eexists _, _, _. split; [reflexivity|]. split; [discriminate|].
      intros (c' & s1 & s2 & sp & _ & H1 & _). discriminate H1.
  - eexists _, _, _. split; [reflexivity|]. split; [discriminate|].
    intros (c' & s1 & s2 & sp & H0 & _). discriminate H0.
Qed.

(** X17: The connection check of the setup script never raises.  It answers
    [True] exactly when the connector module imports, the connector is
    constructed from the environment, [connect] returns, and the listing of
    one space that follows returns: a wiki that [connect] could not verify
    is caught by that listing. *)
Theorem confluence_connection_check (w : world) (getenv : environ)
    (imported : result unit) (st : state) :
  exists out ok st',
    check_confluence_connection w getenv imported st = (Ok (out, ok), st')
    /\ (ok = true
        <-> exists connector st1 st2 spaces,
              imported = Ok tt
              /\ ConfluenceConnector__init__ getenv st = (Ok connector, st1)
              /\ connect w connector st1 = (Ok tt, st2)
              /\ get_spaces w connector (PInt 1) st2 = (Ok spaces, st')).
Proof. apply check_confluence_connection_cases. Qed.

Example unverified_wiki_fails_the_check :
  check_confluence_connection failing_wiki full_env (Ok tt) (State false [])
  = (Ok ([nl ++ lens_mark ++ " Testing Confluence connection...";
          warn_mark ++ "  Connection created but API test failed: "
            ++ exn_str unavailable;
          "   This might indicate:";
          "   - Incorrect API token";
          "   - Wrong Confluence URL";
          "   - Insufficient permissions";
          "   - Network/firewall issues"],
         false),
     State true
       [EvNew "https://x.atlassian.net/wiki/" "bot@corp.test"
          "ATATT3xFfGF0aBcDeFgHiJkLmNoP";
        EvApi (api_get_all_spaces (PInt 0) (PInt 1) None);
        EvLog WARNING ("Could not verify connection by getting spaces: "
                       ++ exn_str unavailable);
        EvLog INFO "Confluence connection initialized for: bot@corp.test";
        EvApi (api_get_all_spaces (PInt 0) (PInt 1) (Some "description.plain"));
        EvLog ERROR ("Failed to retrieve spaces: " ++ exn_str unavailable)]).
Proof. reflexivity. Qed.


Example ready_machine_passes :
  exists out st', main small_wiki ready_machine (State false []) = (Ok (out, 0%Z), st').
Proof. eexists _, _. vm_compute. reflexivity. Qed.

End SetupConnections.

(** ** The interactive program *)

Section Interactive.

Import Main.

Variable w : world.
Variable self : agent.



End Interactive.

Section WithinTurn.

Import Main.

Variable f : event -> bool.
Variables n1 n2 : nat.
Variable w : world.
Variable self : agent.

Hypothesis f_log : forall lvl msg, f (EvLog lvl msg) = false.
Hypothesis f_chat : forall r, (if f (EvChat r) then 1 else 0) <= n1.
Hypothesis f_api : forall c, (if f (EvApi c) then 1 else 0) <= n2.


End WithinTurn.

Section InteractiveLoop.

Import Main.

Variable w : world.
Variable self : agent.




End InteractiveLoop.



Example spaces_then_exit :
  Main.loop small_wiki (assistant None) 5
    [Main.Line "spaces"; Main.Line "  "; Main.Line " EXIT"; Main.Line "later"]
    [] connected
  = (Ok ([nl ++ "Available Spaces:";
          "  " ++ Main.bullet ++ " Development (Key: DEV)";
          "";
          nl ++ "Goodbye!"],
         Some [Main.Line "later"]),
     after connected
       [EvApi (api_get_all_spaces (PInt 0) (PInt 100) (Some "description.plain"));
        EvLog INFO "Retrieved 1 spaces"]).
Proof. reflexivity. Qed.




(** ** The interactive program as a whole *)






Example missing_key_exits :
  forall fuel typed,
    Main.main small_wiki (blanked "OPENAI_API_KEY") (Ok tt)
      (fun e => String.eqb (exn_class e) "ValueError") fuel typed (State false [])
    = (Ok ([Main.rule; "Confluence Gen AI Agent"; Main.rule; "";
            "Initializing Confluence connection and Gen AI agent...";
            "Configuration Error: OPENAI_API_KEY not found in environment variables";
            nl ++ "Please make sure you have:";
            "1. Created a .env file based on env_template.txt";
            "2. Filled in all required credentials"],
           Some 1%Z),
       State false []).
Proof. reflexivity. Qed.

(** ** Blank lines and the words that stop the loop *)

Section Strip.

Import Main.









End Strip.


